(** * splunk-mcp: response normalisation of the Splunk and SignalFx clients

    A shallow embedding of [splunk-client.ts] and [signalFx-client.ts]
    together with the properties of their normalisation layer.

    - [JS] models the JavaScript values the clients receive from
      [response.data] and the handful of language operations the clients
      apply to them (property reads, truthiness, [||], [?.], iteration,
      [String(...)], [trim], [toLowerCase], [startsWith]).
    - [Http] is the small monad the clients run in: an upstream server that
      answers requests, a log of the requests issued so far, exceptions.
    - [Splunk] embeds [SplunkClient]; [SignalFx] embeds [SignalFxClient].
    - [SplunkMore] and [SignalFxMore] embed the remaining methods of the
      two clients (health check, indexes and sourcetypes; constructor,
      operations, metrics); [Server] embeds the configuration and the
      trace search handler of [index.ts].
    - [Spec], [SpecMore] and [SpecTraces] hold the vocabulary of the
      properties and the payloads of the repository's test suite;
      [FloatOrder] holds the order of binary64 numbers; [SignalFxProps],
      [SplunkProps], [SplunkExtra] and [SignalFxExtra] hold the
      properties themselves.

    Console logging is not observable by any caller and is left out, except
    where evaluating the logged message can itself throw. *)

From Stdlib Require Import ZArith String Ascii List Bool Lia DecimalString.
From Stdlib Require Floats.
From stdpp Require Import base strings list gmap.

Set Warnings "-register-all".
Open Scope string_scope.
Open Scope Z_scope.
Open Scope list_scope.

(* ===================================================================== *)
(** * JavaScript values *)
(* ===================================================================== *)

Module JS.

(** A value as produced by JSON decoding, plus [undefined].  The numbers
    of these values are the integers among the numbers of the language
    (see [number_to_string]; the times of traces, which the tracing
    client adds and subtracts, are binary64 numbers in [SignalFx]); an
    object is the list of its own properties in property order, with
    pairwise distinct keys. *)
Inductive value : Type :=
| VUndef
| VNull
| VBool (b : bool)
| VNum (z : Z)
| VStr (s : string)
| VArr (xs : list value)
| VObj (fields : list (string * value)).

(** Exceptions.  [Error] is what the clients throw themselves and what the
    transport rejects with; [TypeError] and [SyntaxError] are raised by the
    language ([undefined.x], [x.map is not a function], [JSON.parse]). *)
Inductive exn : Type :=
| Error (message : string)
| TypeError
| SyntaxError.

(** The outcome of evaluating an expression or calling a function. *)
Inductive completion (A : Type) : Type :=
| Return (a : A)
| Throw (e : exn).
Arguments Return {A} a.
Arguments Throw {A} e.

#[export] Instance completion_ret : MRet completion := fun A a => Return a.
#[export] Instance completion_bind : MBind completion :=
  fun A B f m => match m with Return a => f a | Throw e => Throw e end.

(** [try { m } catch (error) { h error }] *)
Definition try_catch {A} (m : completion A) (h : exn -> completion A)
  : completion A :=
  match m with Return a => Return a | Throw e => h e end.

(** ** Truthiness and the short-circuit operators *)

Definition truthy (v : value) : bool :=
  match v with
  | VUndef | VNull => false
  | VBool b => b
  | VNum z => negb (z =? 0)
  | VStr s => negb (String.eqb s "")
  | VArr _ | VObj _ => true
  end.

(** [a || b] *)
Definition or_else (a b : value) : value := if truthy a then a else b.

Definition nullish (v : value) : bool :=
  match v with VUndef | VNull => true | _ => false end.

Definition isArray (v : value) : bool :=
  match v with VArr _ => true | _ => false end.

(** ** Property reads *)

Fixpoint lookup_field (k : string) (fs : list (string * value)) : value :=
  match fs with
  | [] => VUndef
  | (k', v) :: fs' => if String.eqb k k' then v else lookup_field k fs'
  end.

(** The own property [k] of an object, when it has one. *)
Definition assoc (k : string) (fs : list (string * value)) : option value :=
  option_map snd (List.find (fun kv => String.eqb k (fst kv)) fs).

Definition string_length (s : string) : Z := Z.of_nat (String.length s).

(** [v.k] for a property name [k].  Reading a property of [undefined] or
    [null] throws.  The names the clients read this way are never
    members of a prototype, [length] apart, which arrays and strings
    own; the one such name a client reads, [search], has its own
    definition with [listSavedSearches]. *)
Definition get (v : value) (k : string) : completion value :=
  match v with
  | VUndef | VNull => Throw TypeError
  | VObj fs => Return (lookup_field k fs)
  | VArr xs => Return (if String.eqb k "length"
                       then VNum (Z.of_nat (List.length xs)) else VUndef)
  | VStr s => Return (if String.eqb k "length"
                      then VNum (string_length s) else VUndef)
  | VBool _ | VNum _ => Return VUndef
  end.

(** [v?.k] *)
Definition get_opt (v : value) (k : string) : completion value :=
  if nullish v then Return VUndef else get v k.

(** [v[0]] *)
Definition first (v : value) : completion value :=
  match v with
  | VUndef | VNull => Throw TypeError
  | VArr xs => Return (match xs with x :: _ => x | [] => VUndef end)
  | VStr s => Return (match s with
                      | String c _ => VStr (String c "")
                      | "" => VUndef
                      end)
  | VObj fs => Return (lookup_field "0" fs)
  | VBool _ | VNum _ => Return VUndef
  end.

(** [v.length === 0] *)
Definition length_is_zero (v : value) : completion bool :=
  len ← get v "length";
  mret (match len with VNum z => z =? 0 | _ => false end).

(** The sequence a [for (const x of v)] loop walks through: the elements
    of an array, the characters of a string; anything else JSON can carry
    is not iterable. *)
Fixpoint chars (s : string) : list value :=
  match s with
  | "" => []
  | String c r => VStr (String c "") :: chars r
  end.

Definition iterate (v : value) : completion (list value) :=
  match v with
  | VArr xs => Return xs
  | VStr s => Return (chars s)
  | _ => Throw TypeError
  end.

(** [v.map(f)]: defined on arrays only; on any other value [map] is not a
    function (or the read of [map] itself throws). *)
Fixpoint map_throwing {A B} (f : A -> completion B) (xs : list A)
  : completion (list B) :=
  match xs with
  | [] => Return []
  | x :: xs' => y ← f x; ys ← map_throwing f xs'; mret (y :: ys)
  end.

Definition array_map (v : value) (f : value -> completion value)
  : completion (list value) :=
  match v with
  | VArr xs => map_throwing f xs
  | _ => Throw TypeError
  end.

(** ** Conversion to string: [String(v)] and template literals *)

(** A number is a binary64 value; [VNum z] stands for the number nearest
    to the integer [z], which is what a JSON text with that integer
    decodes to.  Of two numbers equally near, the one with the even
    significand is taken; from [2 ^ 1024 - 2 ^ 970] on the nearest number
    is [Infinity]. *)
Definition decimal (z : Z) : string := NilZero.string_of_int (Z.to_int z).

(** The magnitude of the number nearest to the integer [a >= 0]; [None]
    stands for [Infinity]. *)
Definition nearest_number (a : Z) : option Z :=
  if a <? 2 ^ 53 then Some a
  else
    let unit := 2 ^ (Z.log2 a - 52) in
    let q := a / unit in
    let r := a mod unit in
    let up := (unit <? 2 * r) || ((unit =? 2 * r) && Z.odd q) in
    let a' := (if up then q + 1 else q) * unit in
    if 2 ^ 1024 <=? a' then None else Some a'.

(** The decimal numeral with the fewest significant digits that denotes
    the number [v >= 2 ^ 53], and of those the nearest to [v]: [k] counts
    the significant digits tried, [D] the digits of [v].  Seventeen
    digits tell any two numbers apart. *)
Fixpoint shortest_numeral (fuel : nat) (v D k : Z) : Z :=
  match fuel with
  | O => v
  | S fuel' =>
      if D <=? k then v
      else
        let unit := 10 ^ (D - k) in
        let lo := v / unit * unit in
        let hi := lo + unit in
        let ok_lo := bool_decide (nearest_number lo = Some v) in
        let ok_hi := bool_decide (nearest_number hi = Some v) in
        if ok_lo && ok_hi then
          if (v - lo <? hi - v) || ((v - lo =? hi - v) && Z.even (lo / unit))
          then lo else hi
        else if ok_lo then lo
        else if ok_hi then hi
        else shortest_numeral fuel' v D (k + 1)
  end.

Fixpoint strip_zeros (digits : list ascii) : list ascii :=
  match digits with
  | [] => []
  | d :: rest =>
      match strip_zeros rest with
      | [] => if Ascii.eqb d "0" then [] else [d]
      | rest' => d :: rest'
      end
  end.

(** [String(n)] for a number [n] that is an integer: its shortest
    numeral, written out in full when it has at most 21 digits and with
    an exponent otherwise. *)
Definition number_to_string (z : Z) : string :=
  let sign := if z <? 0 then "-" else "" in
  match nearest_number (Z.abs z) with
  | None => sign +:+ "Infinity"
  | Some v =>
      let numeral :=
        if v <? 2 ^ 53 then v
        else shortest_numeral 17 v (Z.of_nat (String.length (decimal v))) 1 in
      let digits := decimal numeral in
      let n := Z.of_nat (String.length digits) in
      if n <=? 21 then sign +:+ digits
      else
        match strip_zeros (list_ascii_of_string digits) with
        | [] => sign +:+ digits
        | d :: rest =>
            sign +:+ String d (match rest with
                               | [] => ""
                               | _ => "." +:+ string_of_list_ascii rest
                               end)
                 +:+ "e+" +:+ decimal (n - 1)
        end
  end.

Fixpoint join_with (sep : string) (parts : list string) : string :=
  match parts with
  | [] => ""
  | [p] => p
  | p :: ps => p +:+ sep +:+ join_with sep ps
  end.

Fixpoint to_string (v : value) : string :=
  match v with
  | VUndef => "undefined"
  | VNull => "null"
  | VBool true => "true"
  | VBool false => "false"
  | VNum z => number_to_string z
  | VStr s => s
  | VArr xs =>
      join_with ","
        (List.map (fun x => if nullish x then "" else to_string x) xs)
  | VObj _ => "[object Object]"
  end.

(** ** String methods.  A character is one code unit below 256. *)

(** White space and line terminators of the language in that range:
    TAB, LF, VT, FF, CR, SP and NBSP. *)
Definition isWhiteSpace (c : ascii) : bool :=
  let n := nat_of_ascii c in
  ((9 <=? n)%nat && (n <=? 13)%nat) || (n =? 32)%nat || (n =? 160)%nat.

Fixpoint trimStart (s : string) : string :=
  match s with
  | "" => ""
  | String c r => if isWhiteSpace c then trimStart r else s
  end.

Fixpoint trimEnd (s : string) : string :=
  match s with
  | "" => ""
  | String c r =>
      match trimEnd r with
      | "" => if isWhiteSpace c then "" else String c ""
      | r' => String c r'
      end
  end.

Definition trim (s : string) : string := trimEnd (trimStart s).

(** Lower-casing: A-Z and the upper-case letters of the Latin-1 block
    (0xC0-0xDE without the multiplication sign 0xD7) move up by 32. *)
Definition lower_char (c : ascii) : ascii :=
  let n := nat_of_ascii c in
  if ((65 <=? n)%nat && (n <=? 90)%nat)
     || ((192 <=? n)%nat && (n <=? 222)%nat && negb (n =? 215)%nat)
  then ascii_of_nat (n + 32) else c.

Fixpoint toLowerCase (s : string) : string :=
  match s with
  | "" => ""
  | String c r => String (lower_char c) (toLowerCase r)
  end.

(** [s.startsWith(p)] *)
Definition startsWith (s p : string) : bool := String.prefix p s.

(** [s.replace(p, "")] for a string [s] that starts with [p]: the first
    occurrence of [p] is that prefix. *)
Fixpoint drop_chars (n : nat) (s : string) : string :=
  match n, s with
  | O, _ => s
  | S n', String _ r => drop_chars n' r
  | S _, "" => ""
  end.

Definition remove_prefix (p s : string) : string :=
  drop_chars (String.length p) s.

End JS.


(* ===================================================================== *)
(** * The transport: requests, the upstream server, the request log *)
(* ===================================================================== *)

Module Http.
Import JS.

Inductive method : Type := GET | POST.

(** One call of [client.get(url, {params})] or [client.post(url, body)].
    [B] is the type of what travels with it: the query parameters of a
    GET, the body of a POST. *)
Record request (B : Type) : Type := mkRequest {
  req_method : method;
  req_url : string;
  req_data : B
}.
Arguments mkRequest {B} _ _ _.
Arguments req_method {B} _.
Arguments req_url {B} _.
Arguments req_data {B} _.

Section Client.
Context {B D : Type}.

(** The upstream answers a request with [response.data], of type [D], or
    the call rejects with an exception. *)
Definition upstream : Type := request B -> completion D.

(** A client method: it reads the upstream, appends to the log of the
    requests issued so far, and returns or throws.  The log survives an
    exception. *)
Definition io (A : Type) : Type :=
  upstream -> list (request B) -> completion A * list (request B).

Definition io_ret {A} (a : A) : io A := fun _ log => (Return a, log).

Definition io_bind {A C} (m : io A) (f : A -> io C) : io C :=
  fun up log =>
    match m up log with
    | (Return a, log') => f a up log'
    | (Throw e, log') => (Throw e, log')
    end.

(** A computation that touches no network. *)
Definition lift {A} (c : completion A) : io A := fun _ log => (c, log).

Definition throw {A} (e : exn) : io A := lift (Throw e).

(** [await client.get(...)] / [await client.post(...)] *)
Definition send (r : request B) : io D :=
  fun up log => (up r, log ++ [r]).

(** [try { m } catch (error) { h error }] *)
Definition try_catch_io {A} (m : io A) (h : exn -> io A) : io A :=
  fun up log =>
    match m up log with
    | (Throw e, log') => h e up log'
    | done => done
    end.

(** Running a method against an upstream, from an empty log. *)
Definition run {A} (m : io A) (up : upstream) : completion A * list (request B) :=
  m up [].

Definition outcome {A} (m : io A) (up : upstream) : completion A :=
  fst (run m up).

Definition requests {A} (m : io A) (up : upstream) : list (request B) :=
  snd (run m up).

End Client.

Arguments upstream : clear implicits.
Arguments io : clear implicits.

#[export] Instance io_mret {B D} : MRet (io B D) := fun A => io_ret.
#[export] Instance io_mbind {B D} : MBind (io B D) :=
  fun A C f m => io_bind m f.

End Http.

(* ===================================================================== *)
(** * SplunkClient (splunk-client.ts) *)
(* ===================================================================== *)

Module Splunk.
Import JS Http.

(** Query parameters and form fields, by name. *)
Definition params : Type := list (string * value).

Definition client (A : Type) : Type := io params value A.

Definition json_mode : params := [("output_mode", VStr "json")].

(** ** searchSplunk *)

(** The query as it is sent: ['search '] is put in front of the original
    text unless the trimmed text starts with a pipe or with [search]. *)
Definition outbound_query (searchQuery : string) : string :=
  let strippedQuery := trim searchQuery in
  if negb (startsWith strippedQuery "|")
     && negb (startsWith (toLowerCase strippedQuery) "search")
  then "search " +:+ searchQuery
  else searchQuery.

(** [xmlData.match(/<sid>([^<]+)<\/sid>/)]: the leftmost [<sid>] that is
    followed by a non-empty run of characters other than [<] and then by
    [</sid>]; the run is the job id. *)
Fixpoint split_at_lt (s : string) : string * string :=
  match s with
  | "" => ("", "")
  | String c r =>
      if Ascii.eqb c "<" then ("", s)
      else let (body, rest) := split_at_lt r in (String c body, rest)
  end.

Definition match_sid_here (s : string) : option string :=
  if String.prefix "<sid>" s then
    let (body, rest) := split_at_lt (drop_chars 5 s) in
    if negb (String.eqb body "") && String.prefix "</sid>" rest
    then Some body else None
  else None.

Fixpoint match_sid (s : string) : option string :=
  match match_sid_here s with
  | Some sid => Some sid
  | None => match s with
            | "" => None
            | String _ r => match_sid r
            end
  end.

Definition extractSid (xmlData : value) : completion string :=
  match xmlData with
  | VStr s =>
      match match_sid s with
      | Some sid => Return sid
      | None => Throw (Error "Failed to extract job SID from response")
      end
  | _ => Throw TypeError
  end.

Definition searchSplunk (searchQuery earliestTime latestTime : string)
    (maxResults : Z) : client value :=
  if String.eqb searchQuery "" then
    throw (Error "Search query cannot be empty")
  else
    let searchQuery := outbound_query searchQuery in
    try_catch_io
      (jobData ← send (mkRequest POST "/services/search/jobs"
                         [("search", VStr searchQuery);
                          ("earliest_time", VStr earliestTime);
                          ("latest_time", VStr latestTime);
                          ("exec_mode", VStr "blocking")]);
       jobSid ← lift (extractSid jobData);
       resultsData ← send (mkRequest GET
                             ("/services/search/jobs/" +:+ jobSid +:+ "/results")
                             [("output_mode", VStr "json");
                              ("count", VNum maxResults)]);
       results ← lift (get resultsData "results");
       mret (or_else results (VArr [])))
      (fun error => throw error).

(** ** listIndexes

    The result is the [indexes] array of the object returned. *)

Definition listIndexes : client (list value) :=
  try_catch_io
    (data ← send (mkRequest GET "/services/data/indexes" json_mode);
     entry ← lift (get data "entry");
     indexes ← lift (array_map entry (fun entry => get entry "name"));
     mret indexes)
    (fun error => throw error).

(** ** getIndexInfo *)

Record SplunkIndex : Type := mkIndex {
  name : string;
  totalEventCount : string;
  currentDBSizeMB : string;
  maxTotalDataSizeMB : string;
  minTime : string;
  maxTime : string
}.

(** [!entry || entry.length === 0] *)
Definition missing_or_empty (entry : value) : completion bool :=
  if negb (truthy entry) then Return true else length_is_zero entry.

(** [String(content.k || "0")] *)
Definition counter (content : value) (k : string) : completion string :=
  v ← get content k; mret (to_string (or_else v (VStr "0"))).

Definition getIndexInfo (indexName : string) : client SplunkIndex :=
  try_catch_io
    (data ← send (mkRequest GET ("/services/data/indexes/" +:+ indexName)
                    json_mode);
     entry ← lift (get data "entry");
     none ← lift (missing_or_empty entry);
     if (none : bool) then
       throw (Error ("Index not found: " +:+ indexName))
     else
       lift (entry0 ← first entry;
             content ← get entry0 "content";
             totalEventCount ← counter content "totalEventCount";
             currentDBSizeMB ← counter content "currentDBSizeMB";
             maxTotalDataSizeMB ← counter content "maxTotalDataSizeMB";
             minTime ← counter content "minTime";
             maxTime ← counter content "maxTime";
             mret (mkIndex indexName totalEventCount currentDBSizeMB
                     maxTotalDataSizeMB minTime maxTime)))
    (fun error => throw error).

(** ** Loops over the entry envelope *)

(** [for (const x of xs) { try { out.push(f x) } catch { log } }]: an entry
    whose processing throws is skipped. *)
Fixpoint collect {A} (f : value -> completion A) (xs : list value) : list A :=
  match xs with
  | [] => []
  | x :: xs' =>
      match f x with
      | Return a => a :: collect f xs'
      | Throw _ => collect f xs'
      end
  end.

(** [response.data.entry || []], as the sequence a [for ... of] walks. *)
Definition entries_of (data : value) : completion (list value) :=
  entry ← get data "entry"; iterate (or_else entry (VArr [])).

(** ** listSavedSearches *)

(** What [content?.search] gives: a value of the payload, or, when the
    content is a string, the method [search] that every string
    inherits. *)
Inductive member : Type :=
| Own (v : value)
| Inherited.

Record SavedSearch : Type := mkSavedSearch {
  ss_name : value;
  ss_description : value;
  ss_search : member
}.

Definition get_opt_search (content : value) : completion member :=
  match content with
  | VStr _ => Return Inherited
  | _ => search ← get_opt content "search"; mret (Own search)
  end.

(** [m || d]: a method is truthy. *)
Definition member_or (m : member) (d : value) : member :=
  match m with
  | Own v => Own (or_else v d)
  | Inherited => Inherited
  end.

Definition savedSearch_of (entry : value) : completion SavedSearch :=
  name ← get entry "name";
  content ← get entry "content";
  description ← get_opt content "description";
  search ← get_opt_search content;
  mret (mkSavedSearch name (or_else description (VStr ""))
          (member_or search (VStr ""))).

Definition listSavedSearches : client (list SavedSearch) :=
  try_catch_io
    (data ← send (mkRequest GET "/services/saved/searches" json_mode);
     entries ← lift (entries_of data);
     mret (collect savedSearch_of entries))
    (fun error => throw error).

(** ** Users *)

Record SplunkUser : Type := mkUser {
  username : value;
  real_name : value;
  email : value;
  roles : list value;
  capabilities : list value;
  default_app : value;
  type : value
}.

(** [Array.isArray(v) ? v : v ? [v] : []] *)
Definition array_or_wrap (v : value) : list value :=
  match v with
  | VArr xs => xs
  | _ => if truthy v then [v] else []
  end.

(** [Array.isArray(v) ? v : []] *)
Definition array_or_empty (v : value) : list value :=
  match v with
  | VArr xs => xs
  | _ => []
  end.

Section Language.

(** Two conversions of the language that the clients reach only through
    [> 0] on a non-number and through [JSON.parse]: whether a text, read as
    a number, is positive, and the value a JSON text denotes. *)
Variable text_is_positive : string -> bool.
Variable JSON_parse : string -> completion value.

(** [v > 0] *)
Definition gt_zero (v : value) : bool :=
  match v with
  | VNum z => 0 <? z
  | VBool b => b
  | VUndef | VNull => false
  | VStr s => text_is_positive s
  | VArr _ => text_is_positive (to_string v)
  | VObj _ => false
  end.

(** [entry && entry.length > 0] *)
Definition present_and_nonempty (entry : value) : completion bool :=
  if truthy entry then len ← get entry "length"; mret (gt_zero len)
  else Return false.

(** The configured user name, [undefined] when the configuration has
    none. *)
Variable config_username : option string.

Definition configured_username : value :=
  or_else (from_option VStr VUndef config_username) (VStr "admin").

(** The body of the inner [try] of getCurrentUser: the name to use after
    the current-context lookup. *)
Definition username_from_context : client value :=
  contextData ← send (mkRequest GET "/services/authentication/current-context"
                        json_mode);
  lift (entry ← get contextData "entry";
        some ← present_and_nonempty entry;
        if (some : bool) then
          entry0 ← first entry;
          content ← get entry0 "content";
          username ← get_opt content "username";
          mret (if truthy username then username else configured_username)
        else mret configured_username).

Definition getCurrentUser : client SplunkUser :=
  try_catch_io
    (currentUsername ← try_catch_io username_from_context
                          (fun _ => mret configured_username);
     userData ← send (mkRequest GET
                        ("/services/authentication/users/"
                           +:+ to_string currentUsername)
                        json_mode);
     entry ← lift (get userData "entry");
     none ← lift (missing_or_empty entry);
     if (none : bool) then
       throw (Error ("User not found: " +:+ to_string currentUsername))
     else
       lift (entry0 ← first entry;
             content ← get entry0 "content";
             roles_v ← get content "roles";
             let roles := array_or_wrap roles_v in
             capabilities_v ← get content "capabilities";
             let capabilities := array_or_empty capabilities_v in
             realname ← get content "realname";
             email ← get content "email";
             defaultApp ← get content "defaultApp";
             type ← get content "type";
             mret (mkUser currentUsername
                     (or_else realname (VStr "N/A"))
                     (or_else email (VStr "N/A"))
                     roles capabilities
                     (or_else defaultApp (VStr "search"))
                     (or_else type (VStr "user")))))
    (fun error => throw error).

(** The body of the [try] inside the loop of listUsers. *)
Definition user_of (entry : value) : completion SplunkUser :=
  content ← get entry "content";
  roles_v ← get content "roles";
  let roles := array_or_wrap roles_v in
  capabilities_v ← get content "capabilities";
  let capabilities := array_or_wrap capabilities_v in
  name ← get entry "name";
  realname ← get content "realname";
  email ← get content "email";
  defaultApp ← get content "defaultApp";
  type ← get content "type";
  mret (mkUser name
          (or_else realname (VStr "N/A"))
          (or_else email (VStr "N/A"))
          roles capabilities
          (or_else defaultApp (VStr "search"))
          (or_else type (VStr "user"))).

(** The loop of listUsers.  Its [catch] logs [entry.name]: when the entry
    itself is [null] or [undefined] that read throws again and ends the
    loop. *)
Fixpoint listUsers_loop (entries : list value) (users : list SplunkUser)
  : completion (list SplunkUser) :=
  match entries with
  | [] => Return users
  | entry :: rest =>
      users' ← JS.try_catch
                 (user ← user_of entry; mret (users ++ [user]))
                 (fun _ => _ ← get entry "name"; mret users);
      listUsers_loop rest users'
  end.

Definition listUsers : client (list SplunkUser) :=
  try_catch_io
    (data ← send (mkRequest GET "/services/authentication/users" json_mode);
     lift (entries ← entries_of data; listUsers_loop entries []))
    (fun error => throw error).

(** ** KV store collections *)

Record KVStoreCollection : Type := mkCollection {
  kv_name : value;
  kv_app : value;
  kv_fields : list string;
  kv_accelerated_fields : list string;
  kv_record_count : value
}.

(** What a plain object inherits from. *)
Inductive prototype : Type :=
| ObjectPrototype
| NoPrototype
| ValuePrototype (v : value).

(** [collectionStats]: its own properties and its prototype.  A write to
    the key [__proto__] reaches the setter of [Object.prototype] when the
    chain still leads there: it replaces the prototype when the value is an
    object, an array or [null], and does nothing otherwise. *)
Record stats_object : Type := mkStats {
  own : gmap string value;
  proto : prototype
}.

Definition empty_stats : stats_object := mkStats ∅ ObjectPrototype.

Definition has_field (k : string) (fs : list (string * value)) : bool :=
  existsb (fun kv => String.eqb k (fst kv)) fs.

Definition proto_setter_reachable (p : prototype) : bool :=
  match p with
  | ObjectPrototype => true
  | NoPrototype => false
  | ValuePrototype (VObj fs) => negb (has_field "__proto__" fs)
  | ValuePrototype _ => true
  end.

(** [collectionStats[key] = v] *)
Definition stats_set (key : string) (v : value) (st : stats_object)
  : stats_object :=
  if String.eqb key "__proto__" && proto_setter_reachable (proto st) then
    match v with
    | VObj _ | VArr _ => mkStats (own st) (ValuePrototype v)
    | VNull => mkStats (own st) NoPrototype
    | _ => st
    end
  else mkStats (<[key := v]> (own st)) (proto st).

(** [collectionStats[key]] for a key that holds a dot, as every key the
    client looks up does: no member of [Object.prototype] or
    [Array.prototype] has such a name. *)
Definition stats_get (key : string) (st : stats_object) : value :=
  match own st !! key with
  | Some v => v
  | None =>
      match proto st with
      | ValuePrototype (VObj fs) => lookup_field key fs
      | _ => VUndef
      end
  end.

(** One round of the loop over [content.data]; a round that throws leaves
    the statistics as they were. *)
Definition stats_step (st : stats_object) (kvstore : value) : stats_object :=
  let round :=
    parsed ← match kvstore with
             | VStr s => JSON_parse s
             | _ => Return kvstore
             end;
    ns ← get parsed "ns";
    count ← get parsed "count";
    mret (if truthy ns && negb (match count with VUndef => true | _ => false end)
          then stats_set (to_string ns) count st
          else st) in
  match round with
  | Return st' => st'
  | Throw _ => st
  end.

(** The body of the [try] around the statistics request. *)
Definition fetch_stats : client stats_object :=
  statsData ← send (mkRequest GET
                      "/services/server/introspection/kvstore/collectionstats"
                      json_mode);
  lift (entry ← get statsData "entry";
        some ← present_and_nonempty entry;
        if (some : bool) then
          entry0 ← first entry;
          content ← get entry0 "content";
          data ← get content "data";
          items ← iterate (or_else data (VArr []));
          mret (fold_left stats_step items empty_stats)
        else mret empty_stats).

(** The keys a [for (key in content)] loop visits.  Only an object has
    keys that are not array indices, and the loop below ignores every key
    that is one; the others come in property order. *)
Definition keys_of (content : value) : list string :=
  match content with
  | VObj fs => List.map fst fs
  | _ => []
  end.

Definition field_names (prefix : string) (keys : list string) : list string :=
  List.map (remove_prefix prefix)
    (List.filter (fun key => startsWith key prefix) keys).

(** The body of the [try] inside the loop over the collections. *)
Definition collection_of (collectionStats : stats_object) (entry : value)
  : completion KVStoreCollection :=
  collectionName ← get entry "name";
  content ← get entry "content";
  acl ← get entry "acl";
  app_v ← get_opt acl "app";
  let app := or_else app_v (VStr "unknown") in
  let fields := field_names "field." (keys_of content) in
  let accelFields := field_names "accelerated_field." (keys_of content) in
  mret (mkCollection collectionName app fields accelFields
          (or_else
             (stats_get (to_string app +:+ "." +:+ to_string collectionName)
                collectionStats)
             (VNum 0))).

Definition listKVStoreCollections : client (list KVStoreCollection) :=
  try_catch_io
    (collectionStats ← try_catch_io fetch_stats (fun _ => mret empty_stats);
     data ← send (mkRequest GET "/servicesNS/-/-/storage/collections/config"
                    json_mode);
     entries ← lift (entries_of data);
     mret (collect (collection_of collectionStats) entries))
    (fun error => throw error).

End Language.

End Splunk.

(* ===================================================================== *)
(** * SignalFxClient (signalFx-client.ts, signalFx-types.ts) *)
(* ===================================================================== *)

Module SignalFx.
Import JS Http PrimFloat.

(** ** Numbers

    The times of spans and traces are binary64 numbers, with the
    arithmetic and the comparisons of the language: sums and differences
    are rounded, [Infinity], [-Infinity] and [NaN] are numbers like the
    others, and there are two zeros. *)
Abbreviation number := float.

Definition is_negative_zero (x : number) : bool :=
  match classify x with
  | FloatClass.NZero => true
  | _ => false
  end.

Definition is_positive_zero (x : number) : bool :=
  match classify x with
  | FloatClass.PZero => true
  | _ => false
  end.

(** One round of [Math.min]: [-0] is taken to be below [+0]. *)
Definition min_step (lowest x : number) : number :=
  if is_negative_zero x && is_positive_zero lowest then x
  else if (x <? lowest)%float then x
  else lowest.

(** One round of [Math.max]: [+0] is taken to be above [-0]. *)
Definition max_step (highest x : number) : number :=
  if is_positive_zero x && is_negative_zero highest then x
  else if (highest <? x)%float then x
  else highest.

(** [Math.min(...xs)] and [Math.max(...xs)]: [NaN] as soon as one
    argument is; without arguments they are [Infinity] and
    [-Infinity]. *)
Definition Math_min (xs : list number) : number :=
  if existsb is_nan xs then nan else fold_left min_step xs infinity.

Definition Math_max (xs : list number) : number :=
  if existsb is_nan xs then nan else fold_left max_step xs neg_infinity.

(** [(x as number) || d] for a time: [0], [-0] and [NaN] are falsy. *)
Definition time_or (x : option number) (d : number) : number :=
  match x with
  | Some t => if is_zero t || is_nan t then d else t
  | None => d
  end.

(** [(x as number) || d] for a count that is there or missing *)
Definition number_or (x : option Z) (d : Z) : Z :=
  match x with
  | Some z => if z =? 0 then d else z
  | None => d
  end.

(** [(x as string) || d] *)
Definition string_or (x : option string) (d : string) : string :=
  match x with
  | Some s => if String.eqb s "" then d else s
  | None => d
  end.

(** ** signalFx-types.ts, and the payloads as the casts of the client
    read them: every field may be missing. *)

Definition record : Type := list (string * value).

Inductive status : Type := ok | error | unset.

Record RawLog : Type := mkRawLog {
  raw_timestamp : option number;
  raw_fields : option record
}.

Record RawSpan : Type := mkRawSpan {
  raw_spanId : option string;
  raw_span_traceId : option string;
  raw_parentSpanId : option string;
  raw_operationName : option string;
  raw_serviceName : option string;
  raw_startTime : option number;
  raw_duration : option number;
  raw_tags : option record;
  raw_logs : option (list RawLog);
  raw_status : option status;
  raw_errorMessage : option string
}.

Record RawTrace : Type := mkRawTrace {
  raw_traceId : option string;
  raw_spans : option (list RawSpan)
}.

Record Log : Type := mkLog {
  log_timestamp : number;
  log_fields : record
}.

Record TraceSpan : Type := mkSpan {
  spanId : option string;
  span_traceId : option string;
  parentSpanId : option string;
  span_operationName : option string;
  serviceName : option string;
  span_startTime : number;
  span_duration : number;
  tags : record;
  logs : option (list Log);
  span_status : status;
  errorMessage : option string
}.

Record Trace : Type := mkTrace {
  traceId : string;
  spans : list TraceSpan;
  startTime : number;
  duration : number;
  services : list (option string);
  operationName : option string
}.

Record TraceSearchCriteria : Type := mkCriteria {
  c_service : option string;
  c_operation : option string;
  c_tags : option record;
  c_minDuration : option Z;
  c_maxDuration : option Z;
  c_error : option bool;
  c_limit : option Z;
  c_offset : option Z;
  c_startTime : option Z;
  c_endTime : option Z
}.

Record TraceSearchResult : Type := mkResult {
  traces : list Trace;
  totalCount : Z;
  limit : Z;
  offset : Z
}.

(** ** buildTraceQuery *)

(** The query object, as its properties in the order they are set. *)
Definition query : Type := record.

(** [if (x) { query.k = x }] for a string [x]: the empty string is
    falsy.  The key was not set before. *)
Definition set_if_truthy (k : string) (x : option string) (q : query) : query :=
  match x with
  | Some s => if String.eqb s "" then q else q ++ [(k, VStr s)]
  | None => q
  end.

(** [if (x !== undefined) { query.k = x }]; also [if (x) ...] for an
    object [x], which is truthy whenever it is there. *)
Definition set_if_defined {A} (inj : A -> value) (k : string) (x : option A)
    (q : query) : query :=
  match x with
  | Some a => q ++ [(k, inj a)]
  | None => q
  end.

Definition buildTraceQuery (criteria : TraceSearchCriteria) : query :=
  let query := [] in
  let query := set_if_truthy "service" (c_service criteria) query in
  let query := set_if_truthy "operation" (c_operation criteria) query in
  let query := set_if_defined VObj "tags" (c_tags criteria) query in
  let query := set_if_defined VNum "minDuration" (c_minDuration criteria) query in
  let query := set_if_defined VNum "maxDuration" (c_maxDuration criteria) query in
  let query := set_if_defined VBool "error" (c_error criteria) query in
  let query := set_if_defined VNum "startTime" (c_startTime criteria) query in
  let query := set_if_defined VNum "endTime" (c_endTime criteria) query in
  let query := query ++ [("limit", VNum (number_or (c_limit criteria) 100))] in
  let query := query ++ [("offset", VNum (number_or (c_offset criteria) 0))] in
  query.

(** ** parseTrace *)

Definition parseLog (log : RawLog) : Log :=
  mkLog (time_or (raw_timestamp log) 0%float)
        (from_option id [] (raw_fields log)).

Definition parseSpan (span : RawSpan) : TraceSpan :=
  let logs := raw_logs span in
  mkSpan (raw_spanId span)
         (raw_span_traceId span)
         (raw_parentSpanId span)
         (raw_operationName span)
         (raw_serviceName span)
         (time_or (raw_startTime span) 0%float)
         (time_or (raw_duration span) 0%float)
         (from_option id [] (raw_tags span))
         (option_map (List.map parseLog) logs)
         (from_option id unset (raw_status span))
         (raw_errorMessage span).

(** [Array.from(new Set(xs))]: a set keeps its members in the order they
    were first added. *)
Fixpoint set_add_all {A} `{EqDecision A} (members xs : list A) : list A :=
  match xs with
  | [] => members
  | x :: rest =>
      set_add_all (if decide (x ∈ members) then members else members ++ [x])
        rest
  end.

Definition unique {A} `{EqDecision A} (xs : list A) : list A :=
  set_add_all [] xs.

Definition parseTrace (traceData : RawTrace) : Trace :=
  let spans := List.map parseSpan (from_option id [] (raw_spans traceData)) in
  let services := unique (List.map serviceName spans) in
  let startTime := Math_min (List.map span_startTime spans ++ [infinity]) in
  let endTime :=
    Math_max (List.map (fun s => (span_startTime s + span_duration s)%float)
                spans ++ [neg_infinity]) in
  mkTrace (string_or (raw_traceId traceData) "")
          spans
          startTime
          (endTime - startTime)%float
          services
          (match spans with
           | [] => None
           | s :: _ => span_operationName s
           end).

(** ** searchTraces and getTraceDetails *)

Record SearchData : Type := mkSearchData {
  data_traces : option (list RawTrace);
  data_totalCount : option Z
}.

Definition searchTraces (criteria : TraceSearchCriteria)
  : io query SearchData TraceSearchResult :=
  try_catch_io
    (let query := buildTraceQuery criteria in
     data ← send (mkRequest POST "/traces/search" query);
     let traces := List.map parseTrace (from_option id [] (data_traces data)) in
     mret (mkResult traces
             (number_or (data_totalCount data) (Z.of_nat (List.length traces)))
             (number_or (c_limit criteria) 100)
             (number_or (c_offset criteria) 0)))
    (fun error => throw error).

Definition getTraceDetails (traceId : string) : io query RawTrace Trace :=
  if String.eqb traceId "" then throw (Error "Trace ID is required")
  else
    try_catch_io
      (data ← send (mkRequest GET ("/traces/" +:+ traceId) []);
       mret (parseTrace data))
      (fun error => throw error).

End SignalFx.

(* ===================================================================== *)
(** * Vocabulary of the properties, and the payloads of the test suite *)
(* ===================================================================== *)

Module Spec.
Import JS Http Splunk SignalFx PrimFloat.

(** ** Search queries *)

(** The text starts with [p]. *)
Definition has_prefix (p s : string) : Prop := exists rest, s = p +:+ rest.

(** [c] is the upper-case form of the ASCII lower-case letter [d]. *)
Definition upper_of (c d : ascii) : Prop :=
  (97 <= nat_of_ascii d <= 122)%nat /\ (nat_of_ascii c + 32 = nat_of_ascii d)%nat.

Definition same_letter (c d : ascii) : bool :=
  Ascii.eqb c d
  || ((97 <=? nat_of_ascii d)%nat && (nat_of_ascii d <=? 122)%nat
      && (nat_of_ascii c + 32 =? nat_of_ascii d)%nat).

(** The text starts with the word [p], written in any mix of cases. *)
Fixpoint has_prefix_any_case (p s : string) : Prop :=
  match p, s with
  | "", _ => True
  | String d p', String c s' => (c = d \/ upper_of c d) /\ has_prefix_any_case p' s'
  | String _ _, "" => False
  end.

Definition blank (s : string) : Prop :=
  Forall (fun c => isWhiteSpace c = true) (list_ascii_of_string s).

Definition starts_blank (s : string) : Prop :=
  match s with
  | String c _ => isWhiteSpace c = true
  | "" => False
  end.

Fixpoint ends_blank (s : string) : Prop :=
  match s with
  | "" => False
  | String c "" => isWhiteSpace c = true
  | String _ r => ends_blank r
  end.

(** [t] is [s] without the white space at its two ends. *)
Definition trimmed (s t : string) : Prop :=
  exists pre post, s = pre +:+ t +:+ post /\ blank pre /\ blank post /\
                   ~ starts_blank t /\ ~ ends_blank t.

(** ** The entry envelope *)

(** The envelope has no [entry], or an empty one. *)
Definition entry_missing_or_empty (data : value) : Prop :=
  get data "entry" = Return VUndef \/ get data "entry" = Return (VArr []).

Definition stats_request : request params :=
  mkRequest GET "/services/server/introspection/kvstore/collectionstats" json_mode.

Definition collections_request : request params :=
  mkRequest GET "/servicesNS/-/-/storage/collections/config" json_mode.

(** The statistics in use once the guarded fetch is over. *)
Definition stats_in_use (text_is_positive : string -> bool)
    (JSON_parse : string -> completion value) (up : upstream params value)
  : stats_object :=
  match outcome (fetch_stats text_is_positive JSON_parse) up with
  | Return st => st
  | Throw _ => empty_stats
  end.

(** Every field of a collection but the record count. *)
Definition description_of (c : KVStoreCollection)
  : value * value * list string * list string :=
  (kv_name c, kv_app c, kv_fields c, kv_accelerated_fields c).

(** The key under which the statistics hold the count of a collection. *)
Definition stats_key (c : KVStoreCollection) : string :=
  to_string (kv_app c) +:+ "." +:+ to_string (kv_name c).

(** ** Upstreams of the Splunk test suite *)

Definition no_upstream : upstream params value :=
  fun _ => Throw (Error "Network error").

Definition empty_envelope : upstream params value :=
  fun _ => Return (VObj [("entry", VArr [])]).

Definition no_envelope : upstream params value :=
  fun _ => Return (VObj []).

(** The index of the test [should get index info successfully]. *)
Definition main_index : upstream params value :=
  fun _ => Return
    (VObj [("entry",
       VArr [VObj [("content",
         VObj [("totalEventCount", VStr "1000000");
               ("currentDBSizeMB", VStr "500");
               ("maxTotalDataSizeMB", VStr "1000");
               ("minTime", VStr "1609459200");
               ("maxTime", VStr "1640995200")])]])]).

(** One entry, named [Test Search], with an empty content. *)
Definition bare_entry : upstream params value :=
  fun _ => Return
    (VObj [("entry",
       VArr [VObj [("name", VStr "Test Search"); ("content", VObj [])]])]).

(** The two answers of the test [should get current user info
    successfully]. *)
Definition admin_user : upstream params value :=
  fun r =>
    if String.eqb (req_url r) "/services/authentication/current-context"
    then Return (VObj [("entry",
                   VArr [VObj [("content",
                     VObj [("username", VStr "admin")])]])])
    else Return
      (VObj [("entry",
         VArr [VObj [("content",
           VObj [("realname", VStr "Administrator");
                 ("email", VStr "admin@example.com");
                 ("roles", VArr [VStr "admin"; VStr "user"]);
                 ("capabilities",
                  VArr [VStr "admin_all_objects"; VStr "search"]);
                 ("defaultApp", VStr "search");
                 ("type", VStr "Splunk")])]])]).

(** A job is created with id 12345 and has no results. *)
Definition job_12345 : upstream params value :=
  fun r =>
    match req_method r with
    | POST => Return (VStr "<response><sid>12345</sid></response>")
    | GET => Return (VObj [("results", VArr [])])
    end.

(** The current-context lookup fails, as in the test [should fallback to
    config username if context fails]; the user has scalar roles and
    capabilities. *)
Definition scalar_user_content : value :=
  VObj [("realname", VStr "Administrator");
        ("roles", VStr "admin");
        ("capabilities", VStr "search")].

Definition scalar_user : upstream params value :=
  fun r =>
    if String.eqb (req_url r) "/services/authentication/current-context"
    then Throw (Error "Context not available")
    else Return (VObj [("entry",
                        VArr [VObj [("name", VStr "admin");
                                    ("content", scalar_user_content)]])]).



(** The two collections of the test [should list KV store collections
    with stats]; the statistics arrive as objects. *)
Definition lookup_table : value :=
  VObj [("name", VStr "lookup_table");
        ("acl", VObj [("app", VStr "search")]);
        ("content", VObj [("field.id", VStr "number");
                          ("field.name", VStr "string");
                          ("accelerated_field.name", VStr "1")])].

Definition threat_list : value :=
  VObj [("name", VStr "threat_list");
        ("acl", VObj [("app", VStr "security")]);
        ("content", VObj [("field.ip", VStr "string");
                          ("field.severity", VStr "number")])].

Definition stats_available : upstream params value :=
  fun r =>
    if String.eqb (req_url r) (req_url stats_request)
    then Return
           (VObj [("entry",
              VArr [VObj [("content",
                VObj [("data",
                  VArr [VObj [("ns", VStr "search.lookup_table");
                              ("count", VNum 100)];
                        VObj [("ns", VStr "security.threat_list");
                              ("count", VNum 50)]])])]])])
    else Return (VObj [("entry", VArr [lookup_table; threat_list])]).

(** Stand-ins for the two conversions of the language, for upstreams
    that never reach them. *)
Definition no_parser : string -> completion value := fun _ => Throw SyntaxError.
Definition never_positive : string -> bool := fun _ => false.

(** ** Traces *)

(** The members of a list, each at the place of its first occurrence. *)
Fixpoint first_occurrences {A} `{EqDecision A} (xs : list A) : list A :=
  match xs with
  | [] => []
  | x :: rest =>
      x :: List.filter (fun y => negb (bool_decide (y = x)))
             (first_occurrences rest)
  end.

(** The time a payload gives: the number when there is one that is
    above or below zero, and 0 otherwise (for no number, a zero or
    [NaN]). *)
Definition given_time (x : option float) : float :=
  match x with
  | Some t => if (0 <? t)%float || (t <? 0)%float then t else 0%float
  | None => 0%float
  end.

(** The start and the end of a span, as its payload gives them. *)
Definition start_of (span : RawSpan) : float := given_time (raw_startTime span).

Definition end_of (span : RawSpan) : float :=
  (given_time (raw_startTime span) + given_time (raw_duration span))%float.

(** [m] is the least of the numbers [xs]: one of them that is below or
    equal to each; [Infinity] when there is none, and [NaN] when one of
    them is. *)
Definition minimum_of (xs : list float) (m : float) : Prop :=
  if existsb is_nan xs then m = nan
  else match xs with
       | [] => m = infinity
       | _ => In m xs /\ Forall (fun x => (m <=? x)%float = true) xs
       end.

(** [m] is the greatest of the numbers [xs]; [-Infinity] when there is
    none, and [NaN] when one of them is. *)
Definition maximum_of (xs : list float) (m : float) : Prop :=
  if existsb is_nan xs then m = nan
  else match xs with
       | [] => m = neg_infinity
       | _ => In m xs /\ Forall (fun x => (x <=? m)%float = true) xs
       end.

(** A string filter that is there and not empty. *)
Definition nonempty (x : option string) : option string :=
  match x with
  | Some "" => None
  | other => other
  end.

(** A number that is there and not zero, or else the default. *)
Definition nonzero_or (d : Z) (x : option Z) : Z :=
  match x with
  | Some 0 | None => d
  | Some z => z
  end.

(** The payload of the test [should fetch detailed trace information]. *)
Definition trace_456 : RawTrace :=
  mkRawTrace (Some "trace-456")
    (Some [ mkRawSpan (Some "span-1") (Some "trace-456") None
              (Some "http.request") (Some "api-gateway")
              (Some 1000000%float) (Some 150%float)
              (Some [("http.url", VStr "https://api.example.com/users");
                     ("http.method", VStr "GET")])
              None (Some ok) None;
            mkRawSpan (Some "span-2") (Some "trace-456") (Some "span-1")
              (Some "db.query") (Some "user-service")
              (Some 1000010%float) (Some 50%float)
              (Some [("db.type", VStr "postgresql")])
              (Some [mkRawLog (Some 1000020%float)
                       (Some [("event", VStr "query_start")])])
              (Some ok) None ]).

(** A filter that names the empty service. *)
Definition empty_service_criteria : TraceSearchCriteria :=
  mkCriteria (Some "") None None None None None None None None None.

(** The criteria of the test [should search traces with full criteria]. *)
Definition full_criteria : TraceSearchCriteria :=
  mkCriteria (Some "auth-service") (Some "login") None (Some 100) (Some 5000)
    (Some false) (Some 50) (Some 10) None None.

(** An upstream that answers a search with one trace and no total. *)
Definition one_trace_no_total : upstream query SearchData :=
  fun _ => Return (mkSearchData (Some [trace_456]) None).

End Spec.


(* ===================================================================== *)
(** * The rest of SplunkClient: healthCheck, getIndexesAndSourcetypes *)
(* ===================================================================== *)

Module SplunkMore.
Import JS Http Splunk.

(** ** types.ts: SplunkConfig *)

Record SplunkConfig : Type := mkConfig {
  host : string;
  port : Z;
  cfg_username : option string;
  cfg_password : option string;
  cfg_token : option string;
  scheme : string;
  verifySSL : bool
}.

(** ** healthCheck *)

Record SplunkApp : Type := mkApp {
  app_name : value;
  app_label : value;
  app_version : value
}.

Record Connection : Type := mkConnection {
  conn_host : string;
  conn_port : Z;
  conn_scheme : string;
  conn_username : value;
  conn_ssl_verify : bool
}.

Record HealthReport : Type := mkHealth {
  health_status : string;
  health_connection : Connection;
  apps_count : Z;
  apps : list SplunkApp
}.

(** The body of the [try] inside the loop of healthCheck. *)
Definition app_of (entry : value) : completion SplunkApp :=
  name ← get entry "name";
  content ← get entry "content";
  label ← get_opt content "label";
  version ← get_opt content "version";
  mret (mkApp name (or_else label name) (or_else version (VStr "unknown"))).

(** The loop of healthCheck.  As in listUsers, its [catch] logs
    [entry.name], which throws again when the entry is [null] or
    [undefined]. *)
Fixpoint healthCheck_loop (entries : list value) (apps : list SplunkApp)
  : completion (list SplunkApp) :=
  match entries with
  | [] => Return apps
  | entry :: rest =>
      apps' ← JS.try_catch
                (app ← app_of entry; mret (apps ++ [app]))
                (fun _ => _ ← get entry "name"; mret apps);
      healthCheck_loop rest apps'
  end.

Definition healthCheck (config : SplunkConfig) : client HealthReport :=
  try_catch_io
    (data ← send (mkRequest GET "/services/apps/local" json_mode);
     apps ← lift (entries ← entries_of data; healthCheck_loop entries []);
     mret (mkHealth "healthy"
             (mkConnection (host config) (port config) (scheme config)
                (or_else (from_option VStr VUndef (cfg_username config))
                   (VStr "N/A"))
                (verifySSL config))
             (Z.of_nat (List.length apps))
             apps))
    (fun error => throw error).

(** ** getIndexesAndSourcetypes *)

(** The query of the method, a template literal over five lines. *)
Definition sourcetypes_query : string :=
"
        | tstats count WHERE index=* BY index, sourcetype
        | stats count BY index, sourcetype
        | sort - count
      ".

Record SourcetypeCount : Type := mkSourcetypeCount {
  sourcetype : value;
  count : string
}.

(** The names a plain object inherits from [Object.prototype].  Read
    from [sourcetypesByIndex], each of them is there already and is no
    array. *)
Definition object_prototype_members : list string :=
  ["constructor"; "__defineGetter__"; "__defineSetter__"; "hasOwnProperty";
   "__lookupGetter__"; "__lookupSetter__"; "isPrototypeOf";
   "propertyIsEnumerable"; "toString"; "valueOf"; "__proto__";
   "toLocaleString"].

Abbreviation groups := (gmap string (list SourcetypeCount)).

(** One round of the loop over the results: the row is appended to the
    rows of its index, which start empty.  Under an inherited name there
    is something truthy without [push], and the call throws. *)
Definition group_step (sourcetypesByIndex : groups) (result : value)
  : completion groups :=
  index_v ← get result "index";
  let index := or_else index_v (VStr "") in
  sourcetype_v ← get result "sourcetype";
  let sourcetype := or_else sourcetype_v (VStr "") in
  count_v ← get result "count";
  let count := or_else count_v (VStr "0") in
  let key := to_string index in
  if bool_decide (key ∈ object_prototype_members) then Throw TypeError
  else
    let rows := default [] (sourcetypesByIndex !! key) in
    mret (<[key := rows ++ [mkSourcetypeCount sourcetype (to_string count)]]>
            sourcetypesByIndex).

Fixpoint group_all (sourcetypesByIndex : groups) (results : list value)
  : completion groups :=
  match results with
  | [] => Return sourcetypesByIndex
  | result :: rest =>
      sourcetypesByIndex' ← group_step sourcetypesByIndex result;
      group_all sourcetypesByIndex' rest
  end.

(** [Object.values(m).reduce((sum, st) => sum + st.length, 0)] *)
Definition total_rows (m : groups) : Z :=
  map_fold (fun _ st sum => sum + Z.of_nat (List.length st)) 0 m.

Record IndexesAndSourcetypes : Type := mkIndexesAndSourcetypes {
  indexes : list value;
  sourcetypes : groups;
  total_indexes : Z;
  total_sourcetypes : Z;
  search_time_range : string
}.

Definition getIndexesAndSourcetypes : client IndexesAndSourcetypes :=
  try_catch_io
    (indexes ← listIndexes;
     results ← searchSplunk sourcetypes_query "-24h" "now" 10000;
     sourcetypesByIndex ← lift (rows ← iterate results; group_all ∅ rows);
     mret (mkIndexesAndSourcetypes indexes sourcetypesByIndex
             (Z.of_nat (List.length indexes))
             (total_rows sourcetypesByIndex)
             "24 hours"))
    (fun error => throw error).

End SplunkMore.


(* ===================================================================== *)
(** * The rest of SignalFxClient: constructor, operations, metrics *)
(* ===================================================================== *)

Module SignalFxMore.
Import JS Http SignalFx.

(** ** The constructor *)

Record SignalFxConfig : Type := mkSignalFxConfig {
  accessToken : string;
  realm : option string;
  baseUrl : option string
}.

(** What the constructor keeps: the base URL of every request and the
    token sent in the [X-SF-Token] header. *)
Record SignalFxClient : Type := mkClient {
  client_baseUrl : string;
  client_token : string
}.

Definition new_SignalFxClient (config : SignalFxConfig)
  : completion SignalFxClient :=
  if String.eqb (accessToken config) "" then
    Throw (Error "SignalFx access token is required")
  else
    let realm := string_or (realm config) "us0" in
    Return (mkClient
              (string_or (baseUrl config)
                 ("https://api." +:+ realm +:+ ".signalfx.com/v2/apm"))
              (accessToken config)).

(** [x ? ... : ...] for a string that may be missing *)
Definition truthy_string (x : option string) : bool :=
  match x with
  | Some s => negb (String.eqb s "")
  | None => false
  end.

(** ** getServiceOperations *)

Record RawOperation : Type := mkRawOperation {
  raw_op_name : option string;
  raw_spanKind : option string;
  raw_op_tags : option record
}.

Record OperationsData : Type := mkOperationsData {
  data_operations : option (list RawOperation)
}.

Record Operation : Type := mkOperation {
  op_name : option string;
  op_serviceName : string;
  spanKind : option string;
  op_tags : option record
}.

Definition getServiceOperations (serviceName : string)
  : io query OperationsData (list Operation) :=
  if String.eqb serviceName "" then throw (Error "Service name is required")
  else
    try_catch_io
      (data ← send (mkRequest GET
                      ("/services/" +:+ serviceName +:+ "/operations") []);
       mret (List.map
               (fun op => mkOperation (raw_op_name op) serviceName
                            (raw_spanKind op) (raw_op_tags op))
               (from_option id [] (data_operations data))))
      (fun error => throw error).

(** ** getLatencyMetrics and getErrorMetrics

    The metrics are numbers of any kind: percentiles, counts, a rate.
    The client only asks of each whether it is falsy (zero or [NaN]) and
    puts zero in its place. *)

Section Metrics.
Variable num : Type.
Variable falsy : num -> bool.
Variable zero : num.

(** [(x as number) || 0] *)
Definition metric (x : option num) : num :=
  match x with
  | Some n => if falsy n then zero else n
  | None => zero
  end.

Record LatencyData : Type := mkLatencyData {
  data_p50 : option num;
  data_p75 : option num;
  data_p90 : option num;
  data_p99 : option num;
  data_mean : option num;
  data_min : option num;
  data_max : option num;
  data_sampleCount : option num
}.

Record LatencyMetrics : Type := mkLatency {
  lat_service : string;
  lat_operation : option string;
  p50 : num;
  p75 : num;
  p90 : num;
  p99 : num;
  mean : num;
  min : num;
  max : num;
  sampleCount : num
}.

(** [operation ? a : b]: an operation that is missing or empty selects
    the path of the service. *)
Definition metrics_path (service : string) (operation : option string)
    (kind : string) : string :=
  if truthy_string operation
  then "/services/" +:+ service +:+ "/operations/"
         +:+ from_option id "" operation +:+ "/" +:+ kind
  else "/services/" +:+ service +:+ "/" +:+ kind.

Definition getLatencyMetrics (service : string) (operation : option string)
  : io query LatencyData LatencyMetrics :=
  if String.eqb service "" then throw (Error "Service name is required")
  else
    try_catch_io
      (let path := metrics_path service operation "latency" in
       data ← send (mkRequest GET path []);
       mret (mkLatency service operation
               (metric (data_p50 data)) (metric (data_p75 data))
               (metric (data_p90 data)) (metric (data_p99 data))
               (metric (data_mean data)) (metric (data_min data))
               (metric (data_max data)) (metric (data_sampleCount data))))
      (fun error => throw error).

Record ErrorData : Type := mkErrorData {
  data_errorCount : option num;
  data_errTotalCount : option num;
  data_errorRate : option num;
  data_errorTypes : option (list (string * num))
}.

Record ErrorMetrics : Type := mkErrorMetrics {
  err_service : string;
  err_operation : option string;
  errorCount : num;
  err_totalCount : num;
  errorRate : num;
  errorTypes : list (string * num)
}.

Definition getErrorMetrics (service : string) (operation : option string)
  : io query ErrorData ErrorMetrics :=
  if String.eqb service "" then throw (Error "Service name is required")
  else
    try_catch_io
      (let path := metrics_path service operation "errors" in
       data ← send (mkRequest GET path []);
       mret (mkErrorMetrics service operation
               (metric (data_errorCount data))
               (metric (data_errTotalCount data))
               (metric (data_errorRate data))
               (from_option id [] (data_errorTypes data))))
      (fun error => throw error).

End Metrics.

End SignalFxMore.

(* ===================================================================== *)
(** * The entry process (index.ts): configuration and tool handlers *)
(* ===================================================================== *)

Module Server.
Import JS Http Splunk SignalFx SplunkMore SignalFxMore.

(** The environment variables the process reads; each may be unset. *)
Record Env : Type := mkEnv {
  SPLUNK_HOST : option string;
  SPLUNK_USERNAME : option string;
  SPLUNK_PASSWORD : option string;
  SPLUNK_TOKEN : option string;
  SPLUNK_SCHEME : option string;
  VERIFY_SSL : option string;
  SIGNALFX_ACCESS_TOKEN : option string;
  SIGNALFX_REALM : option string;
  SIGNALFX_BASE_URL : option string
}.

(** [process.env.VERIFY_SSL?.toLowerCase() !== "false"] *)
Definition verifySSL_of (env : Env) : bool :=
  match VERIFY_SSL env with
  | Some s => negb (String.eqb (toLowerCase s) "false")
  | None => true
  end.

(** [splunkConfig], for a port already read from [SPLUNK_PORT]. *)
Definition splunkConfig (env : Env) (port : Z) : SplunkConfig :=
  mkConfig (string_or (SPLUNK_HOST env) "localhost")
           port
           (SPLUNK_USERNAME env)
           (SPLUNK_PASSWORD env)
           (SPLUNK_TOKEN env)
           (string_or (SPLUNK_SCHEME env) "https")
           (verifySSL_of env).

(** [signalFxConfig]: [null] unless the token is set and not empty. *)
Definition signalFxConfig (env : Env) : option SignalFxConfig :=
  if truthy_string (SIGNALFX_ACCESS_TOKEN env) then
    Some (mkSignalFxConfig
            (from_option id "" (SIGNALFX_ACCESS_TOKEN env))
            (Some (string_or (SIGNALFX_REALM env) "us0"))
            (SIGNALFX_BASE_URL env))
  else None.

(** [signalFxClient]: built when there is a configuration. *)
Definition signalFxClient (env : Env) : completion (option SignalFxClient) :=
  match signalFxConfig env with
  | Some config => c ← new_SignalFxClient config; mret (Some c)
  | None => Return None
  end.

(** The [capabilities] of the answer to [ping]. *)
Definition ping_capabilities (signalFxClient : option SignalFxClient)
  : list string :=
  let capabilities := ["splunk"] in
  match signalFxClient with
  | Some _ => capabilities ++ ["signalfx"; "traces"]
  | None => capabilities
  end.

(** The arguments of a [search_traces] call, as the handler casts
    them. *)
Record SearchTracesArgs : Type := mkArgs {
  arg_service : option string;
  arg_operation : option string;
  arg_min_duration : option Z;
  arg_max_duration : option Z;
  arg_has_errors : option bool;
  arg_limit : option Z;
  arg_offset : option Z
}.

Definition search_traces_criteria (args : SearchTracesArgs)
  : TraceSearchCriteria :=
  mkCriteria (arg_service args) (arg_operation args) None
    (arg_min_duration args) (arg_max_duration args) (arg_has_errors args)
    (Some (number_or (arg_limit args) 100))
    (Some (number_or (arg_offset args) 0))
    None None.

(** The names under which the process registers its tools: those of
    the Splunk client always, those of the tracing client inside
    [if (signalFxClient)]. *)
Definition splunk_tools : list string :=
  ["search_splunk"; "list_indexes"; "get_index_info"; "list_saved_searches";
   "current_user"; "list_users"; "list_kvstore_collections"; "health_check";
   "get_indexes_and_sourcetypes"; "ping"; "health"].

Definition signalFx_tools : list string :=
  ["list_services"; "get_service_operations"; "search_traces";
   "get_trace_details"; "get_latency_metrics"; "get_error_metrics"].

Definition registered_tools (signalFxClient : option SignalFxClient)
  : list string :=
  splunk_tools ++ match signalFxClient with
                  | Some _ => signalFx_tools
                  | None => []
                  end.

(** The function registered for [search_traces], up to the result it
    serialises. *)
Definition search_traces_handler (signalFxClient : option SignalFxClient)
    (args : SearchTracesArgs) : io query SearchData TraceSearchResult :=
  match signalFxClient with
  | None => throw (Error "SignalFx client not configured")
  | Some _ => searchTraces (search_traces_criteria args)
  end.

(** The tool [search_traces]: it has a handler when it is registered,
    which is when there is a client. *)
Definition search_traces_tool (signalFxClient : option SignalFxClient)
  : option (SearchTracesArgs -> io query SearchData TraceSearchResult) :=
  match signalFxClient with
  | Some _ => Some (search_traces_handler signalFxClient)
  | None => None
  end.

End Server.

(* ===================================================================== *)
(** * Further vocabulary *)
(* ===================================================================== *)

Module SpecMore.
Import JS Http Splunk SignalFx Spec SplunkMore SignalFxMore Server.

(** ** Job identifiers *)

(** The text holds no [<]. *)
Definition no_lt (s : string) : Prop :=
  Forall (fun c => c <> "<"%char) (list_ascii_of_string s).

(** [p] occurs somewhere in [s]. *)
Definition occurs (p s : string) : Prop := exists a b, s = a +:+ p +:+ b.

(** [xml] holds the element [<sid>sid</sid>], with a non-empty [sid]
    free of [<]. *)
Definition sid_tag (xml sid : string) : Prop :=
  sid <> "" /\ no_lt sid /\ occurs ("<sid>" +:+ sid +:+ "</sid>") xml.


(** ** Requests of searchSplunk *)

Definition job_request (q et lt : string) : request params :=
  mkRequest POST "/services/search/jobs"
    [("search", VStr (outbound_query q)); ("earliest_time", VStr et);
     ("latest_time", VStr lt); ("exec_mode", VStr "blocking")].

Definition results_request (sid : string) (mr : Z) : request params :=
  mkRequest GET ("/services/search/jobs/" +:+ sid +:+ "/results")
    [("output_mode", VStr "json"); ("count", VNum mr)].


(** ** Entries of an envelope *)

(** The value is neither [null] nor [undefined]. *)
Definition present (v : value) : bool := negb (nullish v).

(** [v.k] where reading it does not throw, [undefined] otherwise. *)
Definition prop (k : string) (v : value) : value :=
  match get v k with
  | Return x => x
  | Throw _ => VUndef
  end.

(** [entry.content?.k]: the property [k] of the content, [undefined]
    when the entry has no content. *)
Definition optional (k : string) (entry : value) : value :=
  prop k (prop "content" entry).

(** [result] is [v] when [v] is truthy, and the default [d] otherwise. *)
Definition defaults_to (d v result : value) : Prop :=
  (truthy v = true -> result = v) /\ (truthy v = false -> result = d).


(** The entry is there and has a content. *)
Definition has_content (entry : value) : bool :=
  present entry && present (prop "content" entry).

Definition saved_searches_request : request params :=
  mkRequest GET "/services/saved/searches" json_mode.

Definition users_request : request params :=
  mkRequest GET "/services/authentication/users" json_mode.

Definition apps_request : request params :=
  mkRequest GET "/services/apps/local" json_mode.

(** The two apps of the test [should perform health check
    successfully], and the configuration of the test suite. *)
Definition two_apps : upstream params value :=
  fun _ => Return
    (VObj [("entry",
       VArr [VObj [("name", VStr "search");
                   ("content", VObj [("label", VStr "Search & Reporting");
                                     ("version", VStr "9.0.0")])];
             VObj [("name", VStr "launcher");
                   ("content", VObj [("label", VStr "Launcher");
                                     ("version", VStr "9.0.0")])]])]).

Definition mockConfig : SplunkConfig :=
  mkConfig "localhost" 8089 (Some "admin") (Some "changeme") None "https" false.

(** An envelope whose only entry is [null]. *)
Definition null_entry : upstream params value :=
  fun _ => Return (VObj [("entry", VArr [VNull])]).


(** ** Users and indexes *)

Definition context_request : request params :=
  mkRequest GET "/services/authentication/current-context" json_mode.

Definition user_request (name : string) : request params :=
  mkRequest GET ("/services/authentication/users/" +:+ name) json_mode.


(** The name getCurrentUser settles on: the one of the current
    context when that lookup returns, the configured one otherwise. *)
Definition settled_username (text_is_positive : string -> bool)
    (config_username : option string) (up : upstream params value) : value :=
  match outcome (username_from_context text_is_positive config_username) up with
  | Return name => name
  | Throw _ => configured_username config_username
  end.

(** The user name of the configuration, [admin] when it has none. *)
Definition fallback_username (config_username : option string) : string :=
  match config_username with
  | Some "" | None => "admin"
  | Some name => name
  end.



(** ** Indexes and sourcetypes *)

Definition indexes_request : request params :=
  mkRequest GET "/services/data/indexes" json_mode.

(** The key under which a result row is grouped. *)
Definition row_key (result : value) : string :=
  to_string (or_else (prop "index" result) (VStr "")).

(** The row cannot be grouped: it is [null] or [undefined], or its index
    has the name of a member of [Object.prototype]. *)
Definition ungroupable (result : value) : Prop :=
  nullish result = true \/ row_key result ∈ object_prototype_members.

(** The upstream of the test [should get indexes and sourcetypes
    successfully]: two indexes, three result rows. *)
Definition three_rows : list value :=
  [VObj [("index", VStr "main"); ("sourcetype", VStr "access_log");
         ("count", VStr "1000")];
   VObj [("index", VStr "main"); ("sourcetype", VStr "error_log");
         ("count", VStr "500")];
   VObj [("index", VStr "security"); ("sourcetype", VStr "firewall");
         ("count", VStr "2000")]].

Definition two_indexes : upstream params value :=
  fun r =>
    match req_method r with
    | POST => Return (VStr "<response><sid>12345</sid></response>")
    | GET =>
        if String.eqb (req_url r) "/services/data/indexes"
        then Return (VObj [("entry", VArr [VObj [("name", VStr "main")];
                                           VObj [("name", VStr "security")]])])
        else Return (VObj [("results", VArr three_rows)])
    end.

(** What the method returns for it. *)
Definition two_indexes_result : IndexesAndSourcetypes :=
  mkIndexesAndSourcetypes [VStr "main"; VStr "security"]
    (<["security" := [mkSourcetypeCount (VStr "firewall") "2000"]]>
       (<["main" := [mkSourcetypeCount (VStr "access_log") "1000";
                     mkSourcetypeCount (VStr "error_log") "500"]]> ∅))
    2 3 "24 hours".

(** The same, with a row for an index called [constructor]. *)
Definition constructor_row : upstream params value :=
  fun r =>
    match req_method r with
    | POST => Return (VStr "<response><sid>12345</sid></response>")
    | GET =>
        if String.eqb (req_url r) "/services/data/indexes"
        then Return (VObj [("entry", VArr [])])
        else Return (VObj [("results",
                       VArr [VObj [("index", VStr "constructor");
                                   ("sourcetype", VStr "access_log");
                                   ("count", VStr "1")]])])
    end.


(** ** KV store statistics *)

(** [item] is a statistic of the collection [ns] with the count [count]:
    an object, or the JSON text of one, with a non-empty [ns] and a
    [count]. *)
Definition stat_item (JSON_parse : string -> completion value)
    (item : value) (stat : string * value) : Prop :=
  exists fs,
    (item = VObj fs \/ exists s, item = VStr s /\ JSON_parse s = Return (VObj fs)) /\
    lookup_field "ns" fs = VStr (fst stat) /\
    fst stat <> "" /\ fst stat <> "__proto__" /\
    lookup_field "count" fs = snd stat /\ snd stat <> VUndef.

End SpecMore.

(** ** Vocabulary for the traces *)

Module SpecTraces.
Import JS Http SignalFx Spec SignalFxMore Server.

(** The names a trace query can hold. *)
Definition query_keys : list string :=
  ["service"; "operation"; "tags"; "minDuration"; "maxDuration"; "error";
   "startTime"; "endTime"; "limit"; "offset"].

(** The text is the word [p], written in any mix of cases. *)
Definition is_word_any_case (p s : string) : Prop :=
  has_prefix_any_case p s /\ String.length s = String.length p.

Definition search_request (criteria : TraceSearchCriteria) : request query :=
  mkRequest POST "/traces/search" (buildTraceQuery criteria).

(** An upstream of metrics that knows nothing. *)
Definition no_latency : upstream query (LatencyData Z) :=
  fun _ => Return (mkLatencyData Z None None None None None None None None).

Definition no_errors : upstream query (ErrorData Z) :=
  fun _ => Return (mkErrorData Z None None None None).

(** An upstream with two operations. *)
Definition two_operations : upstream query OperationsData :=
  fun _ => Return (mkOperationsData
                     (Some [mkRawOperation (Some "login") (Some "server") None;
                            mkRawOperation (Some "logout") None None])).

End SpecTraces.

(* ===================================================================== *)
(** * The order of the numbers *)
(* ===================================================================== *)

(** The comparisons of binary64 numbers, from their specification over
    sign, significand and exponent: among numbers other than [NaN],
    [<=] is a total preorder with [Infinity] and [-Infinity] at its
    ends, and the two zeros are equal in it. *)
Module FloatOrder.
Import PrimFloat SpecFloat FloatOps FloatAxioms.

Lemma SFleb_trans (a b c : spec_float) :
  SFleb a b = true -> SFleb b c = true -> SFleb a c = true.
Proof.
  unfold SFleb.
  destruct a as [sa|sa| |sa ma ea], b as [sb|sb| |sb mb eb],
           c as [sc|sc| |sc mc ec]; cbn;
    try destruct sa; try destruct sb; try destruct sc; cbn;
    try congruence; try reflexivity.
  all: rewrite ?Pos.compare_cont_spec; cbn [Pos.switch_Eq].
  all: destruct (Z.compare_spec ea eb), (Z.compare_spec eb ec),
         (Z.compare_spec ea ec); cbn; try congruence; try lia.
  all: repeat match goal with
       | |- context [(?p ?= ?q)%positive] =>
           destruct (Pos.compare_spec p q); cbn
       end; try congruence; try lia.
Qed.

Lemma SFleb_refl (a : spec_float) : a <> S754_nan -> SFleb a a = true.
Proof.
  unfold SFleb. destruct a as [s|s| |s m e]; cbn; try congruence.
  - destruct s; reflexivity.
  - intros _. rewrite Z.compare_refl, Pos.compare_cont_spec, Pos.compare_refl.
    destruct s; reflexivity.
Qed.

Lemma SFltb_leb (a b : spec_float) : SFltb a b = true -> SFleb a b = true.
Proof. unfold SFltb, SFleb. destruct (SFcompare a b) as [[]|]; congruence. Qed.

Lemma SFcompare_antisym (a b : spec_float) :
  SFcompare b a = option_map CompOpp (SFcompare a b).
Proof.
  destruct a as [sa|sa| |sa ma ea], b as [sb|sb| |sb mb eb]; cbn;
    try destruct sa; try destruct sb; cbn; try reflexivity.
  all: rewrite (Z.compare_antisym ea eb), !Pos.compare_cont_spec;
       cbn [Pos.switch_Eq]; rewrite (Pos.compare_antisym ma mb);
       destruct (ea ?= eb); cbn; try reflexivity;
       destruct (ma ?= mb)%positive; reflexivity.
Qed.

Lemma SFleb_total (a b : spec_float) :
  a <> S754_nan -> b <> S754_nan -> SFltb a b = false -> SFleb b a = true.
Proof.
  intros Ha Hb. unfold SFltb, SFleb. rewrite (SFcompare_antisym a b).
  destruct (SFcompare a b) as [[]|] eqn:E; cbn; try congruence.
  destruct a, b; cbn in E; congruence.
Qed.

Lemma is_nan_spec (x : float) : is_nan x = true <-> Prim2SF x = S754_nan.
Proof.
  unfold is_nan. rewrite eqb_spec. unfold SFeqb.
  destruct (Prim2SF x) as [s|s| |s m e]; cbn.
  - split; discriminate.
  - destruct s; split; discriminate.
  - split; reflexivity.
  - rewrite Z.compare_refl, Pos.compare_cont_spec, Pos.compare_refl.
    destruct s; split; discriminate.
Qed.

Lemma not_nan_spec (x : float) : is_nan x = false -> Prim2SF x <> S754_nan.
Proof. intros H E. apply is_nan_spec in E. congruence. Qed.

Lemma leb_refl (x : float) : is_nan x = false -> (x <=? x)%float = true.
Proof. intros H. rewrite leb_spec. apply SFleb_refl, not_nan_spec, H. Qed.

Lemma leb_trans (x y z : float) :
  (x <=? y)%float = true -> (y <=? z)%float = true -> (x <=? z)%float = true.
Proof. rewrite !leb_spec. apply SFleb_trans. Qed.

Lemma ltb_leb (x y : float) : (x <? y)%float = true -> (x <=? y)%float = true.
Proof. rewrite ltb_spec, leb_spec. apply SFltb_leb. Qed.

Lemma leb_total (x y : float) :
  is_nan x = false -> is_nan y = false ->
  (x <? y)%float = false -> (y <=? x)%float = true.
Proof.
  intros Hx Hy. rewrite ltb_spec, leb_spec.
  apply SFleb_total; apply not_nan_spec; assumption.
Qed.

Lemma leb_infinity (x : float) :
  is_nan x = false -> (x <=? infinity)%float = true.
Proof.
  intros H%not_nan_spec. rewrite leb_spec.
  change (Prim2SF infinity) with (S754_infinity false).
  unfold SFleb. destruct (Prim2SF x) as [s|[]| |[] m e]; cbn; congruence.
Qed.

Lemma neg_infinity_leb (x : float) :
  is_nan x = false -> (neg_infinity <=? x)%float = true.
Proof.
  intros H%not_nan_spec. rewrite leb_spec.
  change (Prim2SF neg_infinity) with (S754_infinity true).
  unfold SFleb. destruct (Prim2SF x) as [s|[]| |[] m e]; cbn; congruence.
Qed.

(** Nothing is above [Infinity] or below [-Infinity]. *)
Lemma infinity_ltb (x : float) : (infinity <? x)%float = false.
Proof.
  rewrite ltb_spec. change (Prim2SF infinity) with (S754_infinity false).
  unfold SFltb. destruct (Prim2SF x) as [s|[]| |[] m e]; reflexivity.
Qed.

Lemma ltb_neg_infinity (x : float) : (x <? neg_infinity)%float = false.
Proof.
  rewrite ltb_spec. change (Prim2SF neg_infinity) with (S754_infinity true).
  unfold SFltb. destruct (Prim2SF x) as [s|[]| |[] m e]; reflexivity.
Qed.

Lemma infinity_leb (x : float) : (infinity <=? x)%float = true -> x = infinity.
Proof.
  rewrite leb_spec. change (Prim2SF infinity) with (S754_infinity false).
  intros H. apply Prim2SF_inj. change (Prim2SF infinity) with (S754_infinity false).
  unfold SFleb in H.
  destruct (Prim2SF x) as [s|[]| |[] m e]; cbn in H; congruence.
Qed.

Lemma leb_neg_infinity (x : float) :
  (x <=? neg_infinity)%float = true -> x = neg_infinity.
Proof.
  rewrite leb_spec. change (Prim2SF neg_infinity) with (S754_infinity true).
  intros H. apply Prim2SF_inj.
  change (Prim2SF neg_infinity) with (S754_infinity true).
  unfold SFleb in H.
  destruct (Prim2SF x) as [s|[]| |[] m e]; cbn in H; congruence.
Qed.

(** The two zeros. *)
Lemma classify_NZero (x : float) :
  classify x = FloatClass.NZero -> Prim2SF x = S754_zero true.
Proof.
  rewrite classify_spec. unfold SF64classify, SFclassify.
  destruct (Prim2SF x) as [[]|[]| |[] m e]; try congruence;
    destruct (Z.eqb _ _); congruence.
Qed.

Lemma classify_PZero (x : float) :
  classify x = FloatClass.PZero -> Prim2SF x = S754_zero false.
Proof.
  rewrite classify_spec. unfold SF64classify, SFclassify.
  destruct (Prim2SF x) as [[]|[]| |[] m e]; try congruence;
    destruct (Z.eqb _ _); congruence.
Qed.

Lemma zeros_leb (x y : float) :
  (exists s, Prim2SF x = S754_zero s) -> (exists s, Prim2SF y = S754_zero s) ->
  (x <=? y)%float = true.
Proof. intros [s Hx] [s' Hy]. rewrite leb_spec, Hx, Hy. reflexivity. Qed.

(** A number is zero or [NaN] exactly when it is neither above nor below
    zero. *)
Lemma falsy_spec (t : float) :
  is_zero t || is_nan t = negb ((0 <? t)%float || (t <? 0)%float).
Proof.
  unfold is_zero, is_nan. rewrite !eqb_spec, !ltb_spec.
  change (Prim2SF zero) with (S754_zero false).
  change (Prim2SF 0%float) with (S754_zero false).
  unfold SFeqb, SFltb.
  destruct (Prim2SF t) as [s|s| |s m e]; cbn.
  - reflexivity.
  - destruct s; reflexivity.
  - reflexivity.
  - rewrite Z.compare_refl, Pos.compare_cont_spec, Pos.compare_refl.
    destruct s; reflexivity.
Qed.

End FloatOrder.

(* ===================================================================== *)
(** * Properties of SignalFxClient *)
(* ===================================================================== *)

Module SignalFxProps.
Import JS Http SignalFx Spec PrimFloat FloatOrder.

(** ** [Array.from(new Set(xs))] keeps first occurrences *)

Section Sets.
Context {A : Type} `{EqDecision A}.

Lemma filter_absent_app (members : list A) (x : A) (l : list A) :
  List.filter (fun y => bool_decide (y ∉ members ++ [x])) l =
  List.filter (fun y => bool_decide (y ∉ members))
    (List.filter (fun y => negb (bool_decide (y = x))) l).
Proof.
  induction l as [|y l IH]; [reflexivity|].
  cbn [List.filter].
  destruct (decide (y = x)) as [->|Hne].
  - rewrite (bool_decide_eq_true_2 (x = x)) by reflexivity. cbn.
    rewrite bool_decide_eq_false_2; [exact IH|].
    intros Hn. apply Hn. apply elem_of_app. right.
    apply list_elem_of_singleton. reflexivity.
  - rewrite (bool_decide_eq_false_2 (y = x)) by assumption. cbn.
    destruct (decide (y ∈ members)) as [Hin|Hnin].
    + rewrite !bool_decide_eq_false_2; [exact IH| |]; intros Hn; apply Hn.
      * assumption.
      * apply elem_of_app. left. assumption.
    + rewrite !bool_decide_eq_true_2; [rewrite IH; reflexivity|assumption|].
      intros [?|Hx%list_elem_of_singleton]%elem_of_app; contradiction.
Qed.

Lemma filter_absent_drop (members : list A) (x : A) (l : list A) :
  x ∈ members ->
  List.filter (fun y => bool_decide (y ∉ members))
    (List.filter (fun y => negb (bool_decide (y = x))) l) =
  List.filter (fun y => bool_decide (y ∉ members)) l.
Proof.
  intros Hx. induction l as [|y l IH]; [reflexivity|].
  cbn [List.filter].
  destruct (decide (y = x)) as [->|Hne].
  - rewrite (bool_decide_eq_true_2 (x = x)) by reflexivity. cbn.
    rewrite bool_decide_eq_false_2; [exact IH|]. intros Hn; contradiction.
  - rewrite (bool_decide_eq_false_2 (y = x)) by assumption. cbn.
    rewrite IH. reflexivity.
Qed.

(** The invariant of the insertion loop: what is already in the set
    stays in front, and of the remaining input only first occurrences of
    new members are added. *)
Lemma set_add_all_spec (xs members : list A) :
  set_add_all members xs =
  members ++ List.filter (fun y => bool_decide (y ∉ members))
               (first_occurrences xs).
Proof.
  revert members. induction xs as [|x rest IH]; intros members.
  - cbn. rewrite app_nil_r. reflexivity.
  - cbn [set_add_all first_occurrences List.filter].
    destruct (decide (x ∈ members)) as [Hin|Hnin].
    + rewrite IH. rewrite bool_decide_eq_false_2 by (intros Hn; contradiction).
      rewrite filter_absent_drop by assumption. reflexivity.
    + rewrite IH. rewrite (bool_decide_eq_true_2 (x ∉ members)) by assumption.
      rewrite filter_absent_app. rewrite <- app_assoc. reflexivity.
Qed.

Lemma filter_absent_nil (l : list A) :
  List.filter (fun y => bool_decide (y ∉ ([] : list A))) l = l.
Proof.
  induction l as [|y l IH]; [reflexivity|].
  cbn [List.filter]. rewrite bool_decide_eq_true_2; [rewrite IH; reflexivity|].
  apply not_elem_of_nil.
Qed.

Lemma unique_first_occurrences (xs : list A) :
  unique xs = first_occurrences xs.
Proof.
  unfold unique. rewrite set_add_all_spec. cbn [app]. apply filter_absent_nil.
Qed.

Lemma first_occurrences_In (xs : list A) (x : A) :
  In x (first_occurrences xs) <-> In x xs.
Proof.
  induction xs as [|y rest IH]; [reflexivity|].
  cbn [first_occurrences In]. rewrite filter_In, IH.
  destruct (decide (x = y)) as [->|Hne].
  - tauto.
  - rewrite (bool_decide_eq_false_2 (x = y)) by assumption. cbn.
    intuition congruence.
Qed.

Lemma first_occurrences_NoDup (xs : list A) :
  List.NoDup (first_occurrences xs).
Proof.
  induction xs as [|y rest IH]; cbn [first_occurrences]; constructor.
  - rewrite filter_In. intros [_ Hy].
    rewrite bool_decide_eq_true_2 in Hy by reflexivity. discriminate.
  - apply List.NoDup_filter. exact IH.
Qed.

End Sets.

(** ** [Math.min] and [Math.max] *)

Lemma min_step_spec (lowest x : float) :
  is_nan lowest = false -> is_nan x = false ->
  (min_step lowest x = lowest \/ min_step lowest x = x) /\
  (min_step lowest x <=? lowest)%float = true /\
  (min_step lowest x <=? x)%float = true.
Proof.
  intros Hl Hx. unfold min_step, is_negative_zero, is_positive_zero.
  destruct (classify x) eqn:Cx; cbn [andb];
    try (destruct (classify lowest) eqn:Cl; cbn [andb]);
    try (destruct (x <? lowest)%float eqn:Hlt;
         [ split; [right; reflexivity|];
           split; [apply ltb_leb; exact Hlt|apply leb_refl; exact Hx]
         | split; [left; reflexivity|];
           split; [apply leb_refl; exact Hl|apply leb_total; assumption] ]).
  split; [right; reflexivity|].
  split; [|apply leb_refl; exact Hx].
  apply zeros_leb; eexists;
    [apply classify_NZero; exact Cx|apply classify_PZero; exact Cl].
Qed.

Lemma max_step_spec (highest x : float) :
  is_nan highest = false -> is_nan x = false ->
  (max_step highest x = highest \/ max_step highest x = x) /\
  (highest <=? max_step highest x)%float = true /\
  (x <=? max_step highest x)%float = true.
Proof.
  intros Hh Hx. unfold max_step, is_negative_zero, is_positive_zero.
  destruct (classify x) eqn:Cx; cbn [andb];
    try (destruct (classify highest) eqn:Ch; cbn [andb]);
    try (destruct (highest <? x)%float eqn:Hlt;
         [ split; [right; reflexivity|];
           split; [apply ltb_leb; exact Hlt|apply leb_refl; exact Hx]
         | split; [left; reflexivity|];
           split; [apply leb_refl; exact Hh|apply leb_total; assumption] ]).
  split; [right; reflexivity|].
  split; [|apply leb_refl; exact Hx].
  apply zeros_leb; eexists;
    [apply classify_NZero; exact Ch|apply classify_PZero; exact Cx].
Qed.

Lemma step_not_nan (step : float -> float -> float) (a x : float) :
  (step a x = a \/ step a x = x) ->
  is_nan a = false -> is_nan x = false -> is_nan (step a x) = false.
Proof. intros [->| ->]; auto. Qed.

Lemma fold_min_spec (xs : list float) (lowest : float) :
  is_nan lowest = false -> existsb is_nan xs = false ->
  let r := fold_left min_step xs lowest in
  (r = lowest \/ In r xs) /\
  (r <=? lowest)%float = true /\
  Forall (fun x => (r <=? x)%float = true) xs.
Proof.
  revert lowest. induction xs as [|x rest IH]; intros lowest Hl Hxs; cbn zeta.
  - cbn. split; [left; reflexivity|]. split; [apply leb_refl; exact Hl|constructor].
  - cbn [existsb] in Hxs. apply orb_false_iff in Hxs. destruct Hxs as [Hx Hrest].
    destruct (min_step_spec lowest x Hl Hx) as (Hcase & Hlow & Hle).
    cbn [fold_left].
    destruct (IH (min_step lowest x)
                (step_not_nan min_step lowest x Hcase Hl Hx) Hrest)
      as (Hin & Hbound & Hall).
    split; [|split].
    + destruct Hin as [Hr|Hr]; [|right; right; exact Hr].
      rewrite Hr. destruct Hcase as [->| ->];
        [left; reflexivity|right; left; reflexivity].
    + eapply leb_trans; eassumption.
    + constructor; [eapply leb_trans; eassumption|exact Hall].
Qed.

Lemma fold_max_spec (xs : list float) (highest : float) :
  is_nan highest = false -> existsb is_nan xs = false ->
  let r := fold_left max_step xs highest in
  (r = highest \/ In r xs) /\
  (highest <=? r)%float = true /\
  Forall (fun x => (x <=? r)%float = true) xs.
Proof.
  revert highest. induction xs as [|x rest IH]; intros highest Hh Hxs; cbn zeta.
  - cbn. split; [left; reflexivity|]. split; [apply leb_refl; exact Hh|constructor].
  - cbn [existsb] in Hxs. apply orb_false_iff in Hxs. destruct Hxs as [Hx Hrest].
    destruct (max_step_spec highest x Hh Hx) as (Hcase & Hhigh & Hle).
    cbn [fold_left].
    destruct (IH (max_step highest x)
                (step_not_nan max_step highest x Hcase Hh Hx) Hrest)
      as (Hin & Hbound & Hall).
    split; [|split].
    + destruct Hin as [Hr|Hr]; [|right; right; exact Hr].
      rewrite Hr. destruct Hcase as [->| ->];
        [left; reflexivity|right; left; reflexivity].
    + eapply leb_trans; eassumption.
    + constructor; [eapply leb_trans; eassumption|exact Hall].
Qed.

Lemma Math_min_spec (xs : list float) :
  minimum_of xs (Math_min (xs ++ [infinity])).
Proof.
  unfold minimum_of, Math_min. rewrite existsb_app. cbn [existsb].
  change (is_nan infinity) with false. rewrite !orb_false_r.
  destruct (existsb is_nan xs) eqn:Hnan; [reflexivity|].
  rewrite fold_left_app. cbn [fold_left].
  set (r := fold_left min_step xs infinity).
  assert (min_step r infinity = r) as ->.
  { unfold min_step. change (is_negative_zero infinity) with false.
    cbn [andb]. rewrite infinity_ltb. reflexivity. }
  destruct xs as [|x rest]; [reflexivity|].
  destruct (fold_min_spec (x :: rest) infinity eq_refl Hnan)
    as (Hin & _ & Hall).
  fold r in Hin, Hall. split; [|exact Hall].
  destruct Hin as [Hr|Hr]; [|exact Hr].
  left. inversion Hall as [|? ? Hx _]. rewrite Hr in Hx.
  rewrite Hr. apply infinity_leb. exact Hx.
Qed.

Lemma Math_max_spec (xs : list float) :
  maximum_of xs (Math_max (xs ++ [neg_infinity])).
Proof.
  unfold maximum_of, Math_max. rewrite existsb_app. cbn [existsb].
  change (is_nan neg_infinity) with false. rewrite !orb_false_r.
  destruct (existsb is_nan xs) eqn:Hnan; [reflexivity|].
  rewrite fold_left_app. cbn [fold_left].
  set (r := fold_left max_step xs neg_infinity).
  assert (max_step r neg_infinity = r) as ->.
  { unfold max_step. change (is_positive_zero neg_infinity) with false.
    cbn [andb]. rewrite ltb_neg_infinity. reflexivity. }
  destruct xs as [|x rest]; [reflexivity|].
  destruct (fold_max_spec (x :: rest) neg_infinity eq_refl Hnan)
    as (Hin & _ & Hall).
  fold r in Hin, Hall. split; [|exact Hall].
  destruct Hin as [Hr|Hr]; [|exact Hr].
  left. inversion Hall as [|? ? Hx _]. rewrite Hr in Hx.
  rewrite Hr. apply leb_neg_infinity. exact Hx.
Qed.

(** ** parseTrace *)

(** The default of a time is taken for no number, a zero or [NaN]. *)
Lemma time_or_given (x : option float) : time_or x 0%float = given_time x.
Proof.
  destruct x as [t|]; [|reflexivity]. unfold time_or, given_time.
  rewrite falsy_spec. destruct ((0 <? t)%float || (t <? 0)%float); reflexivity.
Qed.

Lemma parseSpan_start (span : RawSpan) :
  span_startTime (parseSpan span) = start_of span.
Proof. apply time_or_given. Qed.

Lemma parseSpan_end (span : RawSpan) :
  (span_startTime (parseSpan span) + span_duration (parseSpan span))%float
    = end_of span.
Proof.
  unfold parseSpan, end_of. cbn [span_startTime span_duration].
  rewrite !time_or_given. reflexivity.
Qed.

(** The test [should fetch detailed trace information], with the numbers
    it leaves unchecked. *)
Example parseTrace_trace_456 :
  let t := parseTrace trace_456 in
  traceId t = "trace-456" /\
  List.length (spans t) = 2%nat /\
  services t = [Some "api-gateway"; Some "user-service"] /\
  startTime t = 1000000%float /\
  duration t = 150%float /\
  operationName t = Some "http.request".
Proof. repeat split. Qed.

(** A payload without spans has no finite timing. *)
Example parseTrace_no_spans :
  let t := parseTrace (mkRawTrace None None) in
  spans t = [] /\ startTime t = infinity /\ duration t = neg_infinity /\
  services t = [] /\ operationName t = None.
Proof. repeat split. Qed.

(** Sums and differences are rounded: a span that starts at 2 ^ 53 and
    lasts 1 ends where it starts, and the trace lasts 0. *)
Example parseTrace_rounds :
  duration (parseTrace
              (mkRawTrace None
                 (Some [mkRawSpan None None None None None
                          (Some 9007199254740992%float) (Some 1%float)
                          None None None None])))
    = 0%float.
Proof. reflexivity. Qed.

(** C7.  For every raw trace payload the parsed trace has: as start time
    the least of the start times the payload gives for its spans,
    [Infinity] when it has no span; as duration the greatest span end
    (the start of a span plus its duration, as the payload gives them;
    [-Infinity] when it has no span) minus that start time; as services
    the service names of the spans without repetition, in the order they
    are first seen; as operation name that of the first span, and none
    when it has no span.  A time the payload does not give, or gives as
    zero, counts as 0; sums and differences are those of binary64
    numbers. *)
Theorem parseTrace_derived_attributes (traceData : RawTrace) :
  let raw := from_option id [] (raw_spans traceData) in
  let t := parseTrace traceData in
  minimum_of (List.map start_of raw) (startTime t) /\
  (exists endTime, maximum_of (List.map end_of raw) endTime /\
                   duration t = (endTime - startTime t)%float) /\
  services t = first_occurrences (List.map raw_serviceName raw) /\
  List.NoDup (services t) /\
  (forall name, In name (services t) <->
                In name (List.map raw_serviceName raw)) /\
  operationName t = match raw with
                    | [] => None
                    | first :: _ => raw_operationName first
                    end.
Proof.
  cbn zeta. unfold parseTrace.
  cbn [spans startTime duration services operationName].
  set (raw := from_option id [] (raw_spans traceData)).
  rewrite !List.map_map.
  rewrite (List.map_ext _ start_of parseSpan_start).
  rewrite (List.map_ext _ end_of parseSpan_end).
  split; [apply Math_min_spec|].
  split; [eexists; split; [apply Math_max_spec|reflexivity]|].
  rewrite unique_first_occurrences.
  change (fun x => serviceName (parseSpan x)) with raw_serviceName.
  split; [reflexivity|].
  split; [apply first_occurrences_NoDup|].
  split; [intros name; apply first_occurrences_In|].
  destruct raw; reflexivity.
Qed.

(** C1, as stated, fails on the payload of the test suite: both services
    are listed, but the duration is not 60. *)
Lemma trace_456_duration_is_not_60 :
  ~ (In (Some "api-gateway") (services (parseTrace trace_456)) /\
     In (Some "user-service") (services (parseTrace trace_456)) /\
     duration (parseTrace trace_456) = 60%float).
Proof.
  intros (_ & _ & Hd). vm_compute in Hd.
  apply (f_equal (fun x => (x =? 60)%float)) in Hd. vm_compute in Hd.
  discriminate Hd.
Qed.

(** C1, amended.  For a payload of exactly two spans with (startTime,
    duration) = (1000000, 150) and (1000010, 50) on two different
    services, the parsed trace lists both services, starts at 1000000 and
    lasts 150: the greatest span end, 1000150, minus the least start. *)
Theorem parseTrace_two_spans (tid : option string) (s1 s2 : RawSpan)
    (a b : string) :
  raw_startTime s1 = Some 1000000%float -> raw_duration s1 = Some 150%float ->
  raw_startTime s2 = Some 1000010%float -> raw_duration s2 = Some 50%float ->
  raw_serviceName s1 = Some a -> raw_serviceName s2 = Some b -> a <> b ->
  let t := parseTrace (mkRawTrace tid (Some [s1; s2])) in
  services t = [Some a; Some b] /\
  startTime t = 1000000%float /\
  duration t = 150%float.
Proof.
  intros Hs1 Hd1 Hs2 Hd2 Ha Hb Hab. cbn zeta.
  unfold parseTrace.
  cbn [raw_spans from_option id List.map services startTime duration].
  unfold parseSpan. cbn [serviceName span_startTime span_duration List.map].
  rewrite Hs1, Hd1, Hs2, Hd2, Ha, Hb.
  split; [|split; reflexivity].
  unfold unique. cbn [set_add_all].
  rewrite (decide_False (P := Some a ∈ [])) by apply not_elem_of_nil.
  cbn [app].
  rewrite decide_False; [reflexivity|].
  intros Hin%list_elem_of_singleton. congruence.
Qed.

(** The two spans of the test suite meet the conditions. *)
Lemma parseTrace_two_spans_witness :
  services (parseTrace trace_456) = [Some "api-gateway"; Some "user-service"] /\
  startTime (parseTrace trace_456) = 1000000%float /\
  duration (parseTrace trace_456) = 150%float.
Proof.
  apply (parseTrace_two_spans (Some "trace-456") _ _ "api-gateway" "user-service");
    try reflexivity.
  discriminate.
Defined.

(** ** buildTraceQuery *)

Lemma set_if_truthy_nonempty (k : string) (x : option string) (q : query) :
  set_if_truthy k x q = set_if_defined VStr k (nonempty x) q.
Proof. destruct x as [[|c s]|]; reflexivity. Qed.

Lemma number_or_nonzero (x : option Z) (d : Z) :
  number_or x d = nonzero_or d x.
Proof. destruct x as [[| |]|]; reflexivity. Qed.

(** The criteria of the test [should search traces with full criteria]:
    [error: false] is sent. *)
Example buildTraceQuery_full_criteria :
  buildTraceQuery full_criteria =
    [("service", VStr "auth-service"); ("operation", VStr "login");
     ("minDuration", VNum 100); ("maxDuration", VNum 5000);
     ("error", VBool false); ("limit", VNum 50); ("offset", VNum 10)].
Proof. reflexivity. Qed.

(** C6, as stated, fails for a service given as the empty string: it is
    provided, and it is not in the body. *)
Lemma empty_service_is_left_out :
  ~ (is_Some (assoc "service" (buildTraceQuery empty_service_criteria)) <->
     is_Some (c_service empty_service_criteria)).
Proof.
  intros [_ H]. destruct H as [v Hv]; [eexists; reflexivity|].
  vm_compute in Hv. discriminate Hv.
Qed.

(** C6, amended.  The body holds [service] and [operation] exactly when
    the criteria give them as non-empty strings; [tags], [minDuration],
    [maxDuration], [error], [startTime] and [endTime] exactly when the
    criteria give them, whatever their value ([error: false] and [0]
    included); and always [limit] and [offset], which are those of the
    criteria when given and not zero, and 100 and 0 otherwise.  Each key
    occurs once. *)
Theorem buildTraceQuery_fields (c : TraceSearchCriteria) :
  let q := buildTraceQuery c in
  List.NoDup (List.map fst q) /\
  assoc "service" q = VStr <$> nonempty (c_service c) /\
  assoc "operation" q = VStr <$> nonempty (c_operation c) /\
  assoc "tags" q = VObj <$> c_tags c /\
  assoc "minDuration" q = VNum <$> c_minDuration c /\
  assoc "maxDuration" q = VNum <$> c_maxDuration c /\
  assoc "error" q = VBool <$> c_error c /\
  assoc "startTime" q = VNum <$> c_startTime c /\
  assoc "endTime" q = VNum <$> c_endTime c /\
  assoc "limit" q = Some (VNum (nonzero_or 100 (c_limit c))) /\
  assoc "offset" q = Some (VNum (nonzero_or 0 (c_offset c))).
Proof.
  cbn zeta. unfold buildTraceQuery.
  rewrite !set_if_truthy_nonempty, !number_or_nonzero.
  destruct c as [s o t mn mx e l off st en];
    cbn [c_service c_operation c_tags c_minDuration c_maxDuration c_error
         c_limit c_offset c_startTime c_endTime].
  destruct (nonempty s), (nonempty o), t, mn, mx, e, st, en;
    cbn [set_if_defined app fmap option_fmap option_map List.map fst];
    (split; [repeat constructor; cbn; intuition discriminate|]);
    repeat split; reflexivity.
Qed.

(** ** searchTraces *)

(** C10.  When the answer to a trace search has no [totalCount], the
    result counts the parsed traces as its total, and its [limit] and
    [offset] are those of the criteria when they are truthy (given and
    not zero), 100 and 0 otherwise. *)
Theorem searchTraces_without_totalCount (criteria : TraceSearchCriteria)
    (up : upstream query SearchData) (data : SearchData) :
  up (mkRequest POST "/traces/search" (buildTraceQuery criteria)) = Return data ->
  data_totalCount data = None ->
  exists result,
    outcome (searchTraces criteria) up = Return result /\
    traces result = List.map parseTrace (from_option id [] (data_traces data)) /\
    totalCount result = Z.of_nat (List.length (traces result)) /\
    limit result = nonzero_or 100 (c_limit criteria) /\
    offset result = nonzero_or 0 (c_offset criteria).
Proof.
  intros Hup Htotal. unfold searchTraces.
  unfold outcome, run, try_catch_io, send, mbind, mret, io_mbind, io_mret,
    io_bind, io_ret.
  rewrite Hup. cbn [fst]. eexists. split; [reflexivity|].
  cbn [traces totalCount limit offset]. rewrite Htotal, !number_or_nonzero.
  repeat split.
Qed.

(** A search answered with one trace and no total. *)
Lemma searchTraces_without_totalCount_witness :
  exists result,
    outcome (searchTraces full_criteria) one_trace_no_total = Return result /\
    traces result = List.map parseTrace [trace_456] /\
    totalCount result = Z.of_nat (List.length (traces result)) /\
    limit result = 50 /\
    offset result = 10.
Proof.
  apply (searchTraces_without_totalCount full_criteria one_trace_no_total
           (mkSearchData (Some [trace_456]) None)); reflexivity.
Defined.

End SignalFxProps.

(* ===================================================================== *)
(** * Properties of SplunkClient *)
(* ===================================================================== *)

Module SplunkProps.
Import JS Http Splunk Spec SpecMore.

(** Unfolds one client method down to the calls of the upstream. *)
Ltac run_client :=
  unfold outcome, requests, run, try_catch_io, throw, lift, send,
    mbind, mret, io_mbind, io_mret, io_bind, io_ret; cbn.

Lemma append_cons (c : ascii) (s t : string) :
  String c s +:+ t = String c (s +:+ t).
Proof. reflexivity. Qed.

(** ** Numbers as text *)

(** Up to 2 ^ 53 an integer is printed digit by digit; beyond, the
    nearest number is printed with as few digits as tell it apart, and
    from 21 digits on with an exponent. *)
Example number_to_string_examples :
  number_to_string 0 = "0" /\
  number_to_string (-42) = "-42" /\
  number_to_string 9007199254740993 = "9007199254740992" /\
  number_to_string (2 ^ 63) = "9223372036854776000" /\
  number_to_string (10 ^ 21) = "1e+21" /\
  number_to_string (2 ^ 70) = "1.1805916207174113e+21" /\
  number_to_string (- 2 ^ 1024) = "-Infinity".
Proof. repeat split; vm_compute; reflexivity. Qed.

(** ** Prefixes, with and without case *)

Lemma prefix_has_prefix (p s : string) :
  String.prefix p s = true <-> has_prefix p s.
Proof.
  revert s. induction p as [|d p IH]; intros s.
  - split; [intros _; exists s; reflexivity|destruct s; reflexivity].
  - destruct s as [|c s]; cbn.
    + split; [discriminate|intros [rest H]; discriminate H].
    + destruct (ascii_dec d c) as [->|Hne].
      * rewrite IH. split; intros [rest H]; exists rest;
          rewrite ?append_cons in *; congruence.
      * split; [discriminate|]. intros [rest H].
        rewrite append_cons in H. congruence.
Qed.

Lemma same_letter_spec (c d : ascii) :
  same_letter c d = true <-> c = d \/ upper_of c d.
Proof.
  unfold same_letter, upper_of.
  rewrite orb_true_iff, !andb_true_iff, Ascii.eqb_eq,
    !Nat.leb_le, Nat.eqb_eq. tauto.
Qed.

(** Lower-casing sends exactly two characters to each letter of
    [search]: the letter and its capital. *)
Lemma lower_char_search_letter (c d : ascii) :
  In d (list_ascii_of_string "search") ->
  Ascii.eqb (lower_char c) d = same_letter c d.
Proof.
  cbn. intros H.
  repeat (destruct H as [<-|H];
          [destruct c as [[] [] [] [] [] [] [] []]; vm_compute; reflexivity|]).
  contradiction.
Qed.

Lemma lower_prefix_any_case (p s : string) :
  (forall d, In d (list_ascii_of_string p) ->
             In d (list_ascii_of_string "search")) ->
  String.prefix p (toLowerCase s) = true <-> has_prefix_any_case p s.
Proof.
  revert s. induction p as [|d p IH]; intros s Hp.
  - destruct s; cbn; tauto.
  - destruct s as [|c s]; cbn [toLowerCase String.prefix has_prefix_any_case].
    + split; [discriminate|tauto].
    + rewrite <- same_letter_spec, <- lower_char_search_letter
        by (apply Hp; left; reflexivity).
      rewrite <- IH by (intros d' Hd'; apply Hp; right; exact Hd').
      destruct (ascii_dec d (lower_char c)) as [<-|Hne].
      * rewrite Ascii.eqb_refl. tauto.
      * rewrite (proj2 (Ascii.eqb_neq (lower_char c) d)) by congruence.
        split; [discriminate|intros [? _]; discriminate].
Qed.

Lemma startsWith_search_any_case (s : string) :
  startsWith (toLowerCase s) "search" = true <-> has_prefix_any_case "search" s.
Proof. apply lower_prefix_any_case. auto. Qed.

Lemma startsWith_pipe (s : string) :
  startsWith s "|" = true <-> has_prefix "|" s.
Proof. apply prefix_has_prefix. Qed.

(** ** [trim] removes the white space of both ends, and nothing else *)

Lemma trimStart_spec (s : string) :
  exists pre, s = pre +:+ trimStart s /\ blank pre /\
              ~ starts_blank (trimStart s).
Proof.
  induction s as [|c r (pre & Hr & Hpre & Hstart)].
  - exists "". repeat split; [constructor|intros []].
  - cbn [trimStart]. destruct (isWhiteSpace c) eqn:Hc.
    + exists (String c pre). rewrite append_cons, <- Hr.
      repeat split; [constructor; assumption|assumption].
    + exists "". repeat split; [constructor|]. cbn. congruence.
Qed.

Lemma trimEnd_spec (s : string) :
  exists post, s = trimEnd s +:+ post /\ blank post /\
               ~ ends_blank (trimEnd s).
Proof.
  induction s as [|c r (post & Hr & Hpost & Hend)].
  - exists "". repeat split; [constructor|intros []].
  - cbn [trimEnd]. destruct (trimEnd r) as [|a r'] eqn:Ht.
    + destruct (isWhiteSpace c) eqn:Hc.
      * exists (String c r). repeat split; [|intros []].
        constructor; [assumption|]. rewrite Hr. exact Hpost.
      * exists r. repeat split; [rewrite Hr; exact Hpost|]. cbn. congruence.
    + exists post. rewrite append_cons, <- Hr. repeat split; assumption.
Qed.

Lemma trimEnd_keeps_start (s : string) :
  ~ starts_blank s -> ~ starts_blank (trimEnd s).
Proof.
  destruct s as [|c r]; [intros _ []|].
  cbn [trimEnd starts_blank]. intros Hc.
  destruct (trimEnd r); [|exact Hc].
  destruct (isWhiteSpace c) eqn:E; [congruence|]. cbn. congruence.
Qed.

Lemma trim_trimmed (s : string) : trimmed s (trim s).
Proof.
  unfold trimmed, trim.
  destruct (trimStart_spec s) as (pre & Hs & Hpre & Hstart).
  destruct (trimEnd_spec (trimStart s)) as (post & Ht & Hpost & Hend).
  exists pre, post. repeat split; try assumption.
  - rewrite <- Ht. exact Hs.
  - apply trimEnd_keeps_start. exact Hstart.
Qed.

Lemma blank_trimStart (s : string) : blank s -> trimStart s = "".
Proof.
  induction s as [|c r IH]; [reflexivity|].
  intros H. inversion H as [|? ? Hc Hr]; subst. cbn. rewrite Hc. auto.
Qed.

Lemma blank_trimEnd (s : string) : blank s -> trimEnd s = "".
Proof.
  induction s as [|c r IH]; [reflexivity|].
  intros H. inversion H as [|? ? Hc Hr]; subst. cbn.
  rewrite IH, Hc by assumption. reflexivity.
Qed.

Lemma trimStart_blank_prefix (pre s : string) :
  blank pre -> trimStart (pre +:+ s) = trimStart s.
Proof.
  induction pre as [|c r IH]; [reflexivity|].
  intros H. inversion H as [|? ? Hc Hr]; subst.
  rewrite append_cons. cbn [trimStart]. rewrite Hc. auto.
Qed.

Lemma trimEnd_blank_suffix (t post : string) :
  t <> "" -> ~ ends_blank t -> blank post -> trimEnd (t +:+ post) = t.
Proof.
  intros Hne Hend Hpost. induction t as [|c t IH]; [congruence|].
  rewrite append_cons. cbn [trimEnd].
  destruct t as [|a t'].
  - change ("" +:+ post) with post. rewrite blank_trimEnd by assumption.
    cbn in Hend. destruct (isWhiteSpace c); [congruence|reflexivity].
  - rewrite IH; [reflexivity|discriminate|exact Hend].
Qed.

Lemma trimmed_unique (s t : string) : trimmed s t -> t = trim s.
Proof.
  intros (pre & post & -> & Hpre & Hpost & Hstart & Hend).
  unfold trim. rewrite trimStart_blank_prefix by assumption.
  destruct t as [|c t'].
  - change ("" +:+ post) with post.
    rewrite blank_trimStart by assumption. reflexivity.
  - rewrite append_cons. cbn [trimStart]. cbn in Hstart.
    destruct (isWhiteSpace c); [congruence|].
    rewrite <- append_cons. symmetry.
    apply trimEnd_blank_suffix; [discriminate|assumption..].
Qed.

(** ** searchSplunk *)

(** The tests [should prepend 'search' to query if not present] and
    [should not prepend 'search' if query starts with pipe]. *)
Example outbound_query_index_main :
  outbound_query "index=main" = "search index=main".
Proof. reflexivity. Qed.

Example outbound_query_pipe :
  outbound_query "| stats count" = "| stats count".
Proof. reflexivity. Qed.

Example outbound_query_any_case :
  outbound_query "  SeArCh index=main" = "  SeArCh index=main".
Proof. reflexivity. Qed.

(** The test [should use custom time range and max results]. *)
Example searchSplunk_custom_range :
  run (searchSplunk "index=main" "-7d" "now" 500) job_12345 =
    (Return (VArr []),
     [mkRequest POST "/services/search/jobs"
        [("search", VStr "search index=main"); ("earliest_time", VStr "-7d");
         ("latest_time", VStr "now"); ("exec_mode", VStr "blocking")];
      mkRequest GET "/services/search/jobs/12345/results"
        [("output_mode", VStr "json"); ("count", VNum 500)]]).
Proof. reflexivity. Qed.

(** Every query but the empty one is submitted, in its outbound form. *)
Lemma searchSplunk_first_request (q et lt : string) (mr : Z)
    (up : upstream params value) :
  q <> "" ->
  exists rest,
    requests (searchSplunk q et lt mr) up =
      mkRequest POST "/services/search/jobs"
        [("search", VStr (outbound_query q)); ("earliest_time", VStr et);
         ("latest_time", VStr lt); ("exec_mode", VStr "blocking")] :: rest.
Proof.
  intros Hq. unfold searchSplunk.
  rewrite (proj2 (String.eqb_neq q "")) by assumption.
  run_client.
  destruct (up _) as [jobData|e]; cbn.
  - destruct (extractSid jobData) as [sid|e]; cbn; [|eexists; reflexivity].
    destruct (up _); cbn; [|eexists; reflexivity].
    destruct (get _ _); cbn; eexists; reflexivity.
  - eexists; reflexivity.
Qed.

(** C4, as stated, fails for a query of three spaces: it is submitted,
    and the failure is the one of the transport. *)
Lemma blank_query_is_sent :
  ~ (outcome (searchSplunk "   " "-24h" "now" 100) no_upstream
       = Throw (Error "Search query cannot be empty") /\
     requests (searchSplunk "   " "-24h" "now" 100) no_upstream = []).
Proof.
  intros [_ H]. vm_compute in H. discriminate H.
Qed.

(** C4, amended.  The empty search query fails with the validation error
    [Search query cannot be empty] before any request is issued; every
    other query, a blank one included, is submitted to the upstream. *)
Theorem searchSplunk_rejects_empty_query (et lt : string) (mr : Z)
    (up : upstream params value) :
  outcome (searchSplunk "" et lt mr) up
    = Throw (Error "Search query cannot be empty") /\
  requests (searchSplunk "" et lt mr) up = [] /\
  (forall q, q <> "" ->
     exists r rest, requests (searchSplunk q et lt mr) up = r :: rest /\
                    req_method r = POST /\
                    req_url r = "/services/search/jobs").
Proof.
  split; [reflexivity|]. split; [reflexivity|].
  intros q Hq.
  destruct (searchSplunk_first_request q et lt mr up Hq) as [rest ->].
  eexists _, rest. repeat split.
Qed.

(** C5.  For every non-empty query the text sent as [search] is the
    original query with ['search '] in front exactly when the query
    without the white space at its two ends starts neither with a pipe
    nor, in any mix of cases, with the word [search]; otherwise it is
    the query unchanged.  The white space is that of the language among
    the code units below 256: TAB, LF, VT, FF, CR, SP and NBSP. *)
Theorem searchSplunk_prefix_rule (q t et lt : string) (mr : Z)
    (up : upstream params value) :
  q <> "" ->
  trimmed q t ->
  exists r rest sent,
    requests (searchSplunk q et lt mr) up = r :: rest /\
    req_method r = POST /\
    req_url r = "/services/search/jobs" /\
    assoc "search" (req_data r) = Some (VStr sent) /\
    (~ has_prefix "|" t /\ ~ has_prefix_any_case "search" t ->
       sent = "search " +:+ q) /\
    (has_prefix "|" t \/ has_prefix_any_case "search" t ->
       sent = q).
Proof.
  intros Hq Ht. apply trimmed_unique in Ht. subst t.
  destruct (searchSplunk_first_request q et lt mr up Hq) as [rest ->].
  eexists _, rest, (outbound_query q).
  repeat split.
  - intros [Hpipe Hword]. unfold outbound_query.
    rewrite <- startsWith_pipe in Hpipe.
    rewrite <- startsWith_search_any_case in Hword.
    apply not_true_is_false in Hpipe, Hword. rewrite Hpipe, Hword. reflexivity.
  - intros H. unfold outbound_query.
    rewrite <- startsWith_pipe, <- startsWith_search_any_case in H.
    destruct H as [-> | ->]; [reflexivity|].
    rewrite andb_false_r. reflexivity.
Qed.

(** The rule at a query with white space around a pipe: it is sent as it
    is. *)
Lemma searchSplunk_prefix_rule_witness :
  exists r rest sent,
    requests (searchSplunk "  | stats count " "-24h" "now" 100) no_upstream
      = r :: rest /\
    req_method r = POST /\
    req_url r = "/services/search/jobs" /\
    assoc "search" (req_data r) = Some (VStr sent) /\
    (~ has_prefix "|" "| stats count" /\
     ~ has_prefix_any_case "search" "| stats count" ->
       sent = "search " +:+ "  | stats count ") /\
    (has_prefix "|" "| stats count" \/
     has_prefix_any_case "search" "| stats count" ->
       sent = "  | stats count ").
Proof.
  apply (searchSplunk_prefix_rule "  | stats count " "| stats count"
           "-24h" "now" 100 no_upstream).
  - discriminate.
  - exists "  ", " ". split; [reflexivity|].
    split; [repeat constructor|]. split; [repeat constructor|].
    split; cbn; discriminate.
Defined.

(** ** getIndexInfo *)

(** C8.  When the answer for an index has no [entry], or an empty one,
    getIndexInfo fails with the error [Index not found: ] followed by the
    name asked for. *)
Theorem getIndexInfo_not_found (indexName : string)
    (up : upstream params value) (data : value) :
  up (mkRequest GET ("/services/data/indexes/" +:+ indexName) json_mode)
    = Return data ->
  entry_missing_or_empty data ->
  outcome (getIndexInfo indexName) up
    = Throw (Error ("Index not found: " +:+ indexName)).
Proof.
  intros Hup Hentry. unfold getIndexInfo. run_client.
  cbn in Hup. rewrite Hup. cbn.
  destruct Hentry as [-> | ->]; reflexivity.
Qed.

(** The test [should throw error if index not found]. *)
Lemma getIndexInfo_not_found_witness :
  outcome (getIndexInfo "nonexistent") empty_envelope
    = Throw (Error "Index not found: nonexistent").
Proof.
  apply (getIndexInfo_not_found "nonexistent" empty_envelope
           (VObj [("entry", VArr [])])).
  - reflexivity.
  - right. reflexivity.
Defined.

(** The tests [should get index info successfully] and [should handle
    missing content fields]. *)
Example getIndexInfo_main :
  run (getIndexInfo "main") main_index =
    (Return (mkIndex "main" "1000000" "500" "1000" "1609459200" "1640995200"),
     [mkRequest GET "/services/data/indexes/main" json_mode]).
Proof. reflexivity. Qed.

Example getIndexInfo_missing_fields :
  outcome (getIndexInfo "main") bare_entry =
    Return (mkIndex "main" "0" "0" "0" "0" "0").
Proof. reflexivity. Qed.

(** ** The listings over the entry envelope *)

Lemma entries_of_missing_or_empty (data : value) :
  entry_missing_or_empty data -> entries_of data = Return [].
Proof.
  intros [H|H]; unfold entries_of; rewrite H; reflexivity.
Qed.

Section Listings.
Variable text_is_positive : string -> bool.
Variable JSON_parse : string -> completion value.
Variable up : upstream params value.

Lemma fetch_stats_requests (log : list (request params)) :
  fetch_stats text_is_positive JSON_parse up log =
  (outcome (fetch_stats text_is_positive JSON_parse) up, log ++ [stats_request]).
Proof.
  unfold fetch_stats. run_client. fold stats_request.
  destruct (up stats_request); reflexivity.
Qed.

(** listKVStoreCollections issues its two requests whatever the first
    one brings, and its outcome is that of the second. *)
Lemma listKVStoreCollections_run :
  run (listKVStoreCollections text_is_positive JSON_parse) up =
  (data ← up collections_request;
   entries ← entries_of data;
   mret (collect (collection_of
                    (stats_in_use text_is_positive JSON_parse up)) entries),
   [stats_request; collections_request]).
Proof.
  unfold listKVStoreCollections, run, try_catch_io at 1.
  unfold mbind at 1, io_mbind, io_bind.
  unfold try_catch_io. rewrite fetch_stats_requests. unfold stats_in_use.
  destruct (outcome _ up) as [st|e]; run_client; fold collections_request;
    (destruct (up collections_request) as [data|e']; cbn; [|reflexivity]);
    destruct (entries_of data); reflexivity.
Qed.

Lemma listSavedSearches_missing_entry (data : value) :
  up (mkRequest GET "/services/saved/searches" json_mode) = Return data ->
  entry_missing_or_empty data ->
  outcome listSavedSearches up = Return [].
Proof.
  intros Hup Hdata. unfold listSavedSearches. run_client. rewrite Hup. cbn.
  rewrite (entries_of_missing_or_empty _ Hdata). reflexivity.
Qed.

Lemma listUsers_missing_entry (data : value) :
  up (mkRequest GET "/services/authentication/users" json_mode) = Return data ->
  entry_missing_or_empty data ->
  outcome listUsers up = Return [].
Proof.
  intros Hup Hdata. unfold listUsers. run_client. rewrite Hup. cbn.
  rewrite (entries_of_missing_or_empty _ Hdata). reflexivity.
Qed.

Lemma listKVStoreCollections_missing_entry (data : value) :
  up collections_request = Return data ->
  entry_missing_or_empty data ->
  outcome (listKVStoreCollections text_is_positive JSON_parse) up = Return [].
Proof.
  intros Hup Hdata. unfold outcome. rewrite listKVStoreCollections_run.
  cbn [fst]. rewrite Hup. cbn.
  rewrite (entries_of_missing_or_empty _ Hdata). reflexivity.
Qed.

End Listings.

(** The test [should handle saved searches with missing fields]. *)
Example listSavedSearches_missing_fields :
  outcome listSavedSearches bare_entry =
    Return [mkSavedSearch (VStr "Test Search") (VStr "") (Own (VStr ""))].
Proof. reflexivity. Qed.

Lemma listIndexes_missing_entry (up : upstream params value) (data : value) :
  up (mkRequest GET "/services/data/indexes" json_mode) = Return data ->
  get data "entry" = Return VUndef ->
  outcome listIndexes up = Throw TypeError.
Proof.
  intros Hup Hentry. unfold listIndexes. run_client. rewrite Hup. cbn.
  rewrite Hentry. reflexivity.
Qed.

Lemma listIndexes_empty_entry (up : upstream params value) (data : value) :
  up (mkRequest GET "/services/data/indexes" json_mode) = Return data ->
  get data "entry" = Return (VArr []) ->
  outcome listIndexes up = Return [].
Proof.
  intros Hup Hentry. unfold listIndexes. run_client. rewrite Hup. cbn.
  rewrite Hentry. reflexivity.
Qed.

(** C2.  listIndexes reads [response.data.entry.map] without the
    [|| []] of the other listings: an envelope without [entry] makes it
    throw, where an empty [entry] gives the empty list. *)
Theorem listIndexes_missing_entry_throws :
  outcome listIndexes no_envelope = Throw TypeError /\
  outcome listIndexes empty_envelope = Return [].
Proof. split; reflexivity. Qed.

(** ** Users *)

Lemma array_or_wrap_cases (v : value) :
  (forall xs, v = VArr xs -> array_or_wrap v = xs) /\
  (isArray v = false -> truthy v = true -> array_or_wrap v = [v]) /\
  (truthy v = false -> array_or_wrap v = []).
Proof.
  repeat split.
  - intros xs ->. reflexivity.
  - intros Harr Ht. destruct v; cbn in *; try rewrite Ht; congruence.
  - intros Ht. destruct v; cbn in *; try rewrite Ht; congruence.
Qed.

(** listUsers coerces the roles and the capabilities the same way. *)
Lemma user_of_coerces (entry : value) (u : SplunkUser) :
  user_of entry = Return u ->
  exists content r c,
    get entry "content" = Return content /\
    get content "roles" = Return r /\
    get content "capabilities" = Return c /\
    roles u = array_or_wrap r /\
    capabilities u = array_or_wrap c.
Proof.
  unfold user_of. intros H.
  destruct (get entry "content") as [content|] eqn:Hc; [|discriminate].
  cbn in H.
  destruct (get content "roles") as [r|] eqn:Hr; [|discriminate]. cbn in H.
  destruct (get content "capabilities") as [c|] eqn:Hcap; [|discriminate].
  cbn in H.
  destruct (get entry "name"); [|discriminate]. cbn in H.
  destruct (get content "realname"); [|discriminate]. cbn in H.
  destruct (get content "email"); [|discriminate]. cbn in H.
  destruct (get content "defaultApp"); [|discriminate]. cbn in H.
  destruct (get content "type"); [|discriminate]. cbn in H.
  injection H as <-. exists content, r, c. repeat split; assumption.
Qed.

(** The test [should get current user info successfully]. *)
Example getCurrentUser_admin :
  run (getCurrentUser never_positive (Some "admin")) admin_user =
    (Return (mkUser (VStr "admin") (VStr "Administrator")
               (VStr "admin@example.com")
               [VStr "admin"; VStr "user"]
               [VStr "admin_all_objects"; VStr "search"]
               (VStr "search") (VStr "Splunk")),
     [mkRequest GET "/services/authentication/current-context" json_mode;
      mkRequest GET "/services/authentication/users/admin" json_mode]).
Proof. reflexivity. Qed.

(** C3.  For a user whose roles and capabilities are the scalars [admin]
    and [search], getCurrentUser wraps the role and drops the capability,
    where listUsers wraps both. *)
Theorem getCurrentUser_drops_scalar_capabilities
    (text_is_positive : string -> bool) :
  (exists u,
     outcome (getCurrentUser text_is_positive (Some "admin")) scalar_user
       = Return u /\
     roles u = [VStr "admin"] /\
     capabilities u = []) /\
  (exists u,
     outcome listUsers scalar_user = Return [u] /\
     roles u = [VStr "admin"] /\
     capabilities u = [VStr "search"]).
Proof.
  split; eexists; repeat split.
Qed.

(** ** KV store collections *)

(** The test [should list KV store collections with stats]. *)
Example listKVStoreCollections_with_stats :
  outcome (listKVStoreCollections never_positive no_parser) stats_available =
    Return [mkCollection (VStr "lookup_table") (VStr "search")
              ["id"; "name"] ["name"] (VNum 100);
            mkCollection (VStr "threat_list") (VStr "security")
              ["ip"; "severity"] [] (VNum 50)].
Proof. vm_compute. reflexivity. Qed.

(** ** Entries that are there, and their properties *)

Lemma entries_of_array (data : value) (entries : list value) :
  get data "entry" = Return (VArr entries) -> entries_of data = Return entries.
Proof. intros H. unfold entries_of. rewrite H. reflexivity. Qed.

Lemma get_nullish (v : value) (k : string) :
  nullish v = true -> get v k = Throw TypeError.
Proof. destruct v; cbn; congruence. Qed.

Lemma not_present (v : value) : present v = false -> nullish v = true.
Proof. unfold present. destruct (nullish v); [reflexivity|discriminate]. Qed.

Lemma get_present (v : value) (k : string) :
  present v = true -> get v k = Return (prop k v).
Proof. unfold prop. destruct v; cbn; congruence. Qed.

Lemma get_opt_returns (v : value) (k : string) :
  exists x, get_opt v k = Return x.
Proof.
  unfold get_opt. destruct (nullish v) eqn:Hv; [eexists; reflexivity|].
  rewrite get_present by (unfold present; rewrite Hv; reflexivity).
  eexists; reflexivity.
Qed.

Lemma get_opt_prop (v : value) (k : string) :
  get_opt v k = Return (prop k v).
Proof. unfold get_opt, prop. destruct v; reflexivity. Qed.

Lemma or_else_present (a b : value) :
  present b = true -> present (or_else a b) = true.
Proof.
  intros Hb. unfold or_else. destruct (truthy a) eqn:Ht; [|exact Hb].
  destruct a; cbn in *; congruence.
Qed.

(** ** Keys with a prefix *)

Lemma drop_chars_append (p s : string) :
  drop_chars (String.length p) (p +:+ s) = s.
Proof. induction p as [|c p IH]; [reflexivity|exact IH]. Qed.

Lemma remove_prefix_append (p s : string) : remove_prefix p (p +:+ s) = s.
Proof. apply drop_chars_append. Qed.

Lemma field_names_spec (p : string) (keys : list string) (f : string) :
  In f (field_names p keys) <-> In (p +:+ f) keys.
Proof.
  unfold field_names. rewrite in_map_iff. split.
  - intros (key & <- & Hkey). apply filter_In in Hkey. destruct Hkey as [Hin Hp].
    apply prefix_has_prefix in Hp. destruct Hp as [rest ->].
    rewrite remove_prefix_append. exact Hin.
  - intros Hin. exists (p +:+ f). split; [apply remove_prefix_append|].
    apply filter_In. split; [exact Hin|].
    apply prefix_has_prefix. exists f. reflexivity.
Qed.


Lemma collection_of_record_count (st : stats_object) (entry : value)
    (c : KVStoreCollection) :
  collection_of st entry = Return c ->
  kv_record_count c = or_else (stats_get (stats_key c) st) (VNum 0).
Proof.
  unfold collection_of. intros H.
  destruct (get entry "name"); [|discriminate]. cbn in H.
  destruct (get entry "content"); [|discriminate]. cbn in H.
  destruct (get entry "acl") as [acl|]; [|discriminate]. cbn in H.
  destruct (get_opt acl "app"); [|discriminate]. cbn in H.
  injection H as <-. reflexivity.
Qed.

Lemma collection_of_description (st st' : stats_object) (entry : value) :
  match collection_of st entry, collection_of st' entry with
  | Return c, Return c' => description_of c = description_of c'
  | Throw _, Throw _ => True
  | _, _ => False
  end.
Proof.
  unfold collection_of.
  destruct (get entry "name"); cbn; [|exact I].
  destruct (get entry "content"); cbn; [|exact I].
  destruct (get entry "acl") as [acl|]; cbn; [|exact I].
  destruct (get_opt acl "app"); cbn; [reflexivity|exact I].
Qed.

(** Which collections are listed, and all their fields but the count, do
    not depend on the statistics. *)
Lemma collect_description (st st' : stats_object) (entries : list value) :
  List.map description_of (collect (collection_of st) entries) =
  List.map description_of (collect (collection_of st') entries).
Proof.
  induction entries as [|entry rest IH]; [reflexivity|].
  cbn [collect]. pose proof (collection_of_description st st' entry) as H.
  destruct (collection_of st entry), (collection_of st' entry);
    try contradiction.
  - cbn [List.map]. rewrite H, IH. reflexivity.
  - exact IH.
Qed.


Lemma or_else_defaults (v d : value) : defaults_to d v (or_else v d).
Proof. unfold defaults_to, or_else. destruct (truthy v); split; congruence. Qed.






End SplunkProps.

(* ===================================================================== *)
(** * Further properties of SplunkClient *)
(* ===================================================================== *)

Module SplunkExtra.
Import JS Http Splunk Spec SplunkProps SplunkMore SpecMore.

(** ** extractSid *)

Lemma append_assoc (a b c : string) : (a +:+ b) +:+ c = a +:+ b +:+ c.
Proof.
  induction a as [|x a IH]; [reflexivity|].
  rewrite !append_cons, IH. reflexivity.
Qed.

Lemma split_at_lt_spec (s : string) :
  s = fst (split_at_lt s) +:+ snd (split_at_lt s) /\
  no_lt (fst (split_at_lt s)).
Proof.
  induction s as [|c r [IHeq IHno]]; [split; [reflexivity|constructor]|].
  cbn [split_at_lt]. destruct (Ascii.eqb c "<") eqn:Hc.
  - split; [reflexivity|constructor].
  - destruct (split_at_lt r) as [body rest]. cbn [fst snd] in *.
    split; [rewrite append_cons, <- IHeq; reflexivity|].
    constructor; [|exact IHno]. apply Ascii.eqb_neq. exact Hc.
Qed.

Lemma split_at_lt_stops (body rest : string) :
  no_lt body ->
  split_at_lt (body +:+ String "<" rest) = (body, String "<" rest).
Proof.
  induction body as [|c b IH]; intros Hno; [reflexivity|].
  inversion Hno as [|? ? Hc Hb]; subst.
  rewrite append_cons. cbn [split_at_lt].
  rewrite (proj2 (Ascii.eqb_neq c "<")) by exact Hc.
  rewrite IH by exact Hb. reflexivity.
Qed.

Lemma match_sid_here_sound (s sid : string) :
  match_sid_here s = Some sid ->
  sid <> "" /\ no_lt sid /\
  exists post, s = "<sid>" +:+ sid +:+ "</sid>" +:+ post.
Proof.
  unfold match_sid_here.
  destruct (String.prefix "<sid>" s) eqn:Hp; [|discriminate].
  apply prefix_has_prefix in Hp. destruct Hp as [t ->].
  change 5%nat with (String.length "<sid>"). rewrite drop_chars_append.
  destruct (split_at_lt_spec t) as [Heq Hno].
  destruct (split_at_lt t) as [body rest]. cbn [fst snd] in *.
  destruct (String.eqb body "") eqn:Hb; [discriminate|]. cbn [negb andb].
  destruct (String.prefix "</sid>" rest) eqn:Hr; [|discriminate].
  intros [= <-]. apply prefix_has_prefix in Hr. destruct Hr as [post ->].
  split; [apply String.eqb_neq; exact Hb|]. split; [exact Hno|].
  exists post. rewrite Heq. reflexivity.
Qed.

Lemma match_sid_here_complete (sid post : string) :
  sid <> "" -> no_lt sid ->
  match_sid_here ("<sid>" +:+ sid +:+ "</sid>" +:+ post) = Some sid.
Proof.
  intros Hne Hno. unfold match_sid_here.
  rewrite (proj2 (prefix_has_prefix "<sid>" _)) by (eexists; reflexivity).
  change 5%nat with (String.length "<sid>"). rewrite drop_chars_append.
  change ("</sid>" +:+ post) with (String "<" ("/sid>" +:+ post)).
  rewrite split_at_lt_stops by exact Hno.
  rewrite (proj2 (String.eqb_neq sid "")) by exact Hne. cbn [negb andb].
  change (String "<" ("/sid>" +:+ post)) with ("</sid>" +:+ post).
  rewrite (proj2 (prefix_has_prefix "</sid>" _)) by (eexists; reflexivity).
  reflexivity.
Qed.

Lemma match_sid_sound (s sid : string) :
  match_sid s = Some sid -> sid_tag s sid.
Proof.
  induction s as [|c r IH].
  - cbn. discriminate.
  - cbn [match_sid]. destruct (match_sid_here (String c r)) as [sid'|] eqn:Hh.
    + intros [= <-]. destruct (match_sid_here_sound _ _ Hh) as (Hne & Hno & post & Heq).
      repeat split; try assumption. exists "", post. rewrite Heq.
      rewrite !append_assoc. reflexivity.
    + intros H. destruct (IH H) as (Hne & Hno & a & b & ->).
      repeat split; try assumption. exists (String c a), b. reflexivity.
Qed.

Lemma match_sid_of_here (s sid : string) :
  match_sid_here s = Some sid -> match_sid s = Some sid.
Proof. destruct s; cbn [match_sid]; intros ->; reflexivity. Qed.

Lemma match_sid_finds (pre sid post : string) :
  sid <> "" -> no_lt sid ->
  is_Some (match_sid (pre +:+ "<sid>" +:+ sid +:+ "</sid>" +:+ post)).
Proof.
  intros Hne Hno. induction pre as [|c pre IH].
  - change ("" +:+ ?x) with x.
    rewrite (match_sid_of_here _ _ (match_sid_here_complete sid post Hne Hno)).
    eexists; reflexivity.
  - rewrite append_cons. cbn [match_sid].
    destruct (match_sid_here _); [eexists; reflexivity|exact IH].
Qed.


(** X1.  extractSid applied to a text returns a job identifier exactly when
    the text holds an element <sid>...</sid> whose content is non-empty
    and free of '<': whatever it returns is the content of such an
    element of the text, it returns one whenever the text holds such an
    element, and without one it fails with 'Failed to extract job SID
    from response'. *)
Theorem extractSid_finds_tag (xml : string) :
  (forall sid, extractSid (VStr xml) = Return sid -> sid_tag xml sid) /\
  ((exists sid, sid_tag xml sid) ->
     exists sid, extractSid (VStr xml) = Return sid) /\
  (~ (exists sid, sid_tag xml sid) ->
     extractSid (VStr xml)
       = Throw (Error "Failed to extract job SID from response")).
Proof.
  unfold extractSid. split; [|split].
  - intros sid H. destruct (match_sid xml) eqn:Hm; [|discriminate].
    injection H as <-. apply match_sid_sound. exact Hm.
  - intros (sid & Hne & Hno & pre & post & ->).
    rewrite append_assoc, append_assoc.
    destruct (match_sid_finds pre sid post Hne Hno) as [sid' ->].
    eexists; reflexivity.
  - intros Hnone. destruct (match_sid xml) as [sid|] eqn:Hm; [|reflexivity].
    exfalso. apply Hnone. exists sid. apply match_sid_sound. exact Hm.
Qed.

Lemma prefix_straddle (pre rest : string) :
  pre <> "" ->
  String.prefix "<sid>" (pre +:+ "<sid>" +:+ rest) = true ->
  has_prefix "<sid>" pre.
Proof.
  intros Hne Hp. apply prefix_has_prefix in Hp. destruct Hp as [t Ht].
  destruct pre as [|c1 pre]; [congruence|].
  rewrite !append_cons in Ht. injection Ht as -> Ht.
  destruct pre as [|c2 pre]; [discriminate Ht|].
  rewrite !append_cons in Ht. injection Ht as -> Ht.
  destruct pre as [|c3 pre]; [discriminate Ht|].
  rewrite !append_cons in Ht. injection Ht as -> Ht.
  destruct pre as [|c4 pre]; [discriminate Ht|].
  rewrite !append_cons in Ht. injection Ht as -> Ht.
  destruct pre as [|c5 pre]; [discriminate Ht|].
  rewrite !append_cons in Ht. injection Ht as -> Ht.
  exists pre. reflexivity.
Qed.

(** X2.  When the text before an element <sid>s</sid> (s non-empty and free
    of '<') holds no '<sid>', extractSid returns s, whatever follows the
    element: the first job identifier of the response is taken. *)
Theorem extractSid_first_tag (pre sid post : string) :
  ~ occurs "<sid>" pre -> sid <> "" -> no_lt sid ->
  extractSid (VStr (pre +:+ "<sid>" +:+ sid +:+ "</sid>" +:+ post)) = Return sid.
Proof.
  intros Hpre Hne Hno. unfold extractSid.
  enough (match_sid (pre +:+ "<sid>" +:+ sid +:+ "</sid>" +:+ post) = Some sid)
    as -> by reflexivity.
  induction pre as [|c pre IH].
  - apply match_sid_of_here. apply match_sid_here_complete; assumption.
  - rewrite append_cons. cbn [match_sid]. rewrite <- append_cons.
    assert (match_sid_here (String c pre +:+ "<sid>" +:+ sid +:+ "</sid>" +:+ post)
            = None) as ->.
    { unfold match_sid_here.
      destruct (String.prefix "<sid>" _) eqn:Hp; [|reflexivity].
      exfalso. apply Hpre. apply prefix_straddle in Hp; [|discriminate].
      destruct Hp as [b Hb]. exists "", b. exact Hb. }
    apply IH. intros (a & b & ->). apply Hpre. exists (String c a), b. reflexivity.
Qed.

Lemma extractSid_first_tag_witness :
  extractSid (VStr ("<response>" +:+ "<sid>" +:+ "12345" +:+ "</sid>"
                      +:+ "</response>"))
    = Return "12345".
Proof.
  apply (extractSid_first_tag "<response>" "12345" "</response>").
  - intros (a & b & H).
    repeat (destruct a as [|? a]; [discriminate H|];
            rewrite append_cons in H; injection H as _ H).
    destruct a; discriminate H.
  - discriminate.
  - repeat constructor; discriminate.
Defined.


(** ** searchSplunk *)

Lemma searchSplunk_run (q et lt : string) (mr : Z)
    (up : upstream params value) :
  q <> "" ->
  run (searchSplunk q et lt mr) up =
    match up (job_request q et lt) with
    | Throw e => (Throw e, [job_request q et lt])
    | Return jobData =>
        match extractSid jobData with
        | Throw e => (Throw e, [job_request q et lt])
        | Return sid =>
            (resultsData ← up (results_request sid mr);
             results ← get resultsData "results";
             mret (or_else results (VArr [])),
             [job_request q et lt; results_request sid mr])
        end
    end.
Proof.
  intros Hq. unfold searchSplunk.
  rewrite (proj2 (String.eqb_neq q "")) by assumption.
  run_client. fold (job_request q et lt).
  destruct (up (job_request q et lt)) as [jobData|e]; cbn; [|reflexivity].
  destruct (extractSid jobData) as [sid|e]; cbn; [|reflexivity].
  fold (results_request sid mr).
  destruct (up (results_request sid mr)) as [rd|e]; cbn; [|reflexivity].
  destruct (get rd "results"); reflexivity.
Qed.

(** X3.  For a non-empty query, when the job creation request fails, or its
    answer holds no job identifier, searchSplunk fails with that same
    error after the single POST to /services/search/jobs: the results
    are never requested. *)
Theorem searchSplunk_no_results_without_job (q et lt : string) (mr : Z)
    (up : upstream params value) (e : exn) :
  q <> "" ->
  up (job_request q et lt) = Throw e \/
  (exists jobData, up (job_request q et lt) = Return jobData /\
                   extractSid jobData = Throw e) ->
  run (searchSplunk q et lt mr) up = (Throw e, [job_request q et lt]).
Proof.
  intros Hq H. rewrite searchSplunk_run by assumption.
  destruct H as [-> | (jobData & -> & ->)]; reflexivity.
Qed.

Lemma searchSplunk_no_results_without_job_witness :
  run (searchSplunk "index=main" "-24h" "now" 100) no_upstream =
    (Throw (Error "Network error"), [job_request "index=main" "-24h" "now"]).
Proof.
  apply (searchSplunk_no_results_without_job "index=main" "-24h" "now" 100
           no_upstream (Error "Network error")).
  - discriminate.
  - left. reflexivity.
Defined.

(** X4.  For a non-empty query whose job is created with identifier sid,
    searchSplunk issues exactly two requests, the POST creating the job
    and then a GET of /services/search/jobs/<sid>/results with
    output_mode json and count maxResults, and returns the results field
    of the second answer, or the empty list when that field is missing
    or falsy. *)
Theorem searchSplunk_results (q et lt sid : string) (mr : Z)
    (up : upstream params value) (jobData resultsData results : value) :
  q <> "" ->
  up (job_request q et lt) = Return jobData ->
  extractSid jobData = Return sid ->
  up (results_request sid mr) = Return resultsData ->
  get resultsData "results" = Return results ->
  run (searchSplunk q et lt mr) up =
    (Return (if truthy results then results else VArr []),
     [job_request q et lt; results_request sid mr]).
Proof.
  intros Hq Hjob Hsid Hres Hget. rewrite searchSplunk_run by assumption.
  rewrite Hjob, Hsid, Hres. cbn. rewrite Hget. reflexivity.
Qed.

Lemma searchSplunk_results_witness :
  run (searchSplunk "index=main" "-7d" "now" 500) job_12345 =
    (Return (VArr []),
     [job_request "index=main" "-7d" "now"; results_request "12345" 500]).
Proof.
  apply (searchSplunk_results "index=main" "-7d" "now" "12345" 500 job_12345
           (VStr "<response><sid>12345</sid></response>")
           (VObj [("results", VArr [])]) (VArr []));
    try reflexivity.
  discriminate.
Defined.

(** ** The prefix is put once *)

Lemma trimEnd_cons (c : ascii) (r : string) :
  isWhiteSpace c = false -> trimEnd (String c r) = String c (trimEnd r).
Proof.
  intros Hc. cbn [trimEnd]. rewrite Hc. destruct (trimEnd r); reflexivity.
Qed.

Lemma trim_search_prefix (q : string) :
  startsWith (toLowerCase (trim ("search " +:+ q))) "search" = true.
Proof.
  unfold trim.
  change ("search " +:+ q) with
    (String "s" (String "e" (String "a" (String "r" (String "c"
       (String "h" (" " +:+ q))))))).
  cbn [trimStart]. change (isWhiteSpace "s") with false. cbn iota.
  rewrite !trimEnd_cons by reflexivity.
  unfold startsWith. apply prefix_has_prefix. cbn [toLowerCase].
  eexists. reflexivity.
Qed.

(** X5.  The prefix rule of searchSplunk is idempotent: a query that has been
    given the 'search ' prefix is not given it a second time, so sending
    an already prefixed query posts it unchanged. *)
Theorem outbound_query_idempotent (q : string) :
  outbound_query (outbound_query q) = outbound_query q.
Proof.
  unfold outbound_query at 2.
  destruct (negb (startsWith (trim q) "|")
            && negb (startsWith (toLowerCase (trim q)) "search")) eqn:Hq.
  - unfold outbound_query. rewrite Hq, trim_search_prefix.
    rewrite andb_false_r. reflexivity.
  - unfold outbound_query. rewrite Hq. reflexivity.
Qed.


(** ** Listings over well-formed and ill-formed entries *)

Lemma savedSearch_of_spec (entry : value) :
  if present entry then
    exists s, savedSearch_of entry = Return s /\
              ss_name s = prop "name" entry /\
              defaults_to (VStr "") (optional "description" entry)
                (ss_description s) /\
              match prop "content" entry with
              | VStr _ => ss_search s = Inherited
              | _ => exists v, ss_search s = Own v /\
                               defaults_to (VStr "") (optional "search" entry) v
              end
  else savedSearch_of entry = Throw TypeError.
Proof.
  destruct (present entry) eqn:He.
  - unfold savedSearch_of, optional. rewrite !get_present by assumption.
    cbn [mbind completion_bind]. rewrite get_opt_prop.
    cbn [mbind completion_bind].
    destruct (prop "content" entry) eqn:Hc; cbn [get_opt_search];
      rewrite ?get_opt_prop; cbn [mbind completion_bind mret completion_ret];
      (eexists; split; [reflexivity|]);
      cbn [ss_name ss_description ss_search member_or];
      (split; [reflexivity|]); (split; [apply or_else_defaults|]);
      try reflexivity; eexists; (split; [reflexivity|]); apply or_else_defaults.
  - unfold savedSearch_of.
    rewrite !(get_nullish entry) by (apply not_present; exact He).
    reflexivity.
Qed.

Lemma collect_savedSearch_of (entries : list value) :
  Forall2 (fun entry s =>
             ss_name s = prop "name" entry /\
             defaults_to (VStr "") (optional "description" entry)
               (ss_description s) /\
             match prop "content" entry with
             | VStr _ => ss_search s = Inherited
             | _ => exists v, ss_search s = Own v /\
                              defaults_to (VStr "") (optional "search" entry) v
             end)
    (List.filter present entries) (collect savedSearch_of entries).
Proof.
  induction entries as [|entry rest IH]; [constructor|].
  cbn [collect List.filter]. pose proof (savedSearch_of_spec entry) as H.
  destruct (present entry).
  - destruct H as (s & -> & Hs). constructor; [exact Hs|exact IH].
  - rewrite H. exact IH.
Qed.

(** X6.  When the envelope of /services/saved/searches has an entry array,
    listSavedSearches returns, without failing, one saved search for
    each entry that is neither null nor undefined, in order and under
    the entry's name (a null or undefined entry is skipped by the
    try/catch of the loop).  The description of each is that of the
    content of the entry, and the empty string when the content has
    none or a falsy one; so is its search, except that for a content
    which is a string the search is the method of that name which
    strings inherit. *)
Theorem listSavedSearches_lists_present_entries
    (up : upstream params value) (data : value) (entries : list value) :
  up saved_searches_request = Return data ->
  get data "entry" = Return (VArr entries) ->
  exists searches,
    outcome listSavedSearches up = Return searches /\
    Forall2 (fun entry s =>
               ss_name s = prop "name" entry /\
               defaults_to (VStr "") (optional "description" entry)
                 (ss_description s) /\
               match prop "content" entry with
               | VStr _ => ss_search s = Inherited
               | _ => exists v, ss_search s = Own v /\
                                defaults_to (VStr "") (optional "search" entry) v
               end)
      (List.filter present entries) searches.
Proof.
  intros Hup Hentry. exists (collect savedSearch_of entries).
  split; [|apply collect_savedSearch_of].
  unfold listSavedSearches. run_client. fold saved_searches_request.
  rewrite Hup. cbn. rewrite (entries_of_array _ _ Hentry). reflexivity.
Qed.

Lemma listSavedSearches_lists_present_entries_witness :
  exists searches,
    outcome listSavedSearches bare_entry = Return searches /\
    Forall2 (fun entry s =>
               ss_name s = prop "name" entry /\
               defaults_to (VStr "") (optional "description" entry)
                 (ss_description s) /\
               match prop "content" entry with
               | VStr _ => ss_search s = Inherited
               | _ => exists v, ss_search s = Own v /\
                                defaults_to (VStr "") (optional "search" entry) v
               end)
      (List.filter present
         [VObj [("name", VStr "Test Search"); ("content", VObj [])]])
      searches.
Proof.
  apply (listSavedSearches_lists_present_entries bare_entry
           (VObj [("entry",
              VArr [VObj [("name", VStr "Test Search");
                          ("content", VObj [])]])])); reflexivity.
Defined.

(** *** listUsers *)

Lemma user_of_spec (entry : value) :
  if has_content entry then
    exists u, user_of entry = Return u /\
              username u = prop "name" entry /\
              present (real_name u) = true /\ present (email u) = true /\
              present (default_app u) = true /\ present (type u) = true
  else exists e, user_of entry = Throw e.
Proof.
  unfold has_content. destruct (present entry) eqn:He; cbn [andb].
  - destruct (present (prop "content" entry)) eqn:Hc.
    + unfold user_of. rewrite (get_present entry "content") by assumption. cbn.
      rewrite !(get_present (prop "content" entry)) by assumption. cbn.
      rewrite get_present by assumption. cbn.
      eexists. split; [reflexivity|]. cbn.
      repeat split; apply or_else_present; reflexivity.
    + unfold user_of. rewrite (get_present entry "content") by assumption. cbn.
      rewrite !(get_nullish (prop "content" entry))
        by (apply not_present; exact Hc).
      eexists; reflexivity.
  - unfold user_of. rewrite !(get_nullish entry) by (apply not_present; exact He).
    eexists; reflexivity.
Qed.

Lemma listUsers_loop_aborts (entries : list value) (users : list SplunkUser) :
  Exists (fun entry => nullish entry = true) entries ->
  listUsers_loop entries users = Throw TypeError.
Proof.
  intros H. revert users. induction H as [entry rest Hnull|entry rest Hex IH];
    intros users; cbn [listUsers_loop].
  - unfold user_of. rewrite !get_nullish by assumption. reflexivity.
  - destruct (nullish entry) eqn:He.
    + unfold user_of. rewrite !get_nullish by assumption. reflexivity.
    + pose proof (user_of_spec entry) as Hu.
      assert (present entry = true) as Hp by (unfold present; rewrite He; reflexivity).
      destruct (has_content entry).
      * destruct Hu as (u & -> & _). cbn. apply IH.
      * destruct Hu as [e ->]. cbn. rewrite get_present by assumption. cbn.
        apply IH.
Qed.

(** X7.  When the entry array of /services/authentication/users holds a null
    or undefined entry, listUsers fails with a TypeError: the catch
    block of its loop reads entry.name for the log message, which throws
    again outside the inner try. *)
Theorem listUsers_nullish_entry_aborts (up : upstream params value)
    (data : value) (entries : list value) :
  up users_request = Return data ->
  get data "entry" = Return (VArr entries) ->
  Exists (fun entry => nullish entry = true) entries ->
  outcome listUsers up = Throw TypeError.
Proof.
  intros Hup Hentry Hex. unfold listUsers. run_client. fold users_request.
  rewrite Hup. cbn. rewrite (entries_of_array _ _ Hentry). cbn.
  rewrite listUsers_loop_aborts by assumption. reflexivity.
Qed.

Lemma listUsers_nullish_entry_aborts_witness :
  outcome listUsers null_entry = Throw TypeError.
Proof.
  apply (listUsers_nullish_entry_aborts null_entry
           (VObj [("entry", VArr [VNull])]) [VNull]);
    [reflexivity|reflexivity|].
  constructor. reflexivity.
Defined.





(** *** healthCheck *)

Lemma app_of_spec (entry : value) :
  if present entry then
    exists a, app_of entry = Return a /\
              app_name a = prop "name" entry /\
              defaults_to (prop "name" entry) (optional "label" entry)
                (app_label a) /\
              defaults_to (VStr "unknown") (optional "version" entry)
                (app_version a)
  else app_of entry = Throw TypeError.
Proof.
  destruct (present entry) eqn:He.
  - unfold app_of, optional. rewrite !get_present by assumption.
    cbn [mbind completion_bind]. rewrite !get_opt_prop.
    cbn [mbind completion_bind mret completion_ret].
    eexists. split; [reflexivity|]. cbn [app_name app_label app_version].
    split; [reflexivity|]. split; apply or_else_defaults.
  - unfold app_of. rewrite !(get_nullish entry) by (apply not_present; exact He).
    reflexivity.
Qed.

Lemma healthCheck_loop_aborts (entries : list value) (apps : list SplunkApp) :
  Exists (fun entry => nullish entry = true) entries ->
  healthCheck_loop entries apps = Throw TypeError.
Proof.
  intros H. revert apps. induction H as [entry rest Hnull|entry rest Hex IH];
    intros apps; cbn [healthCheck_loop].
  - unfold app_of. rewrite !get_nullish by assumption. reflexivity.
  - pose proof (app_of_spec entry) as Ha. destruct (present entry) eqn:Hp.
    + destruct Ha as (a & -> & _). cbn. apply IH.
    + rewrite Ha. cbn. rewrite get_nullish by (apply not_present; exact Hp).
      reflexivity.
Qed.

Lemma healthCheck_loop_present (entries : list value) (apps : list SplunkApp) :
  Forall (fun entry => present entry = true) entries ->
  exists more,
    healthCheck_loop entries apps = Return (apps ++ more) /\
    Forall2 (fun entry a =>
               app_name a = prop "name" entry /\
               defaults_to (prop "name" entry) (optional "label" entry)
                 (app_label a) /\
               defaults_to (VStr "unknown") (optional "version" entry)
                 (app_version a))
      entries more.
Proof.
  intros H. revert apps. induction H as [|entry rest Hp Hrest IH]; intros apps.
  - exists []. rewrite app_nil_r. split; [reflexivity|constructor].
  - cbn [healthCheck_loop]. pose proof (app_of_spec entry) as Ha.
    rewrite Hp in Ha. destruct Ha as (a & -> & Ha). cbn.
    destruct (IH (apps ++ [a])) as (more & -> & Hall).
    exists (a :: more). rewrite <- app_assoc. split; [reflexivity|].
    constructor; assumption.
Qed.

(** X9.  Given the entry array of /services/apps/local: healthCheck fails
    with a TypeError when an entry is null or undefined (its catch block
    reads entry.name); otherwise it returns status 'healthy', one app
    per entry in order and under the entry's name, apps_count equal to
    the number of entries, and the host and SSL setting of the
    configuration.  The label of an app is that of the content of its
    entry, and the name of the entry when the content has none or a
    falsy one; its version is that of the content, and 'unknown' when
    the content has none or a falsy one. *)
Theorem healthCheck_report (config : SplunkConfig)
    (up : upstream params value) (data : value) (entries : list value) :
  up apps_request = Return data ->
  get data "entry" = Return (VArr entries) ->
  (Exists (fun entry => nullish entry = true) entries ->
     outcome (healthCheck config) up = Throw TypeError) /\
  (Forall (fun entry => present entry = true) entries ->
     exists report,
       outcome (healthCheck config) up = Return report /\
       health_status report = "healthy" /\
       apps_count report = Z.of_nat (List.length entries) /\
       Forall2 (fun entry a =>
                  app_name a = prop "name" entry /\
                  defaults_to (prop "name" entry) (optional "label" entry)
                    (app_label a) /\
                  defaults_to (VStr "unknown") (optional "version" entry)
                    (app_version a))
         entries (apps report) /\
       conn_host (health_connection report) = host config /\
       conn_ssl_verify (health_connection report) = verifySSL config).
Proof.
  intros Hup Hentry. split.
  - intros Hex. unfold healthCheck. run_client. fold apps_request.
    rewrite Hup. cbn. rewrite (entries_of_array _ _ Hentry). cbn.
    rewrite healthCheck_loop_aborts by assumption. reflexivity.
  - intros Hall.
    destruct (healthCheck_loop_present entries [] Hall) as (apps & Hloop & Happs).
    cbn [app] in Hloop. eexists. split.
    + unfold healthCheck. run_client. fold apps_request.
      rewrite Hup. cbn. rewrite (entries_of_array _ _ Hentry). cbn.
      rewrite Hloop. reflexivity.
    + cbn. split; [reflexivity|]. split.
      * rewrite (Forall2_length _ _ _ Happs). reflexivity.
      * split; [exact Happs|]. split; reflexivity.
Qed.

Lemma healthCheck_report_witness :
  (Exists (fun entry => nullish entry = true)
     [VObj [("name", VStr "Test Search"); ("content", VObj [])]] ->
     outcome (healthCheck mockConfig) bare_entry = Throw TypeError) /\
  (Forall (fun entry => present entry = true)
     [VObj [("name", VStr "Test Search"); ("content", VObj [])]] ->
     exists report,
       outcome (healthCheck mockConfig) bare_entry = Return report /\
       health_status report = "healthy" /\
       apps_count report = 1 /\
       Forall2 (fun entry a =>
                  app_name a = prop "name" entry /\
                  defaults_to (prop "name" entry) (optional "label" entry)
                    (app_label a) /\
                  defaults_to (VStr "unknown") (optional "version" entry)
                    (app_version a))
         [VObj [("name", VStr "Test Search"); ("content", VObj [])]]
         (apps report) /\
       conn_host (health_connection report) = "localhost" /\
       conn_ssl_verify (health_connection report) = false).
Proof.
  apply (healthCheck_report mockConfig bare_entry
           (VObj [("entry",
              VArr [VObj [("name", VStr "Test Search");
                          ("content", VObj [])]])])); reflexivity.
Defined.

(** The test [should perform health check successfully]. *)
Example healthCheck_two_apps :
  outcome (healthCheck mockConfig) two_apps =
    Return (mkHealth "healthy"
              (mkConnection "localhost" 8089 "https" (VStr "admin") false)
              2
              [mkApp (VStr "search") (VStr "Search & Reporting") (VStr "9.0.0");
               mkApp (VStr "launcher") (VStr "Launcher") (VStr "9.0.0")]).
Proof. reflexivity. Qed.

(** *** getCurrentUser *)

Section CurrentUser.
Variable text_is_positive : string -> bool.
Variable config_username : option string.
Variable up : upstream params value.

Lemma username_from_context_requests (log : list (request params)) :
  username_from_context text_is_positive config_username up log =
  (outcome (username_from_context text_is_positive config_username) up,
   log ++ [context_request]).
Proof.
  unfold username_from_context. run_client. fold context_request.
  destruct (up context_request); reflexivity.
Qed.

Lemma getCurrentUser_requests :
  requests (getCurrentUser text_is_positive config_username) up =
    [context_request; user_request (to_string (settled_username text_is_positive config_username up))].
Proof.
  unfold getCurrentUser, requests, run, try_catch_io at 1.
  unfold mbind at 1, io_mbind, io_bind.
  unfold try_catch_io. rewrite username_from_context_requests.
  unfold settled_username.
  destruct (outcome _ up) as [name|e]; run_client;
    (destruct (up _) as [d|e']; [|reflexivity]);
    (destruct (get d "entry") as [en|]; [|reflexivity]);
    (destruct (missing_or_empty en) as [[]|]; [reflexivity| |reflexivity]);
    destruct (completion_bind _ _ _ _); reflexivity.
Qed.

Lemma getCurrentUser_not_found (data : value) :
  up (user_request (to_string (settled_username text_is_positive config_username up))) = Return data ->
  entry_missing_or_empty data ->
  outcome (getCurrentUser text_is_positive config_username) up =
    Throw (Error ("User not found: " +:+ to_string (settled_username text_is_positive config_username up))).
Proof.
  intros Hup Hdata.
  unfold getCurrentUser, outcome, run, try_catch_io at 1.
  unfold mbind at 1, io_mbind, io_bind.
  unfold try_catch_io. rewrite username_from_context_requests.
  unfold settled_username in *. unfold user_request in Hup.
  destruct (outcome _ up) as [name|e]; run_client; cbn in Hup; rewrite Hup; cbn;
    destruct Hdata as [-> | ->]; reflexivity.
Qed.


Lemma getCurrentUser_returns (user : SplunkUser) :
  outcome (getCurrentUser text_is_positive config_username) up = Return user ->
  username user = settled_username text_is_positive config_username up /\
  present (real_name user) = true /\ present (email user) = true /\
  present (default_app user) = true /\ present (type user) = true.
Proof.
  unfold getCurrentUser, outcome, run, try_catch_io at 1.
  unfold mbind at 1, io_mbind, io_bind.
  unfold try_catch_io. rewrite username_from_context_requests.
  unfold settled_username.
  destruct (outcome _ up) as [name|e]; run_client;
    (destruct (up _) as [d|e']; [|discriminate]);
    (destruct (get d "entry") as [en|]; [|discriminate]);
    (destruct (missing_or_empty en) as [[]|]; [discriminate| |discriminate]);
    cbn;
    (destruct (first en) as [e0|]; [|discriminate]); cbn;
    (destruct (get e0 "content") as [content|]; [|discriminate]); cbn;
    (destruct (get content "roles"); [|discriminate]); cbn;
    (destruct (get content "capabilities"); [|discriminate]); cbn;
    (destruct (get content "realname"); [|discriminate]); cbn;
    (destruct (get content "email"); [|discriminate]); cbn;
    (destruct (get content "defaultApp"); [|discriminate]); cbn;
    (destruct (get content "type"); [|discriminate]); cbn;
    intros [= <-]; cbn; repeat split; apply or_else_present; reflexivity.
Qed.

End CurrentUser.

Lemma configured_username_fallback (config_username : option string) :
  configured_username config_username = VStr (fallback_username config_username).
Proof. destruct config_username as [[|c s]|]; reflexivity. Qed.

(** X10.  When the lookup of the current context fails in any way,
    getCurrentUser still issues exactly two requests, the context lookup
    and then the lookup of the configured user name ('admin' when none
    is configured or it is empty); a user it returns carries that name,
    and when that second lookup has no entry it fails with 'User not
    found: <name>'. *)
Theorem getCurrentUser_falls_back (text_is_positive : string -> bool)
    (config_username : option string) (up : upstream params value) (e : exn) :
  outcome (username_from_context text_is_positive config_username) up = Throw e ->
  requests (getCurrentUser text_is_positive config_username) up =
    [context_request; user_request (fallback_username config_username)] /\
  (forall user,
     outcome (getCurrentUser text_is_positive config_username) up = Return user ->
     username user = VStr (fallback_username config_username)) /\
  (forall data,
     up (user_request (fallback_username config_username)) = Return data ->
     entry_missing_or_empty data ->
     outcome (getCurrentUser text_is_positive config_username) up =
       Throw (Error ("User not found: " +:+ fallback_username config_username))).
Proof.
  intros Hctx.
  assert (settled_username text_is_positive config_username up
          = VStr (fallback_username config_username)) as Hs.
  { unfold settled_username. rewrite Hctx. apply configured_username_fallback. }
  split; [|split].
  - rewrite getCurrentUser_requests, Hs. reflexivity.
  - intros user Hu. apply getCurrentUser_returns in Hu. rewrite <- Hs. apply Hu.
  - intros data Hup Hdata.
    rewrite (getCurrentUser_not_found text_is_positive config_username up data);
      rewrite ?Hs; [reflexivity|exact Hup|exact Hdata].
Qed.

Lemma getCurrentUser_falls_back_witness :
  requests (getCurrentUser never_positive None) scalar_user =
    [context_request; user_request "admin"] /\
  (forall user,
     outcome (getCurrentUser never_positive None) scalar_user = Return user ->
     username user = VStr "admin") /\
  (forall data,
     scalar_user (user_request "admin") = Return data ->
     entry_missing_or_empty data ->
     outcome (getCurrentUser never_positive None) scalar_user =
       Throw (Error ("User not found: " +:+ "admin"))).
Proof.
  apply (getCurrentUser_falls_back never_positive None scalar_user
           (Error "Context not available")).
  reflexivity.
Defined.

(** X11.  When the current context names a non-empty user name, getCurrentUser
    looks up that user, whatever the configuration says: it issues the
    context request and then the request for that name, and a user it
    returns carries that name. *)
Theorem getCurrentUser_prefers_context_username
    (text_is_positive : string -> bool) (config_username : option string)
    (up : upstream params value) (contextData entry0 content : value)
    (rest : list value) (name : string) :
  up context_request = Return contextData ->
  get contextData "entry" = Return (VArr (entry0 :: rest)) ->
  get entry0 "content" = Return content ->
  get_opt content "username" = Return (VStr name) ->
  name <> "" ->
  requests (getCurrentUser text_is_positive config_username) up =
    [context_request; user_request name] /\
  (forall user,
     outcome (getCurrentUser text_is_positive config_username) up = Return user ->
     username user = VStr name).
Proof.
  intros Hup Hentry Hcontent Hname Hne.
  assert (settled_username text_is_positive config_username up = VStr name) as Hs.
  { unfold settled_username, username_from_context. run_client.
    fold context_request. rewrite Hup. cbn. rewrite Hentry. cbn.
    rewrite Hcontent. cbn. rewrite Hname. cbn.
    rewrite (proj2 (String.eqb_neq name "")) by exact Hne. reflexivity. }
  split.
  - rewrite getCurrentUser_requests, Hs. reflexivity.
  - intros user Hu. apply getCurrentUser_returns in Hu. rewrite <- Hs. apply Hu.
Qed.

Lemma getCurrentUser_prefers_context_username_witness :
  requests (getCurrentUser never_positive (Some "someone")) admin_user =
    [context_request; user_request "admin"] /\
  (forall user,
     outcome (getCurrentUser never_positive (Some "someone")) admin_user
       = Return user ->
     username user = VStr "admin").
Proof.
  apply (getCurrentUser_prefers_context_username never_positive (Some "someone")
           admin_user
           (VObj [("entry",
              VArr [VObj [("content", VObj [("username", VStr "admin")])]])])
           (VObj [("content", VObj [("username", VStr "admin")])])
           (VObj [("username", VStr "admin")]) [] "admin");
    try reflexivity.
  discriminate.
Defined.

(** *** getIndexInfo *)





(** ** getIndexesAndSourcetypes *)

Lemma listIndexes_frame (up : upstream params value)
    (log : list (request params)) :
  listIndexes up log = (outcome listIndexes up, log ++ [indexes_request]).
Proof.
  unfold listIndexes. run_client. fold indexes_request.
  destruct (up indexes_request) as [d|]; cbn; [|reflexivity].
  destruct (get d "entry") as [en|]; cbn; [|reflexivity].
  destruct (array_map en _); reflexivity.
Qed.

Lemma searchSplunk_frame (q et lt : string) (mr : Z)
    (up : upstream params value) (log : list (request params)) :
  q <> "" ->
  searchSplunk q et lt mr up log =
    (outcome (searchSplunk q et lt mr) up,
     log ++ requests (searchSplunk q et lt mr) up).
Proof.
  intros Hq. unfold searchSplunk.
  rewrite (proj2 (String.eqb_neq q "")) by assumption.
  run_client.
  destruct (up _) as [jobData|e]; cbn; [|reflexivity].
  destruct (extractSid jobData) as [sid|e]; cbn; [|reflexivity].
  destruct (up _) as [rd|e]; cbn; [|rewrite <- app_assoc; reflexivity].
  destruct (get rd "results"); cbn; rewrite <- app_assoc; reflexivity.
Qed.

Lemma sourcetypes_query_not_empty : sourcetypes_query <> "".
Proof. discriminate. Qed.

Lemma sourcetypes_query_unchanged :
  outbound_query sourcetypes_query = sourcetypes_query.
Proof. reflexivity. Qed.

Lemma getIndexesAndSourcetypes_run (up : upstream params value) :
  run getIndexesAndSourcetypes up =
    match outcome listIndexes up with
    | Throw e => (Throw e, [indexes_request])
    | Return indexes =>
        (results ← outcome (searchSplunk sourcetypes_query "-24h" "now" 10000) up;
         rows ← iterate results;
         sourcetypesByIndex ← group_all ∅ rows;
         mret (mkIndexesAndSourcetypes indexes sourcetypesByIndex
                 (Z.of_nat (List.length indexes))
                 (total_rows sourcetypesByIndex) "24 hours"),
         indexes_request
           :: requests (searchSplunk sourcetypes_query "-24h" "now" 10000) up)
    end.
Proof.
  unfold getIndexesAndSourcetypes, run, try_catch_io.
  unfold mbind at 1, io_mbind, io_bind. rewrite listIndexes_frame.
  destruct (outcome listIndexes up) as [indexes|e]; [|reflexivity].
  unfold mbind at 1, io_mbind, io_bind.
  rewrite (searchSplunk_frame _ _ _ _ _ _ sourcetypes_query_not_empty).
  destruct (outcome (searchSplunk _ _ _ _) up) as [results|e]; [|reflexivity].
  unfold mbind, io_mbind, io_bind, lift, completion_bind. cbn [app].
  destruct (iterate results) as [rows|]; [|reflexivity].
  destruct (group_all ∅ rows); reflexivity.
Qed.

(** X13.  getIndexesAndSourcetypes first lists the indexes: when that fails it
    fails with the same error and nothing else is requested; when it
    succeeds the next request creates a blocking search job for the
    method's fixed tstats query, sent unchanged (no 'search ' prefix)
    over the time range -24h to now. *)
Theorem getIndexesAndSourcetypes_requests (up : upstream params value) :
  (forall e, outcome listIndexes up = Throw e ->
     run getIndexesAndSourcetypes up = (Throw e, [indexes_request])) /\
  (forall indexes, outcome listIndexes up = Return indexes ->
     exists rest,
       requests getIndexesAndSourcetypes up =
         indexes_request
           :: mkRequest POST "/services/search/jobs"
                [("search", VStr sourcetypes_query);
                 ("earliest_time", VStr "-24h"); ("latest_time", VStr "now");
                 ("exec_mode", VStr "blocking")]
           :: rest).
Proof.
  split.
  - intros e He. rewrite getIndexesAndSourcetypes_run, He. reflexivity.
  - intros indexes Hi.
    change (requests getIndexesAndSourcetypes up)
      with (snd (run getIndexesAndSourcetypes up)).
    rewrite getIndexesAndSourcetypes_run, Hi. cbn [snd].
    destruct (searchSplunk_first_request sourcetypes_query "-24h" "now" 10000 up
                sourcetypes_query_not_empty) as [rest Hrest].
    rewrite Hrest, sourcetypes_query_unchanged.
    exists rest. reflexivity.
Qed.

(** *** Grouping *)

Lemma total_rows_insert (m : groups) (k : string) (row : SourcetypeCount) :
  total_rows (<[k := default [] (m !! k) ++ [row]]> m) = total_rows m + 1.
Proof.
  unfold total_rows.
  destruct (m !! k) as [l|] eqn:Hk; cbn [default from_option id].
  - rewrite <- (insert_delete_eq m k).
    rewrite map_fold_insert_L; [|intros; lia|apply lookup_delete_eq].
    rewrite (map_fold_delete_L _ _ k l m); [|intros; lia|exact Hk].
    rewrite List.length_app. cbn [List.length]. lia.
  - rewrite map_fold_insert_L; [|intros; lia|exact Hk]. cbn. lia.
Qed.

Lemma group_step_spec (m : groups) (result : value) :
  (ungroupable result -> group_step m result = Throw TypeError) /\
  (~ ungroupable result ->
     exists row,
       group_step m result =
         Return (<[row_key result := default [] (m !! row_key result) ++ [row]]> m)).
Proof.
  unfold ungroupable, row_key, group_step. split.
  - intros [Hnull|Hkey].
    + rewrite !get_nullish by assumption. reflexivity.
    + destruct (nullish result) eqn:Hn.
      * rewrite !get_nullish by assumption. reflexivity.
      * assert (present result = true) as Hp by (unfold present; rewrite Hn; reflexivity).
        rewrite !get_present by assumption. cbn.
        rewrite bool_decide_eq_true_2 by exact Hkey. reflexivity.
  - intros Hno. destruct (nullish result) eqn:Hn; [tauto|].
    assert (present result = true) as Hp by (unfold present; rewrite Hn; reflexivity).
    rewrite !get_present by assumption. cbn.
    rewrite bool_decide_eq_false_2 by tauto. eexists. reflexivity.
Qed.

Lemma classic_ungroupable (row : value) : ungroupable row \/ ~ ungroupable row.
Proof.
  unfold ungroupable. destruct (nullish row); [left; left; reflexivity|].
  destruct (decide (row_key row ∈ object_prototype_members)) as [H|H];
    [left; right; exact H|right; intros [?|?]; [discriminate|contradiction]].
Qed.

Lemma group_all_total (rows : list value) (m m' : groups) :
  group_all m rows = Return m' ->
  total_rows m' = total_rows m + Z.of_nat (List.length rows) /\
  Forall (fun row => ~ ungroupable row) rows.
Proof.
  revert m. induction rows as [|row rest IH]; intros m.
  - cbn. intros [= <-]. split; [lia|constructor].
  - cbn [group_all]. destruct (group_step_spec m row) as [Hbad Hgood].
    destruct (classic_ungroupable row) as [Hu|Hu].
    + rewrite (Hbad Hu). discriminate.
    + destruct (Hgood Hu) as [r ->]. cbn. intros H.
      destruct (IH _ H) as [Ht Hall]. rewrite total_rows_insert in Ht.
      split; [cbn [List.length]; lia|constructor; assumption].
Qed.


Lemma group_all_aborts (rows : list value) (m : groups) :
  Exists ungroupable rows -> group_all m rows = Throw TypeError.
Proof.
  intros H. revert m. induction H as [row rest Hbad|row rest Hex IH]; intros m;
    cbn [group_all]; destruct (group_step_spec m row) as [Hb Hg].
  - rewrite (Hb Hbad). reflexivity.
  - destruct (classic_ungroupable row) as [Hu|Hu].
    + rewrite (Hb Hu). reflexivity.
    + destruct (Hg Hu) as [r ->]. cbn. apply IH.
Qed.

(** X14.  Whenever getIndexesAndSourcetypes returns, its indexes are those of
    listIndexes, total_indexes is their number, total_sourcetypes is the
    number of result rows of the search and equals the sum of the sizes
    of the groups (no row is lost or counted twice by the grouping), and
    no row was null, undefined or indexed under a name inherited from
    Object.prototype. *)
Theorem getIndexesAndSourcetypes_counts (up : upstream params value)
    (r : IndexesAndSourcetypes) :
  outcome getIndexesAndSourcetypes up = Return r ->
  exists results rows,
    outcome listIndexes up = Return (indexes r) /\
    outcome (searchSplunk sourcetypes_query "-24h" "now" 10000) up
      = Return results /\
    iterate results = Return rows /\
    total_indexes r = Z.of_nat (List.length (indexes r)) /\
    total_sourcetypes r = Z.of_nat (List.length rows) /\
    total_sourcetypes r = total_rows (sourcetypes r) /\
    Forall (fun row => ~ ungroupable row) rows.
Proof.
  unfold outcome at 1. rewrite getIndexesAndSourcetypes_run.
  destruct (outcome listIndexes up) as [names|]; [|discriminate]. cbn [fst].
  destruct (outcome (searchSplunk _ _ _ _) up) as [results|]; [|discriminate].
  cbn. destruct (iterate results) as [rows|] eqn:Hit; [|discriminate]. cbn.
  destruct (group_all ∅ rows) as [m|] eqn:Hm; [|discriminate]. cbn.
  intros [= <-]. cbn [indexes sourcetypes total_indexes total_sourcetypes].
  exists results, rows.
  destruct (group_all_total _ _ _ Hm) as [Ht Hall].
  do 2 (split; [reflexivity|]). split; [exact Hit|]. split; [reflexivity|].
  split; [|split; [reflexivity|exact Hall]].
  rewrite Ht. unfold total_rows. rewrite map_fold_empty. lia.
Qed.

(** The test [should get indexes and sourcetypes successfully]. *)
Example getIndexesAndSourcetypes_two_indexes :
  outcome getIndexesAndSourcetypes two_indexes = Return two_indexes_result.
Proof. vm_compute. reflexivity. Qed.

Lemma getIndexesAndSourcetypes_counts_witness :
  exists results rows,
    outcome listIndexes two_indexes = Return (indexes two_indexes_result) /\
    outcome (searchSplunk sourcetypes_query "-24h" "now" 10000) two_indexes
      = Return results /\
    iterate results = Return rows /\
    total_indexes two_indexes_result
      = Z.of_nat (List.length (indexes two_indexes_result)) /\
    total_sourcetypes two_indexes_result = Z.of_nat (List.length rows) /\
    total_sourcetypes two_indexes_result
      = total_rows (sourcetypes two_indexes_result) /\
    Forall (fun row => ~ ungroupable row) rows.
Proof.
  refine (getIndexesAndSourcetypes_counts two_indexes two_indexes_result _).
  vm_compute. reflexivity.
Defined.

(** X15.  When a result row of the search is null or undefined, or its index
    has the name of a member of Object.prototype (constructor, toString,
    __proto__, ...), getIndexesAndSourcetypes fails with a TypeError:
    the grouping object is a plain object, so the inherited member is
    found in place of a list and has no push. *)
Theorem getIndexesAndSourcetypes_ungroupable_row (up : upstream params value)
    (indexes : list value) (results : value) (rows : list value) :
  outcome listIndexes up = Return indexes ->
  outcome (searchSplunk sourcetypes_query "-24h" "now" 10000) up
    = Return results ->
  iterate results = Return rows ->
  Exists ungroupable rows ->
  outcome getIndexesAndSourcetypes up = Throw TypeError.
Proof.
  intros Hi Hs Hit Hex. unfold outcome at 1.
  rewrite getIndexesAndSourcetypes_run, Hi, Hs. cbn. rewrite Hit. cbn.
  rewrite group_all_aborts by exact Hex. reflexivity.
Qed.

Lemma getIndexesAndSourcetypes_ungroupable_row_witness :
  outcome getIndexesAndSourcetypes constructor_row = Throw TypeError.
Proof.
  apply (getIndexesAndSourcetypes_ungroupable_row constructor_row []
           (VArr [VObj [("index", VStr "constructor");
                        ("sourcetype", VStr "access_log");
                        ("count", VStr "1")]])
           [VObj [("index", VStr "constructor");
                  ("sourcetype", VStr "access_log");
                  ("count", VStr "1")]]);
    try reflexivity.
  constructor. right. vm_compute. apply list_elem_of_here.
Defined.


(** ** KV store collections: fields and statistics *)

(** X16.  For every collection built from an entry of the KV store listing:
    its fields are exactly the content keys that start with 'field.',
    with that prefix removed, its accelerated_fields exactly those that
    start with 'accelerated_field.', its name is the entry's name, and
    its app is never missing or empty. *)
Theorem collection_of_fields (st : stats_object) (entry : value)
    (c : KVStoreCollection) :
  collection_of st entry = Return c ->
  (forall f, In f (kv_fields c)
             <-> In ("field." +:+ f) (keys_of (prop "content" entry))) /\
  (forall f, In f (kv_accelerated_fields c)
             <-> In ("accelerated_field." +:+ f) (keys_of (prop "content" entry))) /\
  kv_name c = prop "name" entry /\
  truthy (kv_app c) = true.
Proof.
  unfold collection_of, prop. intros H.
  destruct (get entry "name") as [n|]; [|discriminate]. cbn in H.
  destruct (get entry "content") as [content|]; [|discriminate]. cbn in H.
  destruct (get entry "acl") as [acl|]; [|discriminate]. cbn in H.
  destruct (get_opt acl "app") as [a|]; [|discriminate]. cbn in H.
  injection H as <-. cbn [kv_fields kv_accelerated_fields kv_name kv_app].
  split; [intros f; apply field_names_spec|].
  split; [intros f; apply field_names_spec|].
  split; [reflexivity|].
  unfold or_else. destruct (truthy a) eqn:Ha; [exact Ha|reflexivity].
Qed.

Lemma collection_of_fields_witness :
  (forall f, In f ["id"; "name"]
             <-> In ("field." +:+ f) (keys_of (prop "content" lookup_table))) /\
  (forall f, In f ["name"]
             <-> In ("accelerated_field." +:+ f)
                   (keys_of (prop "content" lookup_table))) /\
  VStr "lookup_table" = prop "name" lookup_table /\
  truthy (VStr "search") = true.
Proof.
  apply (collection_of_fields empty_stats lookup_table
           (mkCollection (VStr "lookup_table") (VStr "search")
              ["id"; "name"] ["name"] (VNum 0))).
  reflexivity.
Defined.

Section Statistics.
Variable text_is_positive : string -> bool.
Variable JSON_parse : string -> completion value.

Lemma stats_step_item (st : stats_object) (item : value)
    (stat : string * value) :
  stat_item JSON_parse item stat ->
  stats_step JSON_parse st item
    = mkStats (<[fst stat := snd stat]> (own st)) (proto st).
Proof.
  intros (fs & Hitem & Hns & Hne & Hproto & Hcount & Hdef).
  unfold stats_step.
  assert (match item with VStr s => JSON_parse s | _ => Return item end
          = Return (VObj fs)) as ->.
  { destruct Hitem as [-> | (s & -> & Hs)]; [reflexivity|exact Hs]. }
  cbn. rewrite Hns, Hcount. cbn.
  rewrite (proj2 (String.eqb_neq (fst stat) "")) by exact Hne. cbn.
  destruct (snd stat) eqn:Hv; try congruence; cbn; unfold stats_set;
    rewrite (proj2 (String.eqb_neq (fst stat) "__proto__")) by exact Hproto;
    reflexivity.
Qed.

Lemma fold_stats_items (items : list value) (stats : list (string * value))
    (st : stats_object) :
  Forall2 (stat_item JSON_parse) items stats ->
  fold_left (stats_step JSON_parse) items st
    = mkStats (list_to_map (reverse stats) ∪ own st) (proto st).
Proof.
  intros H. revert st. induction H as [|item stat items stats Hitem Hrest IH];
    intros st.
  - cbn. rewrite (left_id_L ∅ (∪)). destruct st; reflexivity.
  - cbn [fold_left]. rewrite IH, (stats_step_item _ _ _ Hitem). cbn [own proto].
    f_equal. rewrite reverse_cons, list_to_map_app. cbn [list_to_map foldr].
    rewrite <- (assoc_L (∪)). f_equal.
    rewrite insert_union_singleton_l, insert_empty. reflexivity.
Qed.


Lemma collect_Forall {A} (f : value -> completion A) (P : A -> Prop)
    (entries : list value) :
  (forall entry a, f entry = Return a -> P a) ->
  Forall P (collect f entries).
Proof.
  intros Hf. induction entries as [|entry rest IH]; [constructor|].
  cbn [collect]. destruct (f entry) as [a|] eqn:Ha; [|exact IH].
  constructor; [exact (Hf _ _ Ha)|exact IH].
Qed.

(** X17.  When the statistics request answers with a list of items, each an
    object or the JSON text of an object with a non-empty ns other than
    '__proto__' and a count, and the listing request answers with
    entries, listKVStoreCollections returns collections whose record_count
    is the count of the last item whose ns is '<app>.<name>', and 0 when
    there is none or that count is falsy. *)
Theorem listKVStoreCollections_counts_from_stats
    (up : upstream params value) (statsData entry0 content data : value)
    (rest items entries : list value) (stats : list (string * value)) :
  up stats_request = Return statsData ->
  get statsData "entry" = Return (VArr (entry0 :: rest)) ->
  get entry0 "content" = Return content ->
  get content "data" = Return (VArr items) ->
  Forall2 (stat_item JSON_parse) items stats ->
  up collections_request = Return data ->
  entries_of data = Return entries ->
  exists collections,
    outcome (listKVStoreCollections text_is_positive JSON_parse) up
      = Return collections /\
    Forall (fun c =>
              kv_record_count c =
                or_else (default VUndef
                           ((list_to_map (reverse stats) : gmap string value)
                              !! stats_key c))
                        (VNum 0))
      collections.
Proof.
  intros Hup Hentry Hcontent Hdata Hitems Hcols Hentries.
  assert (stats_in_use text_is_positive JSON_parse up
          = mkStats (list_to_map (reverse stats)) ObjectPrototype) as Hst.
  { unfold stats_in_use, fetch_stats. run_client. fold stats_request.
    rewrite Hup. cbn. rewrite Hentry. cbn. rewrite Hcontent. cbn.
    rewrite Hdata. cbn. rewrite (fold_stats_items _ _ _ Hitems). cbn.
    rewrite (right_id_L ∅ (∪)). reflexivity. }
  eexists. split.
  - unfold outcome. rewrite listKVStoreCollections_run, Hst. cbn [fst].
    rewrite Hcols. cbn. rewrite Hentries. reflexivity.
  - apply collect_Forall. intros entry c Hc.
    rewrite (collection_of_record_count _ _ _ Hc). unfold stats_get.
    cbn [own proto]. destruct (_ !! stats_key c); reflexivity.
Qed.

End Statistics.

Lemma listKVStoreCollections_counts_from_stats_witness :
  exists collections,
    outcome (listKVStoreCollections never_positive no_parser) stats_available
      = Return collections /\
    Forall (fun c =>
              kv_record_count c =
                or_else (default VUndef
                           ((list_to_map
                               (reverse [("search.lookup_table", VNum 100);
                                         ("security.threat_list", VNum 50)])
                             : gmap string value) !! stats_key c))
                        (VNum 0))
      collections.
Proof.
  eapply (listKVStoreCollections_counts_from_stats never_positive no_parser
            stats_available); try reflexivity.
  repeat constructor; eexists; (split; [left; reflexivity|]);
    repeat split; discriminate.
Defined.

End SplunkExtra.

(* ===================================================================== *)
(** * Further properties of SignalFxClient and of the entry process *)
(* ===================================================================== *)

Module SignalFxExtra.
Import JS Http SignalFx Spec SignalFxProps SignalFxMore Server SpecTraces.

(** ** parseTrace *)

Lemma first_occurrences_length {A} `{EqDecision A} (xs : list A) :
  (List.length (first_occurrences xs) <= List.length xs)%nat.
Proof.
  induction xs as [|x rest IH]; [reflexivity|].
  cbn [first_occurrences List.length].
  pose proof (List.filter_length_le
                (fun y => negb (bool_decide (y = x))) (first_occurrences rest)).
  lia.
Qed.

(** X19.  parseTrace keeps every span of the payload, in order, with its
    identifier and service name; the services list is never longer than
    the spans list and is empty exactly when there are no spans. *)
Theorem parseTrace_counts (traceData : RawTrace) :
  let t := parseTrace traceData in
  let raw := from_option id [] (raw_spans traceData) in
  List.length (spans t) = List.length raw /\
  List.map spanId (spans t) = List.map raw_spanId raw /\
  List.map serviceName (spans t) = List.map raw_serviceName raw /\
  (List.length (services t) <= List.length (spans t))%nat /\
  (services t = [] <-> spans t = []).
Proof.
  cbn zeta. unfold parseTrace. cbn [spans services].
  set (raw := from_option id [] (raw_spans traceData)).
  rewrite unique_first_occurrences.
  split; [apply List.length_map|].
  split; [rewrite List.map_map; reflexivity|].
  split; [rewrite List.map_map; reflexivity|].
  split.
  - rewrite <- (List.length_map serviceName (List.map parseSpan raw)).
    apply first_occurrences_length.
  - destruct (List.map parseSpan raw) as [|s ss]; [tauto|].
    cbn [List.map first_occurrences]. split; discriminate.
Qed.

(** ** buildTraceQuery and searchTraces *)

Section Keys.
Variable P : string -> Prop.

Lemma set_if_defined_keys {A} (inj : A -> value) (k : string) (x : option A)
    (q : query) :
  P k -> Forall (fun kv => P (fst kv)) q ->
  Forall (fun kv => P (fst kv)) (set_if_defined inj k x q).
Proof.
  intros Hk Hq. destruct x; cbn [set_if_defined]; [|exact Hq].
  apply Forall_app. split; [exact Hq|]. repeat constructor. exact Hk.
Qed.

Lemma set_if_truthy_keys (k : string) (x : option string) (q : query) :
  P k -> Forall (fun kv => P (fst kv)) q ->
  Forall (fun kv => P (fst kv)) (set_if_truthy k x q).
Proof.
  intros Hk Hq. rewrite set_if_truthy_nonempty. apply set_if_defined_keys;
    assumption.
Qed.

End Keys.

Lemma buildTraceQuery_shape (c : TraceSearchCriteria) :
  exists filters,
    buildTraceQuery c =
      filters ++ [("limit", VNum (nonzero_or 100 (c_limit c)));
                  ("offset", VNum (nonzero_or 0 (c_offset c)))] /\
    Forall (fun kv => In (fst kv) ["service"; "operation"; "tags"; "minDuration";
                                   "maxDuration"; "error"; "startTime"; "endTime"])
      filters.
Proof.
  unfold buildTraceQuery. rewrite !number_or_nonzero. cbn zeta.
  eexists. split; [rewrite <- app_assoc; reflexivity|].
  pose (P := fun k : string =>
               In k ["service"; "operation"; "tags"; "minDuration";
                     "maxDuration"; "error"; "startTime"; "endTime"]).
  change (Forall (fun kv : string * value => P (fst kv))
            (set_if_defined VNum "endTime" (c_endTime c)
               (set_if_defined VNum "startTime" (c_startTime c)
                  (set_if_defined VBool "error" (c_error c)
                     (set_if_defined VNum "maxDuration" (c_maxDuration c)
                        (set_if_defined VNum "minDuration" (c_minDuration c)
                           (set_if_defined VObj "tags" (c_tags c)
                              (set_if_truthy "operation" (c_operation c)
                                 (set_if_truthy "service" (c_service c)
                                    []))))))))).
  repeat (first [apply (set_if_defined_keys P) | apply (set_if_truthy_keys P)];
          [unfold P; cbn; tauto|]).
  constructor.
Qed.

Lemma assoc_app_miss (k k' : string) (v : value) (q : query) :
  k <> k' -> assoc k (q ++ [(k', v)]) = assoc k q.
Proof.
  intros Hne. unfold assoc. induction q as [|[k0 v0] q IH].
  - cbn. rewrite (proj2 (String.eqb_neq k k')) by assumption. reflexivity.
  - cbn [app List.find fst]. destruct (String.eqb k k0); [reflexivity|exact IH].
Qed.

Lemma assoc_app_hit (k : string) (v : value) (q : query) :
  assoc k q = None -> assoc k (q ++ [(k, v)]) = Some v.
Proof.
  unfold assoc. induction q as [|[k0 v0] q IH]; intros Hq.
  - cbn. rewrite String.eqb_refl. reflexivity.
  - cbn [app List.find fst] in *.
    destruct (String.eqb k k0); [discriminate|auto].
Qed.

Lemma assoc_filters (k : string) (filters : query) :
  Forall (fun kv => In (fst kv) ["service"; "operation"; "tags"; "minDuration";
                                 "maxDuration"; "error"; "startTime"; "endTime"])
    filters ->
  k = "limit" \/ k = "offset" ->
  assoc k filters = None.
Proof.
  intros Hf Hk. unfold assoc. induction Hf as [|[k0 v0] rest Hin Hrest IH];
    [reflexivity|].
  cbn [List.find fst]. destruct (String.eqb k k0) eqn:E; [|exact IH].
  apply String.eqb_eq in E. subst k0. cbn in Hin.
  destruct Hk as [-> | ->]; intuition discriminate.
Qed.

Lemma buildTraceQuery_limit_field (c : TraceSearchCriteria) :
  assoc "limit" (buildTraceQuery c) = Some (VNum (nonzero_or 100 (c_limit c))).
Proof.
  destruct (buildTraceQuery_shape c) as (filters & -> & Hf).
  change (filters ++ [?a; ?b]) with (filters ++ [a] ++ [b]).
  rewrite app_assoc, assoc_app_miss by discriminate.
  apply assoc_app_hit. apply assoc_filters; [exact Hf|left; reflexivity].
Qed.

Lemma buildTraceQuery_offset_field (c : TraceSearchCriteria) :
  assoc "offset" (buildTraceQuery c) = Some (VNum (nonzero_or 0 (c_offset c))).
Proof.
  destruct (buildTraceQuery_shape c) as (filters & -> & Hf).
  change (filters ++ [?a; ?b]) with (filters ++ [a] ++ [b]).
  rewrite app_assoc. apply assoc_app_hit.
  rewrite assoc_app_miss by discriminate.
  apply assoc_filters; [exact Hf|right; reflexivity].
Qed.

(** X20.  The body built by buildTraceQuery holds no key other than service,
    operation, tags, minDuration, maxDuration, error, startTime,
    endTime, limit and offset; its limit is never 0; and for criteria
    that give no filter it consists of limit and offset alone. *)
Theorem buildTraceQuery_keys (c : TraceSearchCriteria) :
  Forall (fun kv => In (fst kv) query_keys) (buildTraceQuery c) /\
  assoc "limit" (buildTraceQuery c) <> Some (VNum 0) /\
  (c_service c = None -> c_operation c = None -> c_tags c = None ->
   c_minDuration c = None -> c_maxDuration c = None -> c_error c = None ->
   c_startTime c = None -> c_endTime c = None ->
   buildTraceQuery c = [("limit", VNum (nonzero_or 100 (c_limit c)));
                        ("offset", VNum (nonzero_or 0 (c_offset c)))]).
Proof.
  split; [|split].
  - destruct (buildTraceQuery_shape c) as (filters & -> & Hf).
    apply Forall_app. split.
    + eapply Forall_impl; [exact Hf|]. intros kv Hkv. unfold query_keys.
      cbn in *. tauto.
    + repeat constructor; cbn; tauto.
  - pose proof (buildTraceQuery_limit_field c) as ->.
    destruct (c_limit c) as [[| |]|]; discriminate.
  - intros Hs Ho Ht Hmn Hmx He Hst Hen. unfold buildTraceQuery.
    rewrite Hs, Ho, Ht, Hmn, Hmx, He, Hst, Hen, !number_or_nonzero. reflexivity.
Qed.


Lemma searchTraces_run (criteria : TraceSearchCriteria)
    (up : upstream query SearchData) :
  run (searchTraces criteria) up =
    (data ← up (search_request criteria);
     mret (let traces :=
             List.map parseTrace (from_option id [] (data_traces data)) in
           mkResult traces
             (number_or (data_totalCount data) (Z.of_nat (List.length traces)))
             (number_or (c_limit criteria) 100)
             (number_or (c_offset criteria) 0)),
     [search_request criteria]).
Proof.
  unfold searchTraces, run, try_catch_io, send, mbind, mret, io_mbind, io_mret,
    io_bind, io_ret. fold (search_request criteria).
  destruct (up (search_request criteria)); reflexivity.
Qed.

(** X21.  searchTraces issues exactly one request, the POST of the built query
    to /traces/search, and fails with the upstream's error when that
    fails; the limit and offset of a result it returns are the ones it
    sent in the body, the limit is never 0, and a totalCount of 0 is
    reported only with an empty list of traces. *)
Theorem searchTraces_reports_what_it_sent (criteria : TraceSearchCriteria)
    (up : upstream query SearchData) :
  requests (searchTraces criteria) up = [search_request criteria] /\
  (forall e, up (search_request criteria) = Throw e ->
             outcome (searchTraces criteria) up = Throw e) /\
  (forall result,
     outcome (searchTraces criteria) up = Return result ->
     assoc "limit" (req_data (search_request criteria))
       = Some (VNum (limit result)) /\
     assoc "offset" (req_data (search_request criteria))
       = Some (VNum (offset result)) /\
     limit result <> 0 /\
     (totalCount result = 0 -> traces result = [])).
Proof.
  unfold requests, outcome. rewrite searchTraces_run. cbn [fst snd].
  split; [reflexivity|]. split.
  - intros e ->. reflexivity.
  - intros result. destruct (up (search_request criteria)) as [data|];
      [|discriminate].
    cbn. intros [= <-]. cbn [limit offset totalCount traces req_data search_request].
    rewrite buildTraceQuery_limit_field, buildTraceQuery_offset_field,
      !number_or_nonzero.
    split; [reflexivity|]. split; [reflexivity|]. split.
    + destruct (c_limit criteria) as [[| |]|]; discriminate.
    + destruct (data_totalCount data) as [[| |]|]; cbn; try discriminate;
        intros H; apply List.length_zero_iff_nil; lia.
Qed.

(** ** Arguments that must be there *)

Lemma append_assoc_s (a b c : string) : (a +:+ b) +:+ c = a +:+ b +:+ c.
Proof.
  induction a as [|x a IH]; [reflexivity|].
  change (String x a +:+ b) with (String x (a +:+ b)).
  change (String x (a +:+ b) +:+ c) with (String x ((a +:+ b) +:+ c)).
  rewrite IH. reflexivity.
Qed.

Section Required.
Variable num : Type.
Variable falsy : num -> bool.
Variable zero : num.

(** X22.  getServiceOperations, getLatencyMetrics and getErrorMetrics called
    with an empty service name fail with 'Service name is required', and
    getTraceDetails called with an empty trace id fails with 'Trace ID
    is required', in each case before any request is issued; and these
    are the only calls of the four methods that issue no request. *)
Theorem empty_argument_is_rejected_before_any_request
    (up1 : upstream query OperationsData) (up2 : upstream query RawTrace)
    (up3 : upstream query (LatencyData num))
    (up4 : upstream query (ErrorData num)) (operation : option string)
    (serviceName traceId : string) :
  run (getServiceOperations "") up1
    = (Throw (Error "Service name is required"), []) /\
  run (getTraceDetails "") up2
    = (Throw (Error "Trace ID is required"), []) /\
  run (getLatencyMetrics num falsy zero "" operation) up3
    = (Throw (Error "Service name is required"), []) /\
  run (getErrorMetrics num falsy zero "" operation) up4
    = (Throw (Error "Service name is required"), []) /\
  (requests (getServiceOperations serviceName) up1 = [] <-> serviceName = "") /\
  (requests (getTraceDetails traceId) up2 = [] <-> traceId = "") /\
  (requests (getLatencyMetrics num falsy zero serviceName operation) up3 = []
     <-> serviceName = "") /\
  (requests (getErrorMetrics num falsy zero serviceName operation) up4 = []
     <-> serviceName = "").
Proof.
  do 4 (split; [reflexivity|]).
  unfold requests, run, getServiceOperations, getTraceDetails,
    getLatencyMetrics, getErrorMetrics.
  destruct (String.eqb_spec serviceName "") as [->|Hs],
           (String.eqb_spec traceId "") as [->|Ht];
    repeat split; try reflexivity; try contradiction; intros H; exfalso;
    revert H;
    unfold try_catch_io, send, mbind, mret, io_mbind, io_mret, io_bind, io_ret;
    match goal with
    | |- context [up1 ?r] => destruct (up1 r)
    | |- context [up2 ?r] => destruct (up2 r)
    | |- context [up3 ?r] => destruct (up3 r)
    | |- context [up4 ?r] => destruct (up4 r)
    end; discriminate.
Qed.

(** X23.  For a non-empty service, getLatencyMetrics and getErrorMetrics each
    issue exactly one GET, to
    /services/<service>/operations/<operation>/latency (resp. /errors)
    when an operation is given and not empty, and to
    /services/<service>/latency (resp. /errors) otherwise; the metrics
    they return carry the service and the operation of the call as given
    (an empty operation stays empty). *)
Theorem metrics_follow_the_operation (service : string)
    (operation : option string) (up3 : upstream query (LatencyData num))
    (up4 : upstream query (ErrorData num)) :
  service <> "" ->
  let scope := match nonempty operation with
               | Some op => "/services/" +:+ service +:+ "/operations/" +:+ op
               | None => "/services/" +:+ service
               end in
  requests (getLatencyMetrics num falsy zero service operation) up3
    = [mkRequest GET (scope +:+ "/latency") []] /\
  requests (getErrorMetrics num falsy zero service operation) up4
    = [mkRequest GET (scope +:+ "/errors") []] /\
  (forall m, outcome (getLatencyMetrics num falsy zero service operation) up3
               = Return m ->
             lat_service num m = service /\ lat_operation num m = operation) /\
  (forall m, outcome (getErrorMetrics num falsy zero service operation) up4
               = Return m ->
             err_service num m = service /\ err_operation num m = operation).
Proof.
  intros Hs. cbn zeta.
  unfold getLatencyMetrics, getErrorMetrics, requests, outcome, run.
  rewrite (proj2 (String.eqb_neq service "")) by exact Hs.
  unfold try_catch_io, send, mbind, mret, io_mbind, io_mret, io_bind, io_ret,
    metrics_path.
  assert (forall kind,
            (if truthy_string operation
             then "/services/" +:+ service +:+ "/operations/"
                    +:+ from_option id "" operation +:+ "/" +:+ kind
             else "/services/" +:+ service +:+ "/" +:+ kind)
            = match nonempty operation with
              | Some op => "/services/" +:+ service +:+ "/operations/" +:+ op
              | None => "/services/" +:+ service
              end +:+ "/" +:+ kind) as Hpath.
  { intros kind. destruct operation as [[|c op]|]; cbn [truthy_string nonempty
      String.eqb negb from_option id]; rewrite ?append_assoc_s; reflexivity. }
  rewrite !Hpath.
  split; [destruct (up3 _); reflexivity|].
  split; [destruct (up4 _); reflexivity|].
  split; intros m.
  - destruct (up3 _); [|discriminate]. cbn. intros [= <-]. split; reflexivity.
  - destruct (up4 _); [|discriminate]. cbn. intros [= <-]. split; reflexivity.
Qed.

End Required.


Lemma metrics_follow_the_operation_witness :
  requests (getLatencyMetrics Z (Z.eqb 0) 0 "auth-service" (Some "login"))
    no_latency
    = [mkRequest GET
         (("/services/" +:+ "auth-service" +:+ "/operations/" +:+ "login")
            +:+ "/latency") []] /\
  requests (getErrorMetrics Z (Z.eqb 0) 0 "auth-service" (Some "login"))
    no_errors
    = [mkRequest GET
         (("/services/" +:+ "auth-service" +:+ "/operations/" +:+ "login")
            +:+ "/errors") []] /\
  (forall m, outcome (getLatencyMetrics Z (Z.eqb 0) 0 "auth-service"
                        (Some "login")) no_latency = Return m ->
             lat_service Z m = "auth-service" /\
             lat_operation Z m = Some "login") /\
  (forall m, outcome (getErrorMetrics Z (Z.eqb 0) 0 "auth-service"
                        (Some "login")) no_errors = Return m ->
             err_service Z m = "auth-service" /\
             err_operation Z m = Some "login").
Proof.
  apply (metrics_follow_the_operation Z (Z.eqb 0) 0 "auth-service"
           (Some "login") no_latency no_errors).
  discriminate.
Defined.

(** ** getServiceOperations *)

(** X24.  For a non-empty service name whose operations request is answered,
    getServiceOperations issues that single GET and returns one
    operation per operation of the answer (none when the answer has no
    operations field), in order and under its name, each labelled with
    the service name of the call. *)
Theorem getServiceOperations_labels_operations (serviceName : string)
    (up : upstream query OperationsData) (data : OperationsData) :
  serviceName <> "" ->
  up (mkRequest GET ("/services/" +:+ serviceName +:+ "/operations") [])
    = Return data ->
  exists operations,
    run (getServiceOperations serviceName) up
      = (Return operations,
         [mkRequest GET ("/services/" +:+ serviceName +:+ "/operations") []]) /\
    List.map op_name operations
      = List.map raw_op_name (from_option id [] (data_operations data)) /\
    Forall (fun op => op_serviceName op = serviceName) operations.
Proof.
  intros Hs Hup. unfold getServiceOperations.
  rewrite (proj2 (String.eqb_neq serviceName "")) by exact Hs.
  unfold run, try_catch_io, send, mbind, mret, io_mbind, io_mret, io_bind, io_ret.
  rewrite Hup. eexists. split; [reflexivity|]. split.
  - rewrite List.map_map. reflexivity.
  - apply List.Forall_forall. intros op Hop. apply List.in_map_iff in Hop.
    destruct Hop as (raw & <- & _). reflexivity.
Qed.

Lemma getServiceOperations_labels_operations_witness :
  exists operations,
    run (getServiceOperations "auth-service") two_operations
      = (Return operations,
         [mkRequest GET ("/services/" +:+ "auth-service" +:+ "/operations") []]) /\
    List.map op_name operations
      = List.map raw_op_name
          (from_option id []
             (data_operations
                (mkOperationsData
                   (Some [mkRawOperation (Some "login") (Some "server") None;
                          mkRawOperation (Some "logout") None None])))) /\
    Forall (fun op => op_serviceName op = "auth-service") operations.
Proof.
  apply (getServiceOperations_labels_operations "auth-service" two_operations);
    [discriminate|reflexivity].
Defined.

(** ** The constructor and the entry process *)

(** X25.  The constructor of SignalFxClient fails with 'SignalFx access token
    is required' for an empty access token; otherwise the client sends
    that token, and its base URL is the configured baseUrl when that is
    given and not empty, and https://api.<realm>.signalfx.com/v2/apm
    otherwise, with realm us0 when none is given or it is empty. *)
Theorem new_SignalFxClient_base_url (config : SignalFxConfig) :
  (accessToken config = "" ->
     new_SignalFxClient config
       = Throw (Error "SignalFx access token is required")) /\
  (accessToken config <> "" ->
     exists client,
       new_SignalFxClient config = Return client /\
       client_token client = accessToken config /\
       (forall url, nonempty (baseUrl config) = Some url ->
                    client_baseUrl client = url) /\
       (nonempty (baseUrl config) = None ->
          client_baseUrl client =
            "https://api."
              +:+ match nonempty (realm config) with
                  | Some r => r
                  | None => "us0"
                  end
              +:+ ".signalfx.com/v2/apm")).
Proof.
  unfold new_SignalFxClient. split.
  - intros ->. reflexivity.
  - intros Ht. rewrite (proj2 (String.eqb_neq _ "")) by exact Ht.
    eexists. split; [reflexivity|]. cbn [client_token client_baseUrl].
    split; [reflexivity|]. split.
    + intros url. destruct (baseUrl config) as [[|c u]|]; cbn; congruence.
    + destruct (baseUrl config) as [[|c u]|]; cbn; try discriminate;
        intros _; destruct (realm config) as [[|c r]|]; reflexivity.
Qed.

(** X26.  The entry process builds a SignalFx client exactly when
    SIGNALFX_ACCESS_TOKEN is set and not empty, and the construction
    then never fails and the client sends that token; ping reports the
    capabilities splunk, signalfx and traces with a client, and splunk
    alone without one. *)
Theorem signalFxClient_follows_the_token (env : Env) :
  (nonempty (SIGNALFX_ACCESS_TOKEN env) = None ->
     signalFxClient env = Return None /\
     ping_capabilities None = ["splunk"]) /\
  (forall token, nonempty (SIGNALFX_ACCESS_TOKEN env) = Some token ->
     exists client,
       signalFxClient env = Return (Some client) /\
       client_token client = token /\
       ping_capabilities (Some client) = ["splunk"; "signalfx"; "traces"]).
Proof.
  unfold signalFxClient, signalFxConfig. split.
  - destruct (SIGNALFX_ACCESS_TOKEN env) as [[|c t]|]; cbn; try discriminate;
      intros _; split; reflexivity.
  - intros token.
    destruct (SIGNALFX_ACCESS_TOKEN env) as [[|c t]|]; cbn; try discriminate.
    intros [= <-]. eexists. repeat split.
Qed.


Lemma lower_char_false_letter (c d : ascii) :
  In d (list_ascii_of_string "false") ->
  Ascii.eqb (lower_char c) d = same_letter c d.
Proof.
  cbn. intros H.
  repeat (destruct H as [<-|H];
          [destruct c as [[] [] [] [] [] [] [] []]; vm_compute; reflexivity|]).
  contradiction.
Qed.

Lemma lower_equals_any_case (p s : string) :
  (forall d c, In d (list_ascii_of_string p) ->
               Ascii.eqb (lower_char c) d = same_letter c d) ->
  toLowerCase s = p <-> is_word_any_case p s.
Proof.
  unfold is_word_any_case. revert s. induction p as [|d p IH]; intros s Hp.
  - destruct s; cbn; [tauto|]. split; [discriminate|intros [_ H]; discriminate H].
  - destruct s as [|c s]; cbn [toLowerCase has_prefix_any_case String.length].
    + split; [discriminate|tauto].
    + rewrite <- SplunkProps.same_letter_spec, <- (Hp d c) by (left; reflexivity).
      specialize (IH s (fun d' c' H => Hp d' c' (or_intror H))).
      rewrite Ascii.eqb_eq. split.
      * intros [= Hc Hs]. apply IH in Hs. destruct Hs. repeat split; auto.
      * intros [[Hc Hpre] Hlen]. f_equal; [exact Hc|].
        apply IH. split; [exact Hpre|lia].
Qed.

(** X27.  Certificate verification is switched off exactly when VERIFY_SSL is
    set to the word 'false' in any mix of upper and lower case; unset,
    empty or any other text ('0', 'no', ' false') leaves it on. *)
Theorem verifySSL_is_off_only_for_false (env : Env) :
  verifySSL_of env = false <->
  exists s, VERIFY_SSL env = Some s /\ is_word_any_case "false" s.
Proof.
  unfold verifySSL_of. destruct (VERIFY_SSL env) as [s|].
  - rewrite negb_false_iff, String.eqb_eq,
      (lower_equals_any_case "false" s)
      by (intros d c Hd; apply lower_char_false_letter; exact Hd).
    split; [intros H; exists s; split; [reflexivity|exact H]|].
    intros (s' & [= <-] & H). exact H.
  - split; [discriminate|intros (s & H & _); discriminate H].
Qed.

(** ** The handler of search_traces *)

Lemma search_traces_body (args : SearchTracesArgs) :
  let body := buildTraceQuery (search_traces_criteria args) in
  assoc "tags" body = None /\
  assoc "startTime" body = None /\
  assoc "endTime" body = None /\
  assoc "limit" body = Some (VNum (nonzero_or 100 (arg_limit args))) /\
  assoc "offset" body = Some (VNum (nonzero_or 0 (arg_offset args))) /\
  assoc "error" body = VBool <$> arg_has_errors args.
Proof.
  cbn zeta.
  rewrite buildTraceQuery_limit_field, buildTraceQuery_offset_field.
  unfold search_traces_criteria. cbn [c_limit c_offset].
  rewrite !number_or_nonzero.
  unfold buildTraceQuery.
  cbn [c_service c_operation c_tags c_minDuration c_maxDuration c_error
       c_limit c_offset c_startTime c_endTime set_if_defined].
  rewrite !set_if_truthy_nonempty.
  destruct args as [s o mn mx e l off]; cbn [arg_service arg_operation
    arg_min_duration arg_max_duration arg_has_errors arg_limit arg_offset].
  split; [|split; [|split; [|split; [|split]]]];
    try (destruct (nonempty s), (nonempty o), mn, mx, e; reflexivity);
    try (destruct l as [[| |]|]; reflexivity);
    destruct off as [[| |]|]; reflexivity.
Qed.

(** X28.  The tool search_traces is registered, and has a handler, exactly
    when there is a client; so the check for a client inside the
    handler never fails.  Every call of the handler issues the one POST
    to /traces/search, whose body never holds tags, startTime or
    endTime, always holds limit (the argument, 100 when missing or 0)
    and offset (the argument, 0 when missing), and holds error exactly
    when has_errors is given. *)
Theorem search_traces_tool_body (signalFxClient : option SignalFxClient) :
  (In "search_traces" (registered_tools signalFxClient)
     <-> is_Some signalFxClient) /\
  (is_Some (search_traces_tool signalFxClient) <-> is_Some signalFxClient) /\
  (forall handler args (up : upstream query SearchData),
     search_traces_tool signalFxClient = Some handler ->
     let body := buildTraceQuery (search_traces_criteria args) in
     requests (handler args) up = [mkRequest POST "/traces/search" body] /\
     assoc "tags" body = None /\
     assoc "startTime" body = None /\
     assoc "endTime" body = None /\
     assoc "limit" body = Some (VNum (nonzero_or 100 (arg_limit args))) /\
     assoc "offset" body = Some (VNum (nonzero_or 0 (arg_offset args))) /\
     assoc "error" body = VBool <$> arg_has_errors args).
Proof.
  split; [|split].
  - destruct signalFxClient as [client|]; cbn.
    + split; [intros _; eexists; reflexivity|]. intros _.
      do 13 right. left. reflexivity.
    + split; [|intros [? [=]]].
      intros H. repeat (destruct H as [H|H]; [discriminate H|]). destruct H.
  - destruct signalFxClient as [client|]; cbn;
      split; intros [? H]; try discriminate H; eexists; reflexivity.
  - intros handler args up Hh.
    destruct signalFxClient as [client|]; [|discriminate Hh].
    injection Hh as <-. cbn zeta. split; [|apply search_traces_body].
    cbn [search_traces_handler]. unfold requests. rewrite searchTraces_run.
    reflexivity.
Qed.

End SignalFxExtra.
